(** * Form builder with Airtable: models, routes and their properties

    A shallow embedding of the backend of the form builder:
    - [backend/models/Response.js], [backend/models/User.js] and the Form
      model (Mongoose schemas, instance methods, statics, pre-save hooks);
    - the form routes (create, read, update, delete, duplicate) and the
      auth routes (OAuth initiation and callback, profile endpoints).

    Mongo collections are finite maps from [_id] to documents, JavaScript
    values are a small inductive type with the language's truthiness, and
    the two [Math.round((a / b) * 100)] computations are evaluated in
    IEEE-754 binary64 as the runtime does. *)

From Stdlib Require Import ZArith Floats.SpecFloat.
From stdpp Require Import gmap strings list fin_maps pretty.

Set Warnings "-register-all".
Open Scope Z_scope.

(* ===================================================================== *)
(** * JavaScript values and numbers *)
(* ===================================================================== *)

Module JS.

(** A JavaScript value, as it occurs in request bodies, in [Mixed]
    schema paths and in JSON response bodies.  Numbers that are stored
    in such values are integers in every place the routes look at. *)
Inductive Value :=
| VUndefined
| VNull
| VBool (b : bool)
| VNumber (n : Z)
| VString (s : string)
| VArray (items : list Value)
| VObject (props : list (string * Value)).

(** [ToBoolean]: what [if (v)], [!v] and [a || b] look at. *)
Definition truthy (v : Value) : bool :=
  match v with
  | VUndefined | VNull => false
  | VBool b => b
  | VNumber n => negb (n =? 0)
  | VString s => negb (String.eqb s EmptyString)
  | VArray _ | VObject _ => true
  end.

(** [v === ''] and [v === null]. *)
Definition is_empty_string (v : Value) : bool :=
  match v with VString s => String.eqb s EmptyString | _ => false end.

Definition is_null (v : Value) : bool :=
  match v with VNull => true | _ => false end.

(** Whether a property named [k] occurs anywhere inside a value, and
    whether the string [s] occurs anywhere as a string value: what a
    reader of the serialised JSON text can find in it. *)
Fixpoint has_key (k : string) (v : Value) : bool :=
  match v with
  | VArray items => existsb (has_key k) items
  | VObject props =>
      existsb (fun kv => let '(k', v') := kv in
                         String.eqb k' k || has_key k v') props
  | _ => false
  end.

Fixpoint contains_string (s : string) (v : Value) : bool :=
  match v with
  | VString s' => String.eqb s' s
  | VArray items => existsb (contains_string s) items
  | VObject props =>
      existsb (fun kv => let '(_, v') := kv in contains_string s v') props
  | _ => false
  end.

(** [obj.k] on an object value. *)
Definition get_prop (k : string) (v : Value) : Value :=
  match v with
  | VObject props =>
      match List.find (fun kv => String.eqb kv.1 k) props with
      | Some kv => kv.2
      | None => VUndefined
      end
  | _ => VUndefined
  end.

(** Truthiness of a string and of a number on their own. *)
Definition truthy_string (s : string) : bool := negb (String.eqb s EmptyString).
Definition truthy_number (n : Z) : bool := negb (n =? 0).

(** ** Numbers: IEEE-754 binary64 *)

Definition prec : Z := 53.
Definition emax : Z := 1024.

Definition Number := spec_float.

(** The double nearest to an integer (exact below 2^53, which covers
    every counter of the application). *)
Definition of_Z (z : Z) : Number :=
  match z with
  | Z0 => S754_zero false
  | _ => binary_normalize prec emax z 0 false
  end.

Definition div (x y : Number) : Number := SFdiv prec emax x y.
Definition mul (x y : Number) : Number := SFmul prec emax x y.

(** [Math.round]: the integer closest to [x], ties towards +infinity,
    that is the floor of [x + 1/2] computed exactly.  A finite double is
    [n * 2^e]; [NaN] and the infinities do not arise from a quotient of
    two counters with a positive divisor and are mapped to 0. *)
Definition Math_round (x : Number) : Z :=
  match x with
  | S754_finite s m e =>
      let n := if s then Z.neg m else Z.pos m in
      if 0 <=? e then n * 2 ^ e
      else (2 * n + 2 ^ (- e)) / 2 ^ (1 - e)
  | _ => 0
  end.

(** [Math.round((a / b) * 100)], the expression of both pre-save hooks. *)
Definition round_ratio_times_100 (a b : Z) : Z :=
  Math_round (mul (div (of_Z a) (of_Z b)) (of_Z 100)).

(** The specification's [round(100 * a / b)] over the rationals: the
    integer nearest to [100a/b], ties upwards, for [b > 0]. *)
Definition spec_round_percent (a b : Z) : Z :=
  (2 * (100 * a) + b) / (2 * b).

(** [100a/b] lies exactly halfway between two integers. *)
Definition is_tie (a b : Z) : bool := (200 * a) mod (2 * b) =? b.

(** The hook's value against the exact rounding: equal, or one below it
    at a tie. *)
Definition close_to_spec (a b : Z) : bool :=
  (round_ratio_times_100 a b =? spec_round_percent a b)
  || (is_tie a b && (round_ratio_times_100 a b =? spec_round_percent a b - 1)).

(** The check over every pair [0 <= a <= b], [1 <= b <= n]. *)
Definition close_to_spec_up_to (n : nat) : bool :=
  forallb (fun b =>
             forallb (fun a => close_to_spec (Z.of_nat a) (Z.of_nat b))
                     (seq 0 (S b)))
          (seq 1 n).

End JS.

(** Document identifiers ([ObjectId], compared through [toString()]) and
    timestamps (milliseconds since the epoch). *)
Definition ObjectId := string.
Definition Date := Z.

(* ===================================================================== *)
(** * backend/models/Response.js *)
(* ===================================================================== *)

Module Response.

Inductive FieldType :=
| singleLineText | multilineText | singleSelect | multipleSelect | attachment.

Record FileInfo := {
  originalName : string;
  filename : string;
  size : Z;
  mimetype : string;
  url : string
}.

Record FieldResponse := {
  fieldId : string;
  fieldLabel : string;
  fieldType : FieldType;
  value : JS.Value;
  files : list FileInfo
}.

Record SubmittedBy := {
  ip : option string;
  userAgent : option string;
  referrer : option string;
  email : option string;
  name : option string
}.

Inductive Status := pending | submitted | failed | synced.

Definition Status_eqb (a b : Status) : bool :=
  match a, b with
  | pending, pending | submitted, submitted
  | failed, failed | synced, synced => true
  | _, _ => false
  end.

Record ErrorEntry := {
  timestamp : Date;
  message : string;
  details : JS.Value
}.

Record SyncStatus := {
  lastSyncAttempt : option Date;
  syncAttempts : Z;
  lastSyncError : option string;
  isSynced : bool
}.

(** [completionPercentage] is [None] when the stored path is null or
    missing; a document built by the constructor always has a number
    there, because the schema gives the path a default. *)
Record Metadata := {
  timeToComplete : option Z;
  deviceType : option string;
  browserInfo : option string;
  completionPercentage : option Z
}.

Record t := {
  _id : ObjectId;
  formId : ObjectId;
  airtableBaseId : string;
  airtableTableId : string;
  airtableRecordId : option string;
  responses : list FieldResponse;
  submittedBy : SubmittedBy;
  status : Status;
  errors : list ErrorEntry;
  syncStatus : SyncStatus;
  metadata : Metadata
}.

(** Field updates ([this.x = v]). *)
Definition set_status (s : Status) (r : t) : t :=
  {| _id := _id r; formId := formId r; airtableBaseId := airtableBaseId r;
     airtableTableId := airtableTableId r;
     airtableRecordId := airtableRecordId r; responses := responses r;
     submittedBy := submittedBy r; status := s; errors := errors r;
     syncStatus := syncStatus r; metadata := metadata r |}.

Definition set_errors (es : list ErrorEntry) (r : t) : t :=
  {| _id := _id r; formId := formId r; airtableBaseId := airtableBaseId r;
     airtableTableId := airtableTableId r;
     airtableRecordId := airtableRecordId r; responses := responses r;
     submittedBy := submittedBy r; status := status r; errors := es;
     syncStatus := syncStatus r; metadata := metadata r |}.

Definition set_airtableRecordId (rid : option string) (r : t) : t :=
  {| _id := _id r; formId := formId r; airtableBaseId := airtableBaseId r;
     airtableTableId := airtableTableId r;
     airtableRecordId := rid; responses := responses r;
     submittedBy := submittedBy r; status := status r; errors := errors r;
     syncStatus := syncStatus r; metadata := metadata r |}.

Definition set_syncStatus (ss : SyncStatus) (r : t) : t :=
  {| _id := _id r; formId := formId r; airtableBaseId := airtableBaseId r;
     airtableTableId := airtableTableId r;
     airtableRecordId := airtableRecordId r; responses := responses r;
     submittedBy := submittedBy r; status := status r; errors := errors r;
     syncStatus := ss; metadata := metadata r |}.

Definition set_metadata (md : Metadata) (r : t) : t :=
  {| _id := _id r; formId := formId r; airtableBaseId := airtableBaseId r;
     airtableTableId := airtableTableId r;
     airtableRecordId := airtableRecordId r; responses := responses r;
     submittedBy := submittedBy r; status := status r; errors := errors r;
     syncStatus := syncStatus r; metadata := md |}.

Definition set_completionPercentage (p : option Z) (md : Metadata) : Metadata :=
  {| timeToComplete := timeToComplete md; deviceType := deviceType md;
     browserInfo := browserInfo md; completionPercentage := p |}.

(** ** Construction: [new Response({...})]

    The constructor input leaves out what a caller may leave out; the
    schema defaults fill it in: [status: 'pending'], [syncAttempts: 0],
    [isSynced: false] and [completionPercentage: 100]. *)
Record Input := {
  in_formId : ObjectId;
  in_airtableBaseId : string;
  in_airtableTableId : string;
  in_responses : list FieldResponse;
  in_submittedBy : SubmittedBy;
  in_timeToComplete : option Z;
  in_deviceType : option string;
  in_browserInfo : option string;
  in_completionPercentage : option Z
}.

Definition default_completionPercentage : Z := 100.

Definition new (id : ObjectId) (i : Input) : t :=
  {| _id := id;
     formId := in_formId i;
     airtableBaseId := in_airtableBaseId i;
     airtableTableId := in_airtableTableId i;
     airtableRecordId := None;
     responses := in_responses i;
     submittedBy := in_submittedBy i;
     status := pending;
     errors := [];
     syncStatus := {| lastSyncAttempt := None; syncAttempts := 0;
                      lastSyncError := None; isSynced := false |};
     metadata :=
       {| timeToComplete := in_timeToComplete i;
          deviceType := in_deviceType i;
          browserInfo := in_browserInfo i;
          completionPercentage :=
            Some (default default_completionPercentage
                          (in_completionPercentage i)) |} |}.

(** ** Pre-save middleware *)

(** [!this.metadata.completionPercentage] *)
Definition completionPercentage_unset (md : Metadata) : bool :=
  match completionPercentage md with
  | None => true
  | Some p => negb (JS.truthy_number p)
  end.

(** [r.value && r.value !== '' && r.value !== null] *)
Definition answered (r : FieldResponse) : bool :=
  JS.truthy (value r)
  && negb (JS.is_empty_string (value r))
  && negb (JS.is_null (value r)).

Definition pre_save (r : t) : t :=
  if completionPercentage_unset (metadata r) then
    let totalFields := Z.of_nat (length (responses r)) in
    let completedFields :=
      Z.of_nat (length (List.filter answered (responses r))) in
    let p :=
      if 0 <? totalFields
      then JS.round_ratio_times_100 completedFields totalFields
      else 0 in
    set_metadata (set_completionPercentage (Some p) (metadata r)) r
  else r.

(** ** The collection and [doc.save()] *)

Definition save (r : t) (coll : gmap ObjectId t) : t * gmap ObjectId t :=
  let r' := pre_save r in (r', <[_id r' := r']> coll).

(** ** Instance methods *)

(** The [error] argument of [updateSyncAttempt]: nothing, a message
    string, or an [Error] object with its [message]. *)
Inductive SyncError :=
| NoError
| ErrorString (msg : string)
| ErrorObject (msg : string).

(** [if (error)] *)
Definition SyncError_truthy (e : SyncError) : bool :=
  match e with
  | NoError => false
  | ErrorString msg => JS.truthy_string msg
  | ErrorObject _ => true
  end.

(** [error.message || error], cast to the path's [String] type. *)
Definition SyncError_text (e : SyncError) : string :=
  match e with
  | NoError => EmptyString
  | ErrorString msg => msg
  | ErrorObject msg => if JS.truthy_string msg then msg else "Error"
  end.

Definition addError (message : string) (details : JS.Value) (now : Date)
    (r : t) (coll : gmap ObjectId t) : t * gmap ObjectId t :=
  let r1 :=
    set_errors (errors r ++ [ {| timestamp := now; message := message;
                                 details := details |} ]) r in
  let r2 := set_status failed r1 in
  save r2 coll.

Definition markAsSynced (recordId : string) (now : Date)
    (r : t) (coll : gmap ObjectId t) : t * gmap ObjectId t :=
  let r1 := set_airtableRecordId (Some recordId) r in
  let r2 := set_status synced r1 in
  let ss := syncStatus r2 in
  let r3 :=
    set_syncStatus {| lastSyncAttempt := Some now;
                      syncAttempts := syncAttempts ss;
                      lastSyncError := lastSyncError ss;
                      isSynced := true |} r2 in
  save r3 coll.

Definition updateSyncAttempt (error : SyncError) (now : Date)
    (r : t) (coll : gmap ObjectId t) : t * gmap ObjectId t :=
  let ss := syncStatus r in
  let ss1 := {| lastSyncAttempt := Some now;
                syncAttempts := syncAttempts ss + 1;
                lastSyncError := lastSyncError ss;
                isSynced := isSynced ss |} in
  let r1 := set_syncStatus ss1 r in
  let r2 :=
    if SyncError_truthy error then
      set_status failed
        (set_syncStatus {| lastSyncAttempt := lastSyncAttempt ss1;
                           syncAttempts := syncAttempts ss1;
                           lastSyncError := Some (SyncError_text error);
                           isSynced := isSynced ss1 |} r1)
    else r1 in
  save r2 coll.

(** ** Statics *)

(** The query document of [findPendingSync]:
    [{ 'syncStatus.isSynced': false,
       'syncStatus.syncAttempts': { $lt: 3 },
       status: { $ne: 'synced' } }]. *)
Definition pendingSyncQuery (r : t) : bool :=
  Bool.eqb (isSynced (syncStatus r)) false
  && (syncAttempts (syncStatus r) <? 3)
  && negb (Status_eqb (status r) synced).

Definition find (query : t -> bool) (coll : gmap ObjectId t)
    : gmap ObjectId t :=
  filter (fun kr => query kr.2 = true) coll.

Definition findPendingSync (coll : gmap ObjectId t) : gmap ObjectId t :=
  find pendingSyncQuery coll.

(** [deleteMany({ formId })] *)
Definition deleteMany_formId (fid : ObjectId) (coll : gmap ObjectId t)
    : gmap ObjectId t :=
  filter (fun kr => formId kr.2 <> fid) coll.

(** The operations of the Response lifecycle, for statements that range
    over all of them. *)
Inductive Op :=
| OpAddError (message : string) (details : JS.Value) (now : Date)
| OpUpdateSyncAttempt (error : SyncError) (now : Date)
| OpMarkAsSynced (recordId : string) (now : Date).

Definition run (op : Op) (r : t) (coll : gmap ObjectId t)
    : t * gmap ObjectId t :=
  match op with
  | OpAddError m d now => addError m d now r coll
  | OpUpdateSyncAttempt e now => updateSyncAttempt e now r coll
  | OpMarkAsSynced rid now => markAsSynced rid now r coll
  end.

(** The operations that assign [this.status = 'failed']. *)
Definition sets_failed (op : Op) : bool :=
  match op with
  | OpAddError _ _ _ => true
  | OpUpdateSyncAttempt e _ => SyncError_truthy e
  | OpMarkAsSynced _ _ => false
  end.

(** ** The [responseData] virtual

    [data[response.fieldId] = response.value] for every answer in turn; the
    result is the object's own properties.  An assignment to the key
    [__proto__] sets no own property. *)
Definition responseData (r : t) : gmap string JS.Value :=
  fold_left
    (fun data response =>
       if String.eqb (fieldId response) "__proto__" then data
       else <[fieldId response := value response]> data)
    (responses r) ∅.

(** ** [getFormAnalytics]

    [createdAt] gives the creation timestamp that the schema's
    [timestamps] option keeps for each document, [dateToString] is the
    [%Y-%m-%d] rendering of [$dateToString]; [startDate] and [endDate] are
    the dates that the two arguments parse to, [None] for an argument
    that is missing or empty. *)
Record DayStatus := {
  date : string;
  day_status : Status
}.

Record Analytics := {
  totalResponses : Z;
  successfulSubmissions : Z;
  averageCompletionTime : option JS.Number;
  responsesByDay : list DayStatus
}.

Section Aggregation.

Variable createdAt : t -> Date.
Variable dateToString : Date -> string.

(** The [$match] stage. *)
Definition analytics_match (fid : ObjectId) (startDate endDate : option Date)
    (r : t) : bool :=
  String.eqb (formId r) fid
  && match startDate, endDate with
     | Some s, Some e => (s <=? createdAt r) && (createdAt r <=? e)
     | _, _ => true
     end.

(** [$avg]: the mean of the values that are numbers, [null] without any. *)
Definition avg (values : list (option Z)) : option JS.Number :=
  let numbers := omap id values in
  match numbers with
  | [] => None
  | _ => Some (JS.div (JS.of_Z (foldr Z.add 0 numbers))
                      (JS.of_Z (Z.of_nat (length numbers))))
  end.

(** The [$group] stage over the matched documents, with [_id: null]: one
    group when there is a document, none otherwise. *)
Definition analytics_group (docs : list t) : list Analytics :=
  match docs with
  | [] => []
  | _ =>
      [ {| totalResponses := Z.of_nat (length docs);
           successfulSubmissions :=
             Z.of_nat (length (List.filter
                                 (fun r => Status_eqb (status r) synced) docs));
           averageCompletionTime :=
             avg (map (fun r => timeToComplete (metadata r)) docs);
           responsesByDay :=
             map (fun r => {| date := dateToString (createdAt r);
                              day_status := status r |}) docs |} ]
  end.

Definition getFormAnalytics (fid : ObjectId) (startDate endDate : option Date)
    (coll : gmap ObjectId t) : list Analytics :=
  analytics_group
    (map snd (map_to_list
                (filter (fun kr => analytics_match fid startDate endDate kr.2
                                    = true) coll))).

End Aggregation.

(** [n] sync attempts in a row, each with its own outcome. *)
Definition attempt (r : t) (e : SyncError * Date) : t :=
  (updateSyncAttempt e.1 e.2 r ∅).1.

Definition attempts (outcomes : list (SyncError * Date)) (r : t) : t :=
  fold_left attempt outcomes r.

Definition is_addError (op : Op) : bool :=
  match op with OpAddError _ _ _ => true | _ => false end.

Definition is_updateSyncAttempt (op : Op) : bool :=
  match op with OpUpdateSyncAttempt _ _ => true | _ => false end.

(** A sequence of lifecycle operations on one document. *)
Definition runs (ops : list Op) (r : t) : t :=
  fold_left (fun r op => (run op r ∅).1) ops r.

End Response.

(* ===================================================================== *)
(** * backend/models/User.js *)
(* ===================================================================== *)

Module User.

Record Profile := {
  name : option string;
  avatarUrl : option string;
  airtableUsername : option string
}.

Record t := {
  _id : ObjectId;
  email : string;
  airtableUserId : string;
  airtableAccessToken : string;
  airtableRefreshToken : option string;
  airtableTokenExpiresAt : option Date;
  profile : Profile;
  isActive : bool;
  lastLoginAt : Date;
  createdAt : Date;
  updatedAt : Date
}.

Definition set_tokens (access : string) (refresh : option string)
    (expires : option Date) (u : t) : t :=
  {| _id := _id u; email := email u; airtableUserId := airtableUserId u;
     airtableAccessToken := access; airtableRefreshToken := refresh;
     airtableTokenExpiresAt := expires; profile := profile u;
     isActive := isActive u; lastLoginAt := lastLoginAt u;
     createdAt := createdAt u; updatedAt := updatedAt u |}.

Definition set_profile_name (n : string) (u : t) : t :=
  {| _id := _id u; email := email u; airtableUserId := airtableUserId u;
     airtableAccessToken := airtableAccessToken u;
     airtableRefreshToken := airtableRefreshToken u;
     airtableTokenExpiresAt := airtableTokenExpiresAt u;
     profile := {| name := Some n; avatarUrl := avatarUrl (profile u);
                   airtableUsername := airtableUsername (profile u) |};
     isActive := isActive u; lastLoginAt := lastLoginAt u;
     createdAt := createdAt u; updatedAt := updatedAt u |}.

Definition set_updatedAt (d : Date) (u : t) : t :=
  {| _id := _id u; email := email u; airtableUserId := airtableUserId u;
     airtableAccessToken := airtableAccessToken u;
     airtableRefreshToken := airtableRefreshToken u;
     airtableTokenExpiresAt := airtableTokenExpiresAt u;
     profile := profile u;
     isActive := isActive u; lastLoginAt := lastLoginAt u;
     createdAt := createdAt u; updatedAt := d |}.

(** [isTokenExpired]: no expiry means never expired. *)
Definition isTokenExpired (now : Date) (u : t) : bool :=
  match airtableTokenExpiresAt u with
  | None => false
  | Some t => t <? now
  end.

(** Pre-save middleware and [save]. *)
Definition pre_save (now : Date) (u : t) : t := set_updatedAt now u.

Definition save (now : Date) (u : t) (coll : gmap ObjectId t)
    : t * gmap ObjectId t :=
  let u' := pre_save now u in (u', <[_id u' := u']> coll).

(** ** Plain objects *)

(** A path that holds nothing is left out of the plain object. *)
Definition opt_prop (k : string) (f : string -> JS.Value) (o : option string)
    : list (string * JS.Value) :=
  match o with Some s => [(k, f s)] | None => [] end.

Definition opt_date (k : string) (o : option Date)
    : list (string * JS.Value) :=
  match o with Some d => [(k, JS.VNumber d)] | None => [] end.

Definition Profile_toObject (p : Profile) : JS.Value :=
  JS.VObject (opt_prop "name" JS.VString (name p)
              ++ opt_prop "avatarUrl" JS.VString (avatarUrl p)
              ++ opt_prop "airtableUsername" JS.VString (airtableUsername p)).

(** [this.toObject()]: every path of the document. *)
Definition toObject (u : t) : list (string * JS.Value) :=
  [ ("_id", JS.VString (_id u));
    ("email", JS.VString (email u));
    ("airtableUserId", JS.VString (airtableUserId u));
    ("airtableAccessToken", JS.VString (airtableAccessToken u)) ]
  ++ opt_prop "airtableRefreshToken" JS.VString (airtableRefreshToken u)
  ++ opt_date "airtableTokenExpiresAt" (airtableTokenExpiresAt u)
  ++ [ ("profile", Profile_toObject (profile u));
       ("isActive", JS.VBool (isActive u));
       ("lastLoginAt", JS.VNumber (lastLoginAt u));
       ("createdAt", JS.VNumber (createdAt u));
       ("updatedAt", JS.VNumber (updatedAt u)) ].

(** [delete obj.k] *)
Definition delete_prop (k : string) (o : list (string * JS.Value))
    : list (string * JS.Value) :=
  List.filter (fun kv => negb (String.eqb kv.1 k)) o.

(** [toJSON]: the plain object without the two token paths. *)
Definition toJSON (u : t) : JS.Value :=
  let userObject := toObject u in
  let userObject := delete_prop "airtableAccessToken" userObject in
  let userObject := delete_prop "airtableRefreshToken" userObject in
  JS.VObject userObject.

End User.

(* ===================================================================== *)
(** * The Form model *)
(* ===================================================================== *)

Module Form.

Inductive Operator :=
| equals | not_equals | contains | not_contains | is_empty | is_not_empty.

Record ConditionalRule := {
  rule_fieldId : string;
  operator : Operator;
  rule_value : JS.Value
}.

Record FieldOption := {
  option_id : option string;
  option_name : option string;
  color : option string
}.

Record Field := {
  airtableFieldId : string;
  airtableFieldName : string;
  airtableFieldType : Response.FieldType;
  label : string;
  placeholder : option string;
  field_description : option string;
  required : bool;
  options : list FieldOption;
  showWhen : list ConditionalRule;
  order : Z;
  isVisible : bool
}.

Record Settings := {
  allowMultipleSubmissions : bool;
  requireLogin : bool;
  showProgressBar : bool;
  submitButtonText : string;
  successMessage : string;
  redirectUrl : option string
}.

Record Stats := {
  totalViews : Z;
  totalSubmissions : Z;
  conversionRate : Z
}.

Record ShareSettings := {
  isPublic : bool;
  shareUrl : option string;
  embedCode : option string
}.

(** [isNew] is Mongoose's flag of a document that was never saved. *)
Record t := {
  _id : ObjectId;
  isNew : bool;
  title : string;
  description : option string;
  userId : ObjectId;
  airtableBaseId : string;
  airtableBaseName : string;
  airtableTableId : string;
  airtableTableName : string;
  fields : list Field;
  settings : Settings;
  isActive : bool;
  isPublished : bool;
  stats : Stats;
  shareSettings : ShareSettings
}.

Definition set_stats (s : Stats) (f : t) : t :=
  {| _id := _id f; isNew := isNew f; title := title f;
     description := description f; userId := userId f;
     airtableBaseId := airtableBaseId f;
     airtableBaseName := airtableBaseName f;
     airtableTableId := airtableTableId f;
     airtableTableName := airtableTableName f;
     fields := fields f; settings := settings f; isActive := isActive f;
     isPublished := isPublished f; stats := s;
     shareSettings := shareSettings f |}.

Definition set_shareSettings (s : ShareSettings) (f : t) : t :=
  {| _id := _id f; isNew := isNew f; title := title f;
     description := description f; userId := userId f;
     airtableBaseId := airtableBaseId f;
     airtableBaseName := airtableBaseName f;
     airtableTableId := airtableTableId f;
     airtableTableName := airtableTableName f;
     fields := fields f; settings := settings f; isActive := isActive f;
     isPublished := isPublished f; stats := stats f;
     shareSettings := s |}.

Definition set_isNew (b : bool) (f : t) : t :=
  {| _id := _id f; isNew := b; title := title f;
     description := description f; userId := userId f;
     airtableBaseId := airtableBaseId f;
     airtableBaseName := airtableBaseName f;
     airtableTableId := airtableTableId f;
     airtableTableName := airtableTableName f;
     fields := fields f; settings := settings f; isActive := isActive f;
     isPublished := isPublished f; stats := stats f;
     shareSettings := shareSettings f |}.

(** The owner's edits of [PUT /api/forms/:id]. *)
Definition set_title (s : string) (f : t) : t :=
  {| _id := _id f; isNew := isNew f; title := s;
     description := description f; userId := userId f;
     airtableBaseId := airtableBaseId f;
     airtableBaseName := airtableBaseName f;
     airtableTableId := airtableTableId f;
     airtableTableName := airtableTableName f;
     fields := fields f; settings := settings f; isActive := isActive f;
     isPublished := isPublished f; stats := stats f;
     shareSettings := shareSettings f |}.

Definition set_description (d : option string) (f : t) : t :=
  {| _id := _id f; isNew := isNew f; title := title f;
     description := d; userId := userId f;
     airtableBaseId := airtableBaseId f;
     airtableBaseName := airtableBaseName f;
     airtableTableId := airtableTableId f;
     airtableTableName := airtableTableName f;
     fields := fields f; settings := settings f; isActive := isActive f;
     isPublished := isPublished f; stats := stats f;
     shareSettings := shareSettings f |}.

Definition set_fields (l : list Field) (f : t) : t :=
  {| _id := _id f; isNew := isNew f; title := title f;
     description := description f; userId := userId f;
     airtableBaseId := airtableBaseId f;
     airtableBaseName := airtableBaseName f;
     airtableTableId := airtableTableId f;
     airtableTableName := airtableTableName f;
     fields := l; settings := settings f; isActive := isActive f;
     isPublished := isPublished f; stats := stats f;
     shareSettings := shareSettings f |}.

Definition set_settings (s : Settings) (f : t) : t :=
  {| _id := _id f; isNew := isNew f; title := title f;
     description := description f; userId := userId f;
     airtableBaseId := airtableBaseId f;
     airtableBaseName := airtableBaseName f;
     airtableTableId := airtableTableId f;
     airtableTableName := airtableTableName f;
     fields := fields f; settings := s; isActive := isActive f;
     isPublished := isPublished f; stats := stats f;
     shareSettings := shareSettings f |}.

Definition set_isActive (b : bool) (f : t) : t :=
  {| _id := _id f; isNew := isNew f; title := title f;
     description := description f; userId := userId f;
     airtableBaseId := airtableBaseId f;
     airtableBaseName := airtableBaseName f;
     airtableTableId := airtableTableId f;
     airtableTableName := airtableTableName f;
     fields := fields f; settings := settings f; isActive := b;
     isPublished := isPublished f; stats := stats f;
     shareSettings := shareSettings f |}.

Definition set_isPublished (b : bool) (f : t) : t :=
  {| _id := _id f; isNew := isNew f; title := title f;
     description := description f; userId := userId f;
     airtableBaseId := airtableBaseId f;
     airtableBaseName := airtableBaseName f;
     airtableTableId := airtableTableId f;
     airtableTableName := airtableTableName f;
     fields := fields f; settings := settings f; isActive := isActive f;
     isPublished := b; stats := stats f;
     shareSettings := shareSettings f |}.

(** ** Plain objects

    What a request body carries for a field or for the settings, and what
    [toObject()] gives back for a stored one: every property may be
    absent, and the field type is still a string. *)
Record FieldObject := {
  o_airtableFieldId : option string;
  o_airtableFieldName : option string;
  o_airtableFieldType : option string;
  o_label : option string;
  o_placeholder : option string;
  o_description : option string;
  o_required : option bool;
  o_options : list FieldOption;
  o_showWhen : list ConditionalRule;
  o_order : option Z;
  o_isVisible : option bool
}.

Record SettingsObject := {
  o_allowMultipleSubmissions : option bool;
  o_requireLogin : option bool;
  o_showProgressBar : option bool;
  o_submitButtonText : option string;
  o_successMessage : option string;
  o_redirectUrl : option string
}.

Definition empty_settings_object : SettingsObject :=
  {| o_allowMultipleSubmissions := None; o_requireLogin := None;
     o_showProgressBar := None; o_submitButtonText := None;
     o_successMessage := None; o_redirectUrl := None |}.

(** [{ ...field, order: v }] *)
Definition with_order (v : Z) (o : FieldObject) : FieldObject :=
  {| o_airtableFieldId := o_airtableFieldId o;
     o_airtableFieldName := o_airtableFieldName o;
     o_airtableFieldType := o_airtableFieldType o;
     o_label := o_label o;
     o_placeholder := o_placeholder o;
     o_description := o_description o;
     o_required := o_required o;
     o_options := o_options o;
     o_showWhen := o_showWhen o;
     o_order := Some v;
     o_isVisible := o_isVisible o |}.

(** [{ ...a, ...b }] *)
Definition spread_settings (a b : SettingsObject) : SettingsObject :=
  {| o_allowMultipleSubmissions :=
       o_allowMultipleSubmissions b ∪ o_allowMultipleSubmissions a;
     o_requireLogin := o_requireLogin b ∪ o_requireLogin a;
     o_showProgressBar := o_showProgressBar b ∪ o_showProgressBar a;
     o_submitButtonText := o_submitButtonText b ∪ o_submitButtonText a;
     o_successMessage := o_successMessage b ∪ o_successMessage a;
     o_redirectUrl := o_redirectUrl b ∪ o_redirectUrl a |}.

(** The enum of [airtableFieldType]. *)
Definition FieldType_name (t : Response.FieldType) : string :=
  match t with
  | Response.singleLineText => "singleLineText"
  | Response.multilineText => "multilineText"
  | Response.singleSelect => "singleSelect"
  | Response.multipleSelect => "multipleSelect"
  | Response.attachment => "attachment"
  end.

Definition FieldType_of_name (s : string) : option Response.FieldType :=
  if String.eqb s "singleLineText" then Some Response.singleLineText
  else if String.eqb s "multilineText" then Some Response.multilineText
  else if String.eqb s "singleSelect" then Some Response.singleSelect
  else if String.eqb s "multipleSelect" then Some Response.multipleSelect
  else if String.eqb s "attachment" then Some Response.attachment
  else None.

(** A [required: true] string path: present and not empty. *)
Definition required_string (o : option string) : option string :=
  match o with
  | Some s => if JS.truthy_string s then Some s else None
  | None => None
  end.

(** Casting a plain object to a field subdocument under the schema's
    validators: the four required strings, the enum, the required
    order; [required] and [isVisible] take their defaults.  [None] is
    the validation error that Mongoose raises at the save. *)
Definition cast_field (o : FieldObject) : option Field :=
  id ← required_string (o_airtableFieldId o);
  nm ← required_string (o_airtableFieldName o);
  tyname ← required_string (o_airtableFieldType o);
  ty ← FieldType_of_name tyname;
  lbl ← required_string (o_label o);
  ord ← o_order o;
  Some {| airtableFieldId := id;
          airtableFieldName := nm;
          airtableFieldType := ty;
          label := lbl;
          placeholder := o_placeholder o;
          field_description := o_description o;
          required := default false (o_required o);
          options := o_options o;
          showWhen := o_showWhen o;
          order := ord;
          isVisible := default true (o_isVisible o) |}.

Definition cast_fields (l : list FieldObject) : option (list Field) :=
  mapM cast_field l.

Definition Field_toObject (f : Field) : FieldObject :=
  {| o_airtableFieldId := Some (airtableFieldId f);
     o_airtableFieldName := Some (airtableFieldName f);
     o_airtableFieldType := Some (FieldType_name (airtableFieldType f));
     o_label := Some (label f);
     o_placeholder := placeholder f;
     o_description := field_description f;
     o_required := Some (required f);
     o_options := options f;
     o_showWhen := showWhen f;
     o_order := Some (order f);
     o_isVisible := Some (isVisible f) |}.

Definition Settings_toObject (s : Settings) : SettingsObject :=
  {| o_allowMultipleSubmissions := Some (allowMultipleSubmissions s);
     o_requireLogin := Some (requireLogin s);
     o_showProgressBar := Some (showProgressBar s);
     o_submitButtonText := Some (submitButtonText s);
     o_successMessage := Some (successMessage s);
     o_redirectUrl := redirectUrl s |}.

(** Casting the settings: absent paths take the schema defaults. *)
Definition cast_settings (o : SettingsObject) : Settings :=
  {| allowMultipleSubmissions := default true (o_allowMultipleSubmissions o);
     requireLogin := default false (o_requireLogin o);
     showProgressBar := default true (o_showProgressBar o);
     submitButtonText := default "Submit" (o_submitButtonText o);
     successMessage :=
       default "Thank you for your submission!" (o_successMessage o);
     redirectUrl := o_redirectUrl o |}.

(** A stored field satisfies the validators it was saved under. *)
Definition valid_field (f : Field) : bool :=
  JS.truthy_string (airtableFieldId f)
  && JS.truthy_string (airtableFieldName f)
  && JS.truthy_string (label f).

(** ** Construction: [new Form({...})] with the schema defaults

    The input is the plain object handed to the constructor.  The result
    is [None] when the document would be refused by the validators; the
    routes only ever save a document right after building it, so the
    refusal is raised where the document is built. *)

Definition default_stats : Stats :=
  {| totalViews := 0; totalSubmissions := 0; conversionRate := 0 |}.

Definition default_shareSettings : ShareSettings :=
  {| isPublic := true; shareUrl := None; embedCode := None |}.

Record Input := {
  in_title : option string;
  in_description : option string;
  in_userId : ObjectId;
  in_airtableBaseId : option string;
  in_airtableBaseName : option string;
  in_airtableTableId : option string;
  in_airtableTableName : option string;
  in_fields : list FieldObject;
  in_settings : SettingsObject;
  in_isActive : option bool;
  in_isPublished : option bool
}.

Definition new (id : ObjectId) (i : Input) : option t :=
  ttl ← required_string (in_title i);
  baseId ← required_string (in_airtableBaseId i);
  baseName ← required_string (in_airtableBaseName i);
  tableId ← required_string (in_airtableTableId i);
  tableName ← required_string (in_airtableTableName i);
  fs ← cast_fields (in_fields i);
  Some {| _id := id;
          isNew := true;
          title := ttl;
          description := in_description i;
          userId := in_userId i;
          airtableBaseId := baseId;
          airtableBaseName := baseName;
          airtableTableId := tableId;
          airtableTableName := tableName;
          fields := fs;
          settings := cast_settings (in_settings i);
          isActive := default true (in_isActive i);
          isPublished := default false (in_isPublished i);
          stats := default_stats;
          shareSettings := default_shareSettings |}.

(** A stored Form satisfies the validators it was saved under. *)
Definition valid (f : t) : bool :=
  JS.truthy_string (title f)
  && JS.truthy_string (airtableBaseId f)
  && JS.truthy_string (airtableBaseName f)
  && JS.truthy_string (airtableTableId f)
  && JS.truthy_string (airtableTableName f)
  && forallb valid_field (fields f).

(** ** Pre-save middleware *)

Definition dquote : string :=
  String (Ascii.Ascii false true false false false true false false)
         EmptyString.

(** The embed snippet; [clientUrl] is [process.env.CLIENT_URL]. *)
Definition embed_snippet (clientUrl : string) (id : ObjectId) : string :=
  "<iframe src=" +:+ dquote +:+ clientUrl +:+ "/embed/" +:+ id +:+ dquote
  +:+ " width=" +:+ dquote +:+ "100%" +:+ dquote
  +:+ " height=" +:+ dquote +:+ "600" +:+ dquote
  +:+ " frameborder=" +:+ dquote +:+ "0" +:+ dquote +:+ "></iframe>".

(** [!this.shareSettings.shareUrl] *)
Definition shareUrl_unset (s : ShareSettings) : bool :=
  match shareUrl s with
  | None => true
  | Some u => negb (JS.truthy_string u)
  end.

Definition pre_save (clientUrl : string) (f : t) : t :=
  let f1 :=
    if isNew f || shareUrl_unset (shareSettings f) then
      set_shareSettings
        {| isPublic := isPublic (shareSettings f);
           shareUrl := Some (_id f);
           embedCode := Some (embed_snippet clientUrl (_id f)) |} f
    else f in
  if 0 <? totalViews (stats f1) then
    set_stats
      {| totalViews := totalViews (stats f1);
         totalSubmissions := totalSubmissions (stats f1);
         conversionRate :=
           JS.round_ratio_times_100 (totalSubmissions (stats f1))
                                    (totalViews (stats f1)) |} f1
  else f1.

(** ** The collection, [doc.save()] and the counters *)

Definition save (clientUrl : string) (f : t) (coll : gmap ObjectId t)
    : t * gmap ObjectId t :=
  let f' := set_isNew false (pre_save clientUrl f) in
  (f', <[_id f' := f']> coll).

Definition add_view (f : t) : t :=
  set_stats {| totalViews := totalViews (stats f) + 1;
               totalSubmissions := totalSubmissions (stats f);
               conversionRate := conversionRate (stats f) |} f.

Definition add_submission (f : t) : t :=
  set_stats {| totalViews := totalViews (stats f);
               totalSubmissions := totalSubmissions (stats f) + 1;
               conversionRate := conversionRate (stats f) |} f.

Definition incrementViews (clientUrl : string) (f : t)
    (coll : gmap ObjectId t) : t * gmap ObjectId t :=
  save clientUrl (add_view f) coll.

Definition incrementSubmissions (clientUrl : string) (f : t)
    (coll : gmap ObjectId t) : t * gmap ObjectId t :=
  save clientUrl (add_submission f) coll.

(** The document-level operations that end in a save, for statements
    about every Form the application can reach from a new one. *)
Inductive Op :=
| OpSave
| OpIncrementViews
| OpIncrementSubmissions.

Definition step (clientUrl : string) (op : Op) (f : t) : t :=
  match op with
  | OpSave => set_isNew false (pre_save clientUrl f)
  | OpIncrementViews => set_isNew false (pre_save clientUrl (add_view f))
  | OpIncrementSubmissions =>
      set_isNew false (pre_save clientUrl (add_submission f))
  end.

Definition steps (clientUrl : string) (ops : list Op) (f : t) : t :=
  fold_left (fun g op => step clientUrl op g) ops f.

(** What a saved document looks like to the share branch of the hook: it
    is not new, and if its share URL counts as unset (an empty [_id]),
    the branch would write what is already there. *)
Definition share_settled (clientUrl : string) (f : t) : Prop :=
  isNew f = false
  /\ (shareUrl_unset (shareSettings f) = true ->
      shareSettings f
      = {| isPublic := isPublic (shareSettings f);
           shareUrl := Some (_id f);
           embedCode := Some (embed_snippet clientUrl (_id f)) |}).

(** ** Statics and virtuals *)

(** [findPublished]: [find({ isActive: true, isPublished: true })]. *)
Definition findPublished (coll : gmap ObjectId t) : gmap ObjectId t :=
  filter (fun kf => isActive kf.2 = true /\ isPublished kf.2 = true) coll.

(** The [url] virtual. *)
Definition url (f : t) : string := "/form/" +:+ _id f.

(** How often an operation occurs in a sequence. *)
Definition count_op (op : Op) (ops : list Op) : Z :=
  Z.of_nat (length (List.filter
                      (fun o => match o, op with
                                | OpSave, OpSave
                                | OpIncrementViews, OpIncrementViews
                                | OpIncrementSubmissions, OpIncrementSubmissions
                                  => true
                                | _, _ => false
                                end) ops)).

(** The stats invariant of the documents the application builds: the
    view count is not negative, and the conversion rate is 0 while
    there are no views. *)
Definition zero_while_unseen (f : t) : Prop :=
  0 <= totalViews (stats f)
  /\ (totalViews (stats f) = 0 -> conversionRate (stats f) = 0).

End Form.

(* ===================================================================== *)
(** * Route handlers: control flow and the database *)
(* ===================================================================== *)

Module Http.

(** What a handler can throw into its [catch]. *)
Inductive Exception :=
| ReferenceError (msg : string)
| ValidationError (msg : string).

Definition Exception_message (e : Exception) : string :=
  match e with ReferenceError m | ValidationError m => m end.

(** A [let]/[const] binding: reading it before its initialiser has run
    throws a [ReferenceError]. *)
Inductive Binding (A : Type) :=
| Uninitialized
| Initialized (a : A).
Arguments Uninitialized {A}.
Arguments Initialized {A} a.

(** The collections, and the writes issued so far, oldest first. *)
Inductive DbWrite :=
| SaveForm (id : ObjectId)
| DeleteForm (id : ObjectId)
| DeleteResponsesOfForm (formId : ObjectId).

Record Db := {
  forms : gmap ObjectId Form.t;
  responses : gmap ObjectId Response.t;
  writes : list DbWrite
}.

Section Handlers.

(** The response type of the router at hand. *)
Context {Res : Type}.

(** A statement runs to its end, returns a response from the handler,
    or throws. *)
Inductive Outcome (A : Type) :=
| Normal (a : A)
| Returned (r : Res)
| Thrown (e : Exception).
Arguments Normal {A} a.
Arguments Returned {A} r.
Arguments Thrown {A} e.

Definition M (A : Type) : Type := Db -> Outcome A * Db.

Definition ret {A} (a : A) : M A := fun db => (Normal a, db).

Definition bind {A B} (m : M A) (k : A -> M B) : M B :=
  fun db =>
    match m db with
    | (Normal a, db') => k a db'
    | (Returned r, db') => (Returned r, db')
    | (Thrown e, db') => (Thrown e, db')
    end.

(** [return res.status(..).json(..)] *)
Definition return_ {A} (r : Res) : M A := fun db => (Returned r, db).

Definition throw {A} (e : Exception) : M A := fun db => (Thrown e, db).

Definition read {A} (name : string) (b : Binding A) : M A :=
  match b with
  | Initialized a => ret a
  | Uninitialized =>
      throw (ReferenceError
               ("Cannot access '" +:+ name +:+ "' before initialization"))
  end.

(** [try { body } catch (error) { handler }] around a whole handler. *)
Definition try_catch (body : M Res) (handler : Exception -> Res)
    (db : Db) : Res * Db :=
  match body db with
  | (Normal r, db') => (r, db')
  | (Returned r, db') => (r, db')
  | (Thrown e, db') => (handler e, db')
  end.

(** ** Model calls *)

Definition Form_findById (id : ObjectId) : M (option Form.t) :=
  fun db => (Normal (forms db !! id), db).

Definition Form_new (id : ObjectId) (i : Form.Input) : M Form.t :=
  match Form.new id i with
  | Some f => ret f
  | None => throw (ValidationError "Form validation failed")
  end.

Definition Form_save (clientUrl : string) (f : Form.t) : M Form.t :=
  fun db =>
    let '(f', coll) := Form.save clientUrl f (forms db) in
    (Normal f',
     {| forms := coll; responses := responses db;
        writes := writes db ++ [SaveForm (Form._id f')] |}).

Definition Form_incrementViews (clientUrl : string) (f : Form.t)
    : M Form.t :=
  fun db =>
    let '(f', coll) := Form.incrementViews clientUrl f (forms db) in
    (Normal f',
     {| forms := coll; responses := responses db;
        writes := writes db ++ [SaveForm (Form._id f')] |}).

Definition Form_findByIdAndDelete (id : ObjectId) : M unit :=
  fun db =>
    (Normal tt,
     {| forms := delete id (forms db); responses := responses db;
        writes := writes db ++ [DeleteForm id] |}).

Definition Response_deleteMany_formId (fid : ObjectId) : M unit :=
  fun db =>
    (Normal tt,
     {| forms := forms db;
        responses := Response.deleteMany_formId fid (responses db);
        writes := writes db ++ [DeleteResponsesOfForm fid] |}).

End Handlers.

Arguments Outcome : clear implicits.
Arguments M : clear implicits.
Arguments Normal {Res A} a.
Arguments Returned {Res A} r.
Arguments Thrown {Res A} e.

End Http.

Notation "x <- m ;; k" := (Http.bind m (fun x => k))
  (at level 100, m at next level, right associativity).
Notation "m ;;; k" := (Http.bind m (fun _ => k))
  (at level 100, right associativity).

(* ===================================================================== *)
(** * The forms router *)
(* ===================================================================== *)

Module FormsRouter.

Import Http.

Inductive Body :=
| Message (message : string)
| MessageError (message error : string)
| MessageForm (message : string) (form : Form.t)
| FormOnly (form : Form.t).

Record Res := { status : Z; body : Body }.

Definition json (code : Z) (b : Body) : Res :=
  {| status := code; body := b |}.

(** ** Request bodies *)

(** [fields] is [None] when the property is missing or not an array. *)
Record CreateBody := {
  c_title : option string;
  c_description : option string;
  c_airtableBaseId : option string;
  c_airtableBaseName : option string;
  c_airtableTableId : option string;
  c_airtableTableName : option string;
  c_fields : option (list Form.FieldObject);
  c_settings : option Form.SettingsObject
}.

Record UpdateBody := {
  u_title : option string;
  u_description : option string;
  u_fields : option (list Form.FieldObject);
  u_settings : option Form.SettingsObject;
  u_isActive : option bool;
  u_isPublished : option bool
}.

(** Truthiness of an optional string property. *)
Definition present (o : option string) : bool :=
  match o with Some s => JS.truthy_string s | None => false end.

(** [!field.airtableFieldId || !field.airtableFieldName ||
     !field.airtableFieldType || !field.label] *)
Definition missing_required (field : Form.FieldObject) : bool :=
  negb (present (Form.o_airtableFieldId field))
  || negb (present (Form.o_airtableFieldName field))
  || negb (present (Form.o_airtableFieldType field))
  || negb (present (Form.o_label field)).

(** The validation loop: the index of the first offending field. *)
Fixpoint first_invalid (i : nat) (fields : list Form.FieldObject)
    : option nat :=
  match fields with
  | [] => None
  | field :: rest =>
      if missing_required field then Some i
      else first_invalid (S i) rest
  end.

Definition field_message (i : nat) : string :=
  "Field " +:+ pretty (i + 1)%nat +:+ " is missing required properties".

(** [field.order || index] *)
Definition order_or_index (o : option Z) (index : nat) : Z :=
  match o with
  | Some n => if JS.truthy_number n then n else Z.of_nat index
  | None => Z.of_nat index
  end.

(** [fields.map((field, index) => ({ ...field, order: field.order || index }))] *)
Definition with_orders (fields : list Form.FieldObject)
    : list Form.FieldObject :=
  imap (fun index field =>
          Form.with_order (order_or_index (Form.o_order field) index) field)
       fields.

(** [req.user && form.userId.toString() === req.user.userId] *)
Definition is_owner (user : option ObjectId) (form : Form.t) : bool :=
  match user with
  | Some userId => String.eqb (Form.userId form) userId
  | None => false
  end.

(** A field object that passes the handler's check and names a type of
    the enum: what the schema accepts once the order is filled in. *)
Definition accepted_field (field : Form.FieldObject) : bool :=
  negb (missing_required field)
  && match Form.o_airtableFieldType field with
     | Some ty => bool_decide (is_Some (Form.FieldType_of_name ty))
     | None => false
     end.

Section Routes.

(** [process.env.CLIENT_URL] *)
Variable clientUrl : string.

(** ** POST /api/forms

    [userId] is [req.user.userId]; [newId] is the [_id] that the
    constructor would give the document. *)
Definition create_body (newId : ObjectId) (userId : ObjectId)
    (b : CreateBody) : M Res Res :=
  fields <-
    (match c_fields b with
     | Some fields =>
         if negb (present (c_title b))
            || negb (present (c_airtableBaseId b))
            || negb (present (c_airtableTableId b))
         then return_ (json 400 (Message
           "Missing required fields: title, airtableBaseId, airtableTableId, fields"))
         else ret fields
     | None => return_ (json 400 (Message
           "Missing required fields: title, airtableBaseId, airtableTableId, fields"))
     end) ;;
  (if (length fields =? 0)%nat
   then return_ (json 400 (Message "At least one field is required"))
   else ret tt) ;;;
  (match first_invalid 0 fields with
   | Some i => return_ (json 400 (Message (field_message i)))
   | None => ret tt
   end) ;;;
  (* const form = new Form({ ... }): the object literal is evaluated
     while [form] is still uninitialised. *)
  let form_binding : Binding Form.t := Uninitialized in
  let fields' := with_orders fields in
  form_now <- read "form" form_binding ;;
  let settings' :=
    Form.spread_settings
      (Form.Settings_toObject (Form.settings form_now))
      (default Form.empty_settings_object (c_settings b)) in
  form <- Form_new newId
            {| Form.in_title := c_title b;
               Form.in_description := c_description b;
               Form.in_userId := userId;
               Form.in_airtableBaseId := c_airtableBaseId b;
               Form.in_airtableBaseName := c_airtableBaseName b;
               Form.in_airtableTableId := c_airtableTableId b;
               Form.in_airtableTableName := c_airtableTableName b;
               Form.in_fields := fields';
               Form.in_settings := settings';
               Form.in_isActive := None;
               Form.in_isPublished := None |} ;;
  form <- Form_save clientUrl form ;;
  ret (json 201 (MessageForm "Form created successfully" form)).

Definition create (newId : ObjectId) (userId : ObjectId)
    (b : CreateBody) (db : Db) : Res * Db :=
  try_catch (create_body newId userId b)
    (fun error =>
       json 500 (MessageError "Failed to create form"
                              (Exception_message error)))
    db.

(** ** GET /api/forms/:id

    [user] is [req.user] as the optional authentication left it. *)
Definition get_body (user : option ObjectId) (id : ObjectId)
    : M Res Res :=
  found <- Form_findById id ;;
  match found with
  | None => return_ (json 404 (Message "Form not found"))
  | Some form =>
      let isOwner := is_owner user form in
      let isPublic := Form.isPublished form && Form.isActive form in
      if negb isOwner && negb isPublic
      then return_ (json 403 (Message "Access denied"))
      else
        form <- (if isPublic && negb isOwner
                 then Form_incrementViews clientUrl form
                 else ret form) ;;
        ret (json 200 (FormOnly form))
  end.

Definition get (user : option ObjectId) (id : ObjectId) (db : Db)
    : Res * Db :=
  try_catch (get_body user id)
    (fun error =>
       json 500 (MessageError "Failed to fetch form"
                              (Exception_message error)))
    db.

(** ** PUT /api/forms/:id

    [form] is [req.resource], the document that the ownership check
    loaded for its owner. *)
Definition update_body (form : Form.t) (b : UpdateBody) : M Res Res :=
  let form :=
    if present (u_title b)
    then Form.set_title (default EmptyString (u_title b)) form
    else form in
  let form :=
    match u_description b with
    | Some d => Form.set_description (Some d) form
    | None => form
    end in
  form <-
    (match u_fields b with
     | Some fields =>
         match first_invalid 0 fields with
         | Some i => return_ (json 400 (Message (field_message i)))
         | None =>
             (* The validators refuse the assigned fields when the
                document is saved; nothing is stored before that, so the
                error is raised here. *)
             match Form.cast_fields (with_orders fields) with
             | Some fs => ret (Form.set_fields fs form)
             | None => throw (ValidationError "Form validation failed")
             end
         end
     | None => ret form
     end) ;;
  let form :=
    match u_settings b with
    | Some settings =>
        Form.set_settings
          (Form.cast_settings
             (Form.spread_settings
                (Form.Settings_toObject (Form.settings form)) settings))
          form
    | None => form
    end in
  let form :=
    match u_isActive b with
    | Some v => Form.set_isActive v form
    | None => form
    end in
  let form :=
    match u_isPublished b with
    | Some v => Form.set_isPublished v form
    | None => form
    end in
  form <- Form_save clientUrl form ;;
  ret (json 200 (MessageForm "Form updated successfully" form)).

Definition update (form : Form.t) (b : UpdateBody) (db : Db)
    : Res * Db :=
  try_catch (update_body form b)
    (fun error =>
       json 500 (MessageError "Failed to update form"
                              (Exception_message error)))
    db.

(** ** DELETE /api/forms/:id *)
Definition delete_body (form : Form.t) : M Res Res :=
  Response_deleteMany_formId (Form._id form) ;;;
  Form_findByIdAndDelete (Form._id form) ;;;
  ret (json 200 (Message "Form deleted successfully")).

Definition delete (form : Form.t) (db : Db) : Res * Db :=
  try_catch (delete_body form)
    (fun error =>
       json 500 (MessageError "Failed to delete form"
                              (Exception_message error)))
    db.

(** ** POST /api/forms/:id/duplicate

    [originalForm] is [req.resource]; [title] is [req.body.title]. *)
Definition duplicate_body (newId : ObjectId) (userId : ObjectId)
    (originalForm : Form.t) (title : option string) : M Res Res :=
  duplicateForm <- Form_new newId
    {| Form.in_title :=
         Some (if present title then default EmptyString title
               else Form.title originalForm +:+ " (Copy)");
       Form.in_description := Form.description originalForm;
       Form.in_userId := userId;
       Form.in_airtableBaseId := Some (Form.airtableBaseId originalForm);
       Form.in_airtableBaseName :=
         Some (Form.airtableBaseName originalForm);
       Form.in_airtableTableId :=
         Some (Form.airtableTableId originalForm);
       Form.in_airtableTableName :=
         Some (Form.airtableTableName originalForm);
       Form.in_fields :=
         map Form.Field_toObject (Form.fields originalForm);
       Form.in_settings :=
         Form.Settings_toObject (Form.settings originalForm);
       Form.in_isActive := Some true;
       Form.in_isPublished := Some false |} ;;
  duplicateForm <- Form_save clientUrl duplicateForm ;;
  ret (json 201 (MessageForm "Form duplicated successfully"
                             duplicateForm)).

Definition duplicate (newId : ObjectId) (userId : ObjectId)
    (originalForm : Form.t) (title : option string) (db : Db)
    : Res * Db :=
  try_catch (duplicate_body newId userId originalForm title)
    (fun error =>
       json 500 (MessageError "Failed to duplicate form"
                              (Exception_message error)))
    db.

End Routes.

End FormsRouter.

(* ===================================================================== *)
(** * backend/routes/auth.js *)
(* ===================================================================== *)

Module AuthRouter.

Record Res := { status : Z; body : JS.Value }.

Definition json (code : Z) (b : JS.Value) : Res :=
  {| status := code; body := b |}.

(** [req.session] *)
Record Session := {
  oauthState : option string;
  codeVerifier : option string
}.

(** What the auth routes can read and write: the User collection and
    the caller's server-side session. *)
Record State := {
  users : gmap ObjectId User.t;
  session : Session
}.

(** [req.query] of a callback request. *)
Record CallbackQuery := {
  q_code : option string;
  q_state : option string;
  q_error : option string
}.

(** The provider's answer to a refresh: [refreshResponse.data]. *)
Record RefreshData := {
  access_token : string;
  refresh_token : option string;
  expires_in : Z
}.

Definition present (o : option string) : bool :=
  match o with Some s => JS.truthy_string s | None => false end.

Definition opt_value (o : option string) : JS.Value :=
  match o with Some s => JS.VString s | None => JS.VUndefined end.

Section Routes.

(** The environment: [AIRTABLE_CLIENT_ID], [AIRTABLE_REDIRECT_URI]. *)
Variables clientId redirectUri : string.

(** Library code: the SHA-256/base64url digest of the verifier and the
    text of a URL with its search parameters. *)
Variable codeChallenge_of : string -> string.
Variable url_text : string -> list (string * string) -> string.

(** The provider's token endpoint.  An authorization-code exchange
    resolves with [tokenResponse.data] or rejects with
    [error.response?.data]; a refresh resolves with the new tokens or
    rejects. *)
Variable exchange_code : string -> JS.Value + JS.Value.
Variable exchange_refresh : string -> option RefreshData.

(** ** GET /airtable: [state] and [codeVerifier] are the random values
    the handler draws; the session middleware has provided [req.session]. *)
Definition airtable (state codeVerifier : string) (st : State)
    : Res * State :=
  let codeChallenge := codeChallenge_of codeVerifier in
  let session' :=
    {| oauthState := Some state; codeVerifier := Some codeVerifier |} in
  let authUrl :=
    url_text "https://airtable.com/oauth2/v1/authorize"
      [ ("client_id", clientId);
        ("redirect_uri", redirectUri);
        ("response_type", "code");
        ("scope",
         "data.records:read data.records:write schema.bases:read");
        ("state", state);
        ("code_challenge", codeChallenge);
        ("code_challenge_method", "S256") ] in
  (json 200 (JS.VObject [("authUrl", JS.VString authUrl)]),
   {| users := users st; session := session' |}).

(** ** GET /airtable-simple *)
Definition airtable_simple (state : string) (st : State)
    : Res * State :=
  let session' :=
    {| oauthState := Some state;
       codeVerifier := codeVerifier (session st) |} in
  let authUrl :=
    url_text "https://airtable.com/oauth2/v1/authorize"
      [ ("client_id", clientId);
        ("redirect_uri", redirectUri);
        ("response_type", "code");
        ("scope",
         "data.records:read data.records:write schema.bases:read");
        ("state", state) ] in
  (json 200 (JS.VObject [("authUrl", JS.VString authUrl)]),
   {| users := users st; session := session' |}).

(** ** GET /airtable/simple-callback

    [const { code, state, error } = req.query]: [state] is bound and
    never looked at again. *)
Definition simple_callback (q : CallbackQuery) (st : State)
    : Res * State :=
  let code := q_code q in
  let state := q_state q in
  let error := q_error q in
  if present error then
    (json 200 (JS.VObject [("error", JS.VBool true);
                           ("message", opt_value error)]), st)
  else if negb (present code) then
    (json 200 (JS.VObject [("error", JS.VBool true);
                           ("message", JS.VString "No code")]), st)
  else
    match exchange_code (default EmptyString code) with
    | inl data =>
        (json 200 (JS.VObject [("success", JS.VBool true);
                               ("token", data)]), st)
    | inr errorData =>
        (json 200 (JS.VObject [("error", JS.VBool true);
                               ("tokenError", errorData)]), st)
    end.

(** ** POST /refresh: [userId] is [req.user.userId]. *)
Definition refresh (userId : ObjectId) (now : Date) (st : State)
    : Res * State :=
  match users st !! userId with
  | None =>
      (json 401 (JS.VObject
         [("message", JS.VString "No refresh token available")]), st)
  | Some user =>
      match User.airtableRefreshToken user with
      | None =>
          (json 401 (JS.VObject
             [("message", JS.VString "No refresh token available")]), st)
      | Some rt =>
          if negb (JS.truthy_string rt) then
            (json 401 (JS.VObject
               [("message", JS.VString "No refresh token available")]),
             st)
          else
            match exchange_refresh rt with
            | None =>
                (json 500 (JS.VObject
                   [("message", JS.VString "Failed to refresh token")]),
                 st)
            | Some data =>
                let refresh' :=
                  if present (refresh_token data)
                  then refresh_token data
                  else User.airtableRefreshToken user in
                let user' :=
                  User.set_tokens (access_token data) refresh'
                    (Some (now + expires_in data * 1000)) user in
                let '(_, coll) := User.save now user' (users st) in
                (json 200 (JS.VObject
                   [("message",
                     JS.VString "Token refreshed successfully")]),
                 {| users := coll; session := session st |})
            end
      end
  end.

(** ** GET /me: [res.json(user)] serialises through [toJSON]. *)
Definition me (userId : ObjectId) (now : Date) (st : State)
    : Res * State :=
  match users st !! userId with
  | None =>
      (json 404 (JS.VObject [("message", JS.VString "User not found")]),
       st)
  | Some user =>
      if User.isTokenExpired now user then
        (json 401 (JS.VObject [("message", JS.VString "Token expired");
                               ("needsRefresh", JS.VBool true)]), st)
      else (json 200 (User.toJSON user), st)
  end.

(** ** POST /verify *)
Definition verify (userId : ObjectId) (now : Date) (st : State)
    : Res * State :=
  match users st !! userId with
  | None =>
      (json 404 (JS.VObject [("valid", JS.VBool false);
                             ("message", JS.VString "User not found")]),
       st)
  | Some user =>
      if negb (User.isActive user) then
        (json 403 (JS.VObject
           [("valid", JS.VBool false);
            ("message", JS.VString "Account is inactive")]), st)
      else if User.isTokenExpired now user then
        (json 200 (JS.VObject
           [("valid", JS.VBool true);
            ("needsRefresh", JS.VBool true);
            ("message",
             JS.VString "Airtable token expired, refresh required")]),
         st)
      else
        (json 200 (JS.VObject
           [("valid", JS.VBool true);
            ("user", JS.VObject
               [("id", JS.VString (User._id user));
                ("email", JS.VString (User.email user));
                ("profile", User.Profile_toObject (User.profile user));
                ("lastLoginAt", JS.VNumber (User.lastLoginAt user))])]),
         st)
  end.

End Routes.

End AuthRouter.

(* ===================================================================== *)
(** * The forms router: publish and analytics *)
(* ===================================================================== *)

Module FormsRouterOwner.

Import Http.

Record FormStats := {
  fs_totalViews : Z;
  fs_totalSubmissions : Z;
  fs_conversionRate : Z
}.

Inductive Body :=
| Message (message : string)
| MessageError (message error : string)
| Published (message : string) (id : ObjectId) (isPublished : bool)
            (shareUrl : option string)
| AnalyticsBody (formStats : FormStats) (analytics : Response.Analytics).

Record Res := { status : Z; body : Body }.

Definition json (code : Z) (b : Body) : Res :=
  {| status := code; body := b |}.

(** The object that stands in when the aggregation returns no group. *)
Definition no_analytics : Response.Analytics :=
  {| Response.totalResponses := 0;
     Response.successfulSubmissions := 0;
     Response.averageCompletionTime := Some (JS.of_Z 0);
     Response.responsesByDay := [] |}.

Section Routes.

Variable clientUrl : string.
Variable createdAt : Response.t -> Date.
Variable dateToString : Date -> string.

(** ** POST /api/forms/:id/publish

    [form] is [req.resource], [isPublished] is [req.body.isPublished]. *)
Definition publish_body (form : Form.t) (isPublished : JS.Value)
    : M Res Res :=
  match isPublished with
  | JS.VBool b =>
      form <- Form_save clientUrl (Form.set_isPublished b form) ;;
      ret (json 200
             (Published
                ("Form " +:+ (if b then "published" else "unpublished")
                 +:+ " successfully")
                (Form._id form) (Form.isPublished form)
                (Form.shareUrl (Form.shareSettings form))))
  | _ => return_ (json 400 (Message "isPublished must be a boolean"))
  end.

Definition publish (form : Form.t) (isPublished : JS.Value) (db : Db)
    : Res * Db :=
  try_catch (publish_body form isPublished)
    (fun error =>
       json 500 (MessageError "Failed to update form status"
                              (Exception_message error)))
    db.

(** ** GET /api/forms/:id/analytics *)
Definition analytics_body (form : Form.t) (startDate endDate : option Date)
    : M Res Res :=
  fun db =>
    let formStats :=
      {| fs_totalViews := Form.totalViews (Form.stats form);
         fs_totalSubmissions := Form.totalSubmissions (Form.stats form);
         fs_conversionRate := Form.conversionRate (Form.stats form) |} in
    let analytics :=
      Response.getFormAnalytics createdAt dateToString (Form._id form)
        startDate endDate (responses db) in
    (Normal (json 200 (AnalyticsBody formStats
                         (default no_analytics (head analytics)))), db).

Definition analytics (form : Form.t) (startDate endDate : option Date)
    (db : Db) : Res * Db :=
  try_catch (analytics_body form startDate endDate)
    (fun error =>
       json 500 (MessageError "Failed to fetch analytics"
                              (Exception_message error)))
    db.

End Routes.

End FormsRouterOwner.

(* ===================================================================== *)
(** * backend/routes/auth.js: account deletion *)
(* ===================================================================== *)

Module AuthAccount.

(** The three collections and the caller's session, which is [None] once
    it has been destroyed. *)
Record State := {
  users : gmap ObjectId User.t;
  forms : gmap ObjectId Form.t;
  responses : gmap ObjectId Response.t;
  session : option AuthRouter.Session
}.

(** [userForms.map(form => form._id)] for [Form.find({ userId })]. *)
Definition formIds_of (userId : ObjectId) (coll : gmap ObjectId Form.t)
    : list ObjectId :=
  map (fun kf => Form._id kf.2)
      (map_to_list (filter (fun kf => Form.userId kf.2 = userId) coll)).

(** ** DELETE /account: [userId] is [req.user.userId]. *)
Definition delete_account (userId : ObjectId) (st : State)
    : AuthRouter.Res * State :=
  match users st !! userId with
  | None =>
      (AuthRouter.json 404
         (JS.VObject [("message", JS.VString "User not found")]), st)
  | Some user =>
      let formIds := formIds_of userId (forms st) in
      (* Response.deleteMany({ formId: { $in: formIds } }) *)
      let responses' :=
        filter (fun kr => Response.formId kr.2 ∉ formIds) (responses st) in
      (* Form.deleteMany({ userId }) *)
      let forms' :=
        filter (fun kf => Form.userId kf.2 <> userId) (forms st) in
      (* User.findByIdAndDelete(userId) *)
      let users' := delete userId (users st) in
      (AuthRouter.json 200
         (JS.VObject
            [("message",
              JS.VString
                "Account and all associated data deleted successfully")]),
       {| users := users'; forms := forms'; responses := responses';
          session := None |})
  end.

End AuthAccount.

(* ===================================================================== *)
(** * The Airtable router *)
(* ===================================================================== *)

Module AirtableRouter.

Record Res := { status : Z; body : JS.Value }.

Definition json (code : Z) (b : JS.Value) : Res :=
  {| status := code; body := b |}.

(** What lands in a handler's [catch]: the axios error that
    [makeAirtableRequest] rethrows, with the status of the provider's
    response when there was one, [error.response?.data?.error] and
    [error.message]; or a [TypeError] of the handler's own code, which has
    no [response]. *)
Record Error := {
  response_status : option Z;
  response_data_error : JS.Value;
  error_message : string
}.

Definition type_error (message : string) : Error :=
  {| response_status := None; response_data_error := JS.VUndefined;
     error_message := message |}.

(** A computation of a [try] block. *)
Definition Try (A : Type) : Type := Error + A.

Definition and_then {A B} (m : Try A) (k : A -> Try B) : Try B :=
  match m with
  | inl e => inl e
  | inr a => k a
  end.

(** An error that the handler's own code raises carries no response. *)
Definition local {A : Type} (m : Try A) : Prop :=
  forall e, m = inl e -> response_status e = None.

(** [v.k]: reading a property of [undefined] or [null] throws. *)
Definition member (k : string) (v : JS.Value) : Try JS.Value :=
  match v with
  | JS.VUndefined =>
      inl (type_error ("Cannot read properties of undefined (reading '"
                       +:+ k +:+ "')"))
  | JS.VNull =>
      inl (type_error ("Cannot read properties of null (reading '"
                       +:+ k +:+ "')"))
  | _ => inr (JS.get_prop k v)
  end.

(** [owner.k.method(...)] for an array method: the array, or what calling
    the method on something else throws. *)
Definition array_member (what k method : string) (owner : JS.Value)
    : Try (list JS.Value) :=
  and_then (member k owner) (fun v =>
    match v with
    | JS.VArray items => inr items
    | JS.VUndefined =>
        inl (type_error ("Cannot read properties of undefined (reading '"
                         +:+ method +:+ "')"))
    | JS.VNull =>
        inl (type_error ("Cannot read properties of null (reading '"
                         +:+ method +:+ "')"))
    | _ =>
        inl (type_error (what +:+ "." +:+ k +:+ "." +:+ method
                         +:+ " is not a function"))
    end).

(** [a === s] for a value against a string. *)
Definition is_string (s : string) (v : JS.Value) : bool :=
  match v with JS.VString s' => String.eqb s' s | _ => false end.

(** [error.response?.data?.error || error.message] *)
Definition error_detail (e : Error) : JS.Value :=
  if JS.truthy (response_data_error e) then response_data_error e
  else JS.VString (error_message e).

(** [error.response?.status === code] *)
Definition has_status (code : Z) (e : Error) : bool :=
  match response_status e with
  | Some c => c =? code
  | None => false
  end.

Definition authorization_expired : Res :=
  json 401 (JS.VObject
              [("message", JS.VString "Airtable authorization expired");
               ("needsRefresh", JS.VBool true)]).

Definition failed (message : string) (e : Error) : Res :=
  json 500 (JS.VObject [("message", JS.VString message);
                        ("error", error_detail e)]).

Definition supportedTypes : list string :=
  ["singleLineText"; "multilineText"; "singleSelect"; "multipleSelect";
   "attachment"].

(** [array.find(t => t.id === id)] *)
Fixpoint find_by_id (id : string) (items : list JS.Value)
    : Try (option JS.Value) :=
  match items with
  | [] => inr None
  | t :: rest =>
      and_then (member "id" t) (fun tid =>
        if is_string id tid then inr (Some t) else find_by_id id rest)
  end.

(** [fields.filter(field => supportedTypes.includes(field.type))] *)
Fixpoint filter_supported (fields : list JS.Value) : Try (list JS.Value) :=
  match fields with
  | [] => inr []
  | field :: rest =>
      and_then (member "type" field) (fun ty =>
      and_then (filter_supported rest) (fun kept =>
        inr (if existsb (fun s => is_string s ty) supportedTypes
             then field :: kept else kept)))
  end.

(** [field => ({ id, name, type, description, options })] *)
Definition field_view (field : JS.Value) : Try JS.Value :=
  and_then (member "id" field) (fun id =>
    inr (JS.VObject [ ("id", id);
                      ("name", JS.get_prop "name" field);
                      ("type", JS.get_prop "type" field);
                      ("description", JS.get_prop "description" field);
                      ("options", JS.get_prop "options" field) ])).

Fixpoint map_try {A B} (f : A -> Try B) (l : list A) : Try (list B) :=
  match l with
  | [] => inr []
  | x :: rest =>
      and_then (f x) (fun y =>
      and_then (map_try f rest) (fun ys => inr (y :: ys)))
  end.

(** [table => ({ id, name, description, primaryFieldId, fields: ... })] *)
Definition table_view (table : JS.Value) : Try JS.Value :=
  and_then (member "id" table) (fun id =>
  and_then (array_member "table" "fields" "map" table) (fun fields =>
  and_then (map_try field_view fields) (fun views =>
    inr (JS.VObject
           [ ("id", id);
             ("name", JS.get_prop "name" table);
             ("description", JS.get_prop "description" table);
             ("primaryFieldId", JS.get_prop "primaryFieldId" table);
             ("fields", JS.VArray views) ])))).

(** [base => ({ id, name, permissionLevel })] *)
Definition base_view (base : JS.Value) : Try JS.Value :=
  and_then (member "id" base) (fun id =>
    inr (JS.VObject
           [ ("id", id);
             ("name", JS.get_prop "name" base);
             ("permissionLevel", JS.get_prop "permissionLevel" base) ])).

Section Routes.

(** [makeAirtableRequest(req.airtableToken, ...)] for the list of bases,
    for the schema of a base and for the creation of a record (base,
    table, request body): the response data, or the error it throws. *)
Variable meta_bases : Try JS.Value.
Variable meta_tables : string -> Try JS.Value.
Variable create_record : string -> string -> JS.Value -> Try JS.Value.

(** ** GET /bases *)
Definition bases_try : Try Res :=
  and_then meta_bases (fun data =>
  and_then (array_member "data" "bases" "map" data) (fun bases =>
  and_then (map_try base_view bases) (fun views =>
    inr (json 200 (JS.VObject [("bases", JS.VArray views)]))))).

Definition bases : Res :=
  match bases_try with
  | inr res => res
  | inl error =>
      if has_status 401 error then authorization_expired
      else failed "Failed to fetch bases" error
  end.

(** ** GET /bases/:baseId/tables *)
Definition tables_try (baseId : string) : Try Res :=
  and_then (meta_tables baseId) (fun data =>
  and_then (array_member "data" "tables" "map" data) (fun tables =>
  and_then (map_try table_view tables) (fun views =>
    inr (json 200 (JS.VObject [("tables", JS.VArray views)]))))).

Definition tables (baseId : string) : Res :=
  match tables_try baseId with
  | inr res => res
  | inl error =>
      if has_status 401 error then authorization_expired
      else if has_status 404 error then
        json 404 (JS.VObject [("message", JS.VString "Base not found")])
      else failed "Failed to fetch tables" error
  end.

(** ** GET /bases/:baseId/tables/:tableId/fields *)
Definition fields_try (baseId tableId : string) : Try Res :=
  and_then (meta_tables baseId) (fun data =>
  and_then (array_member "data" "tables" "find" data) (fun tables =>
  and_then (find_by_id tableId tables) (fun found =>
    match found with
    | None =>
        inr (json 404 (JS.VObject
                         [("message", JS.VString "Table not found")]))
    | Some table =>
        and_then (array_member "table" "fields" "filter" table)
          (fun fields =>
        and_then (filter_supported fields) (fun kept =>
        and_then (map_try field_view kept) (fun views =>
          inr (json 200
                 (JS.VObject
                    [ ("fields", JS.VArray views);
                      ("tableInfo",
                       JS.VObject
                         [ ("id", JS.get_prop "id" table);
                           ("name", JS.get_prop "name" table);
                           ("description",
                            JS.get_prop "description" table);
                           ("primaryFieldId",
                            JS.get_prop "primaryFieldId" table) ]) ])))))
    end))).

Definition fields (baseId tableId : string) : Res :=
  match fields_try baseId tableId with
  | inr res => res
  | inl error =>
      if has_status 401 error then authorization_expired
      else failed "Failed to fetch fields" error
  end.

(** ** POST /bases/:baseId/tables/:tableId/records

    [fields] is [req.body.fields]. *)

(** [!fields || typeof fields !== 'object'] *)
Definition not_an_object (fields : JS.Value) : bool :=
  match fields with
  | JS.VObject _ | JS.VArray _ => false
  | _ => true
  end.

Definition records_try (baseId tableId : string) (fields : JS.Value)
    : Try Res :=
  if not_an_object fields then
    inr (json 400 (JS.VObject
                     [("message", JS.VString "Fields object is required")]))
  else
    and_then (create_record baseId tableId
                (JS.VObject [("fields", fields);
                             ("typecast", JS.VBool true)]))
      (fun data =>
    and_then (member "id" data) (fun id =>
      inr (json 200 (JS.VObject [ ("success", JS.VBool true);
                                  ("recordId", id);
                                  ("record", data) ])))).

Definition records (baseId tableId : string) (fields : JS.Value) : Res :=
  match records_try baseId tableId fields with
  | inr res => res
  | inl error =>
      if has_status 401 error then authorization_expired
      else if has_status 422 error then
        json 422 (JS.VObject [("message", JS.VString "Invalid field data");
                              ("details", response_data_error error)])
      else failed "Failed to create record" error
  end.

End Routes.

End AirtableRouter.

(* ===================================================================== *)
(** * The frontend reducers *)
(* ===================================================================== *)

Module FormContext.

Section Reducer.

(** The objects that the responses of the API carry as forms.  [_id] is
    the [_id] property of such an object, [None] when it has none
    ([undefined]): the publish route answers [{ id, isPublished,
    shareUrl }], which [publishForm] dispatches as it is. *)
Variable F : Type.
Variable _id : F -> option string.

Record State := {
  forms : list F;
  currentForm : option F;
  bases : list JS.Value;
  tables : list JS.Value;
  fields : list JS.Value;
  responses : list JS.Value;
  analytics : option JS.Value;
  loading : bool;
  error : option string
}.

Definition initialState : State :=
  {| forms := []; currentForm := None; bases := []; tables := [];
     fields := []; responses := []; analytics := None; loading := false;
     error := None |}.

Inductive Action :=
| SET_LOADING (payload : bool)
| SET_ERROR (payload : option string)
| CLEAR_ERROR
| SET_FORMS (payload : list F)
| SET_CURRENT_FORM (payload : option F)
| ADD_FORM (payload : F)
| UPDATE_FORM (payload : F)
| DELETE_FORM (payload : string)
| SET_BASES (payload : list JS.Value)
| SET_TABLES (payload : list JS.Value)
| SET_FIELDS (payload : list JS.Value)
| SET_RESPONSES (payload : list JS.Value)
| ADD_RESPONSE (payload : JS.Value)
| SET_ANALYTICS (payload : option JS.Value).

(** [state.currentForm?._id]: [undefined] for a [null] current form. *)
Definition current_id (st : State) : option string :=
  match currentForm st with
  | Some f => _id f
  | None => None
  end.

(** [a === b] on two [_id] values. *)
Definition same_id (a b : option string) : bool := bool_decide (a = b).

(** [state.currentForm?._id === id] *)
Definition current_is (id : option string) (st : State) : bool :=
  same_id (current_id st) id.

Definition formReducer (state : State) (action : Action) : State :=
  match action with
  | SET_LOADING payload =>
      {| forms := forms state; currentForm := currentForm state;
         bases := bases state; tables := tables state;
         fields := fields state; responses := responses state;
         analytics := analytics state; loading := payload;
         error := error state |}
  | SET_ERROR payload =>
      {| forms := forms state; currentForm := currentForm state;
         bases := bases state; tables := tables state;
         fields := fields state; responses := responses state;
         analytics := analytics state; loading := false;
         error := payload |}
  | CLEAR_ERROR =>
      {| forms := forms state; currentForm := currentForm state;
         bases := bases state; tables := tables state;
         fields := fields state; responses := responses state;
         analytics := analytics state; loading := loading state;
         error := None |}
  | SET_FORMS payload =>
      {| forms := payload; currentForm := currentForm state;
         bases := bases state; tables := tables state;
         fields := fields state; responses := responses state;
         analytics := analytics state; loading := loading state;
         error := error state |}
  | SET_CURRENT_FORM payload =>
      {| forms := forms state; currentForm := payload;
         bases := bases state; tables := tables state;
         fields := fields state; responses := responses state;
         analytics := analytics state; loading := loading state;
         error := error state |}
  | ADD_FORM payload =>
      {| forms := payload :: forms state; currentForm := currentForm state;
         bases := bases state; tables := tables state;
         fields := fields state; responses := responses state;
         analytics := analytics state; loading := loading state;
         error := error state |}
  | UPDATE_FORM payload =>
      {| forms :=
           map (fun form => if same_id (_id form) (_id payload)
                            then payload else form) (forms state);
         currentForm :=
           if current_is (_id payload) state then Some payload
           else currentForm state;
         bases := bases state; tables := tables state;
         fields := fields state; responses := responses state;
         analytics := analytics state; loading := loading state;
         error := error state |}
  | DELETE_FORM payload =>
      {| forms :=
           List.filter
             (fun form => negb (same_id (_id form) (Some payload)))
             (forms state);
         currentForm :=
           if current_is (Some payload) state then None
           else currentForm state;
         bases := bases state; tables := tables state;
         fields := fields state; responses := responses state;
         analytics := analytics state; loading := loading state;
         error := error state |}
  | SET_BASES payload =>
      {| forms := forms state; currentForm := currentForm state;
         bases := payload; tables := tables state;
         fields := fields state; responses := responses state;
         analytics := analytics state; loading := loading state;
         error := error state |}
  | SET_TABLES payload =>
      {| forms := forms state; currentForm := currentForm state;
         bases := bases state; tables := payload;
         fields := fields state; responses := responses state;
         analytics := analytics state; loading := loading state;
         error := error state |}
  | SET_FIELDS payload =>
      {| forms := forms state; currentForm := currentForm state;
         bases := bases state; tables := tables state;
         fields := payload; responses := responses state;
         analytics := analytics state; loading := loading state;
         error := error state |}
  | SET_RESPONSES payload =>
      {| forms := forms state; currentForm := currentForm state;
         bases := bases state; tables := tables state;
         fields := fields state; responses := payload;
         analytics := analytics state; loading := loading state;
         error := error state |}
  | ADD_RESPONSE payload =>
      {| forms := forms state; currentForm := currentForm state;
         bases := bases state; tables := tables state;
         fields := fields state; responses := payload :: responses state;
         analytics := analytics state; loading := loading state;
         error := error state |}
  | SET_ANALYTICS payload =>
      {| forms := forms state; currentForm := currentForm state;
         bases := bases state; tables := tables state;
         fields := fields state; responses := responses state;
         analytics := payload; loading := loading state;
         error := error state |}
  end.

Definition dispatch_all (actions : list Action) (state : State) : State :=
  fold_left formReducer actions state.

End Reducer.

Arguments forms {F} s.
Arguments currentForm {F} s.
Arguments bases {F} s.
Arguments tables {F} s.
Arguments fields {F} s.
Arguments responses {F} s.
Arguments analytics {F} s.
Arguments loading {F} s.
Arguments error {F} s.
Arguments initialState {F}.
Arguments DELETE_FORM {F} payload.
Arguments ADD_FORM {F} payload.
Arguments UPDATE_FORM {F} payload.
Arguments SET_FORMS {F} payload.
Arguments SET_CURRENT_FORM {F} payload.

End FormContext.

Module AuthContext.

(** The user object is a JSON object; [None] is [null]. *)
Record State := {
  user : option (list (string * JS.Value));
  token : option string;
  isAuthenticated : bool;
  loading : bool;
  error : option string
}.

(** [localToken] is [localStorage.getItem('token')]. *)
Definition initialState (localToken : option string) : State :=
  {| user := None; token := localToken; isAuthenticated := false;
     loading := true; error := None |}.

Inductive Action :=
| LOGIN_START
| LOGIN_SUCCESS (user : list (string * JS.Value)) (token : option string)
| LOGIN_FAILURE (payload : option string)
| LOGOUT
| SET_LOADING (payload : bool)
| CLEAR_ERROR
| UPDATE_USER (payload : list (string * JS.Value)).

(** The value of the last property named [k]. *)
Definition last_value (k : string) (o : list (string * JS.Value))
    : option JS.Value :=
  snd <$> List.find (fun kv => String.eqb kv.1 k) (rev o).

(** [{ ...a, ...b }] on property lists: a property of [a] keeps its place
    and takes the value that [b] has for it, if any; the properties that
    only [b] has follow. *)
Definition spread (a b : list (string * JS.Value))
    : list (string * JS.Value) :=
  map (fun kv => (kv.1, default kv.2 (last_value kv.1 b))) a
  ++ List.filter
       (fun kv => negb (existsb (fun kv' => String.eqb kv'.1 kv.1) a)) b.

Definition authReducer (state : State) (action : Action) : State :=
  match action with
  | LOGIN_START =>
      {| user := user state; token := token state;
         isAuthenticated := isAuthenticated state;
         loading := true; error := None |}
  | LOGIN_SUCCESS u t =>
      {| user := Some u; token := t; isAuthenticated := true;
         loading := false; error := None |}
  | LOGIN_FAILURE payload =>
      {| user := None; token := None; isAuthenticated := false;
         loading := false; error := payload |}
  | LOGOUT =>
      {| user := None; token := None; isAuthenticated := false;
         loading := false; error := None |}
  | SET_LOADING payload =>
      {| user := user state; token := token state;
         isAuthenticated := isAuthenticated state;
         loading := payload; error := error state |}
  | CLEAR_ERROR =>
      {| user := user state; token := token state;
         isAuthenticated := isAuthenticated state;
         loading := loading state; error := None |}
  | UPDATE_USER payload =>
      {| user := Some (spread (default [] (user state)) payload);
         token := token state;
         isAuthenticated := isAuthenticated state;
         loading := loading state; error := error state |}
  end.

Definition dispatch_all (actions : list Action) (state : State) : State :=
  fold_left authReducer actions state.

(** The actions that end a login. *)
Definition ends_login (a : Action) : bool :=
  match a with
  | LOGOUT | LOGIN_FAILURE _ => true
  | _ => false
  end.

End AuthContext.

(* ===================================================================== *)
(** * Sample documents and requests *)
(* ===================================================================== *)

Module Sample.

Definition nobody : Response.SubmittedBy :=
  {| Response.ip := None; Response.userAgent := None;
     Response.referrer := None; Response.email := None;
     Response.name := None |}.

Definition answer (id : string) (v : JS.Value) : Response.FieldResponse :=
  {| Response.fieldId := id; Response.fieldLabel := "Your Name";
     Response.fieldType := Response.singleLineText;
     Response.value := v; Response.files := [] |}.

(** A submission with one answered and one empty answer, and no
    completion percentage given. *)
Definition half_answered : Response.Input :=
  {| Response.in_formId := "form1";
     Response.in_airtableBaseId := "app1";
     Response.in_airtableTableId := "tbl1";
     Response.in_responses :=
       [answer "f1" (JS.VString "Ada"); answer "f2" (JS.VString EmptyString)];
     Response.in_submittedBy := nobody;
     Response.in_timeToComplete := None;
     Response.in_deviceType := None;
     Response.in_browserInfo := None;
     Response.in_completionPercentage := None |}.

(** A Response that a successful sync has marked. *)
Definition synced_response : Response.t :=
  (Response.markAsSynced "rec1" 1000
     (Response.new "resp1" half_answered) ∅).1.

(** The field of the specification's create scenario. *)
Definition name_field : Form.FieldObject :=
  {| Form.o_airtableFieldId := Some "f1";
     Form.o_airtableFieldName := Some "Name";
     Form.o_airtableFieldType := Some "singleLineText";
     Form.o_label := Some "Your Name";
     Form.o_placeholder := None;
     Form.o_description := None;
     Form.o_required := None;
     Form.o_options := [];
     Form.o_showWhen := [];
     Form.o_order := None;
     Form.o_isVisible := None |}.

Definition contact_form_input : Form.Input :=
  {| Form.in_title := Some "Contact";
     Form.in_description := None;
     Form.in_userId := "user1";
     Form.in_airtableBaseId := Some "app1";
     Form.in_airtableBaseName := Some "CRM";
     Form.in_airtableTableId := Some "tbl1";
     Form.in_airtableTableName := Some "People";
     Form.in_fields := [Form.with_order 0 name_field];
     Form.in_settings := Form.empty_settings_object;
     Form.in_isActive := None;
     Form.in_isPublished := None |}.

Definition clientUrl : string := "http://localhost:3000".

(** The Form that the constructor builds from this input, and the
    document after its first save. *)
Definition contact_form_new : Form.t :=
  {| Form._id := "form1"; Form.isNew := true; Form.title := "Contact";
     Form.description := None; Form.userId := "user1";
     Form.airtableBaseId := "app1"; Form.airtableBaseName := "CRM";
     Form.airtableTableId := "tbl1"; Form.airtableTableName := "People";
     Form.fields :=
       [ {| Form.airtableFieldId := "f1";
            Form.airtableFieldName := "Name";
            Form.airtableFieldType := Response.singleLineText;
            Form.label := "Your Name";
            Form.placeholder := None;
            Form.field_description := None;
            Form.required := false;
            Form.options := [];
            Form.showWhen := [];
            Form.order := 0;
            Form.isVisible := true |} ];
     Form.settings := Form.cast_settings Form.empty_settings_object;
     Form.isActive := true; Form.isPublished := false;
     Form.stats := Form.default_stats;
     Form.shareSettings := Form.default_shareSettings |}.

Definition contact_form : Form.t :=
  (Form.save clientUrl contact_form_new ∅).1.

(** 40 views and 23 submissions on the saved Form. *)
Definition traffic : list Form.Op :=
  repeat Form.OpIncrementViews 40 ++ repeat Form.OpIncrementSubmissions 23.

(** A database with the published Form, one Response to it and one
    Response to another Form. *)
Definition published_form : Form.t := Form.set_isPublished true contact_form.

Definition other_answers : Response.Input :=
  {| Response.in_formId := "form2";
     Response.in_airtableBaseId := "app1";
     Response.in_airtableTableId := "tbl2";
     Response.in_responses := [answer "g1" (JS.VString "yes")];
     Response.in_submittedBy := nobody;
     Response.in_timeToComplete := None;
     Response.in_deviceType := None;
     Response.in_browserInfo := None;
     Response.in_completionPercentage := None |}.

Definition db : Http.Db :=
  {| Http.forms := {[ "form1" := published_form ]};
     Http.responses :=
       {[ "resp1" := Response.new "resp1" half_answered;
          "resp2" := Response.new "resp2" other_answers ]};
     Http.writes := [] |}.

(** A database with the saved Form of user1 before it is published. *)
Definition draft_db : Http.Db :=
  {| Http.forms := {[ "form1" := contact_form ]};
     Http.responses := ∅;
     Http.writes := [] |}.

(** The create request of the specification's scenario. *)
Definition create_request : FormsRouter.CreateBody :=
  {| FormsRouter.c_title := Some "Contact";
     FormsRouter.c_description := None;
     FormsRouter.c_airtableBaseId := Some "app1";
     FormsRouter.c_airtableBaseName := Some "CRM";
     FormsRouter.c_airtableTableId := Some "tbl1";
     FormsRouter.c_airtableTableName := Some "People";
     FormsRouter.c_fields := Some [name_field];
     FormsRouter.c_settings := None |}.

(** An update that supplies the orders 5, 0 and none. *)
Definition ordered (o : option Z) : Form.FieldObject :=
  {| Form.o_airtableFieldId := Some "f1";
     Form.o_airtableFieldName := Some "Name";
     Form.o_airtableFieldType := Some "singleLineText";
     Form.o_label := Some "Your Name";
     Form.o_placeholder := None;
     Form.o_description := None;
     Form.o_required := None;
     Form.o_options := [];
     Form.o_showWhen := [];
     Form.o_order := o;
     Form.o_isVisible := None |}.

Definition update_request : FormsRouter.UpdateBody :=
  {| FormsRouter.u_title := None;
     FormsRouter.u_description := None;
     FormsRouter.u_fields :=
       Some [ordered (Some 5); ordered (Some 0); ordered None];
     FormsRouter.u_settings := None;
     FormsRouter.u_isActive := None;
     FormsRouter.u_isPublished := None |}.

(** ** The OAuth callback *)

(** What the provider's token endpoint answers to an accepted code. *)
Definition issued_token : string := "oaa.issued-access-token".

Definition token_data : JS.Value :=
  JS.VObject [ ("access_token", JS.VString issued_token);
               ("refresh_token", JS.VString "oaa.issued-refresh-token");
               ("token_type", JS.VString "Bearer");
               ("expires_in", JS.VNumber 3600) ].

Definition provider (code : string) : JS.Value + JS.Value :=
  inl token_data.

Definition url_text (base : string) (params : list (string * string))
    : string :=
  base +:+ "?" +:+
  String.concat "&" (map (fun kv => kv.1 +:+ "=" +:+ kv.2) params).

Definition ada : User.t :=
  {| User._id := "user1";
     User.email := "ada@example.org";
     User.airtableUserId := "usr1";
     User.airtableAccessToken := "oaa.stored-access-token";
     User.airtableRefreshToken := Some "oaa.stored-refresh-token";
     User.airtableTokenExpiresAt := Some 5000;
     User.profile := {| User.name := Some "Ada"; User.avatarUrl := None;
                        User.airtableUsername := None |};
     User.isActive := true;
     User.lastLoginAt := 1000;
     User.createdAt := 1000;
     User.updatedAt := 1000 |}.

(** The caller's state after [GET /airtable-simple] drew [expected-state]. *)
Definition before_login : AuthRouter.State :=
  {| AuthRouter.users := {[ "user1" := ada ]};
     AuthRouter.session := {| AuthRouter.oauthState := None;
                              AuthRouter.codeVerifier := None |} |}.

Definition awaiting_callback : AuthRouter.State :=
  (AuthRouter.airtable_simple "client1" "https://app.example.org/callback"
     url_text "expected-state" before_login).2.

(** A callback whose [state] is not the one the session holds. *)
Definition forged_callback : AuthRouter.CallbackQuery :=
  {| AuthRouter.q_code := Some "auth-code";
     AuthRouter.q_state := Some "forged-state";
     AuthRouter.q_error := None |}.

(** ** Analytics *)

(** Every sample Response was created at the epoch. *)
Definition createdAt (r : Response.t) : Date := 0.
Definition dateToString (d : Date) : string := "1970-01-01".

(** A database in which no Response refers to the sample Form. *)
Definition quiet_db : Http.Db :=
  {| Http.forms := {[ "form1" := published_form ]};
     Http.responses := {[ "resp2" := Response.new "resp2" other_answers ]};
     Http.writes := [] |}.

(** ** Token refresh and account deletion *)

Definition refreshed : AuthRouter.RefreshData :=
  {| AuthRouter.access_token := "oaa.fresh-access-token";
     AuthRouter.refresh_token := None;
     AuthRouter.expires_in := 3600 |}.

Definition refresh_provider (refresh_token : string)
    : option AuthRouter.RefreshData :=
  Some refreshed.

Definition failing_refresh_provider (refresh_token : string)
    : option AuthRouter.RefreshData :=
  None.

Definition account : AuthAccount.State :=
  {| AuthAccount.users := {[ "user1" := ada ]};
     AuthAccount.forms := {[ "form1" := published_form ]};
     AuthAccount.responses :=
       {[ "resp1" := Response.new "resp1" half_answered;
          "resp2" := Response.new "resp2" other_answers ]};
     AuthAccount.session :=
       Some {| AuthRouter.oauthState := None;
               AuthRouter.codeVerifier := None |} |}.

(** ** A base schema of the provider *)

Definition schema : JS.Value :=
  JS.VObject
    [("tables",
      JS.VArray
        [JS.VObject
           [("id", JS.VString "tbl1");
            ("name", JS.VString "People");
            ("primaryFieldId", JS.VString "f1");
            ("fields",
             JS.VArray
               [JS.VObject [("id", JS.VString "f1");
                            ("name", JS.VString "Name");
                            ("type", JS.VString "singleLineText")];
                JS.VObject [("id", JS.VString "f2");
                            ("name", JS.VString "Visits");
                            ("type", JS.VString "number")];
                JS.VObject [("id", JS.VString "f3");
                            ("name", JS.VString "Photo");
                            ("type", JS.VString "attachment")]])]])].

Definition meta_tables (baseId : string) : AirtableRouter.Try JS.Value :=
  inr schema.

Definition expired : AirtableRouter.Error :=
  {| AirtableRouter.response_status := Some 401;
     AirtableRouter.response_data_error := JS.VUndefined;
     AirtableRouter.error_message :=
       "Request failed with status code 401" |}.

Definition create_record_expired (baseId tableId : string) (body : JS.Value)
    : AirtableRouter.Try JS.Value :=
  inl expired.

End Sample.

(* ===================================================================== *)
(** * Properties of the Response model *)
(* ===================================================================== *)

Section ResponseFacts.

Implicit Types (r : Response.t) (coll : gmap ObjectId Response.t).

Lemma Status_eqb_eq (a b : Response.Status) :
  Response.Status_eqb a b = true <-> a = b.
Proof. destruct a, b; simpl; split; congruence. Qed.

Lemma pendingSyncQuery_true r :
  Response.pendingSyncQuery r = true <->
  Response.isSynced (Response.syncStatus r) = false
  /\ Response.syncAttempts (Response.syncStatus r) < 3
  /\ Response.status r <> Response.synced.
Proof.
  unfold Response.pendingSyncQuery.
  rewrite !andb_true_iff, negb_true_iff, Z.ltb_lt.
  rewrite <- not_true_iff_false, Status_eqb_eq.
  destruct (Response.isSynced (Response.syncStatus r)); simpl; intuition congruence.
Qed.

(** C1. [findPendingSync] returns a Response of the collection exactly
    when its [isSynced] flag is false, it has made fewer than 3 sync
    attempts and its status is not [synced]; a Response with 3 attempts
    and [isSynced = false] is therefore not returned. *)
Theorem findPendingSync_returns_iff coll (id : ObjectId) r :
  (Response.findPendingSync coll !! id = Some r <->
     coll !! id = Some r
     /\ Response.isSynced (Response.syncStatus r) = false
     /\ Response.syncAttempts (Response.syncStatus r) < 3
     /\ Response.status r <> Response.synced)
  /\ (Response.syncAttempts (Response.syncStatus r) = 3 ->
      Response.isSynced (Response.syncStatus r) = false ->
      Response.findPendingSync coll !! id <> Some r).
Proof.
  assert (Hiff : Response.findPendingSync coll !! id = Some r <->
                 coll !! id = Some r /\ Response.pendingSyncQuery r = true).
  { unfold Response.findPendingSync, Response.find.
    rewrite map_lookup_filter_Some. reflexivity. }
  split.
  - rewrite Hiff, pendingSyncQuery_true. reflexivity.
  - intros H3 _ Hfound. apply Hiff in Hfound as [_ Hq].
    apply pendingSyncQuery_true in Hq as (_ & Hlt & _). lia.
Qed.

(** The hook and the setters leave the status and the sync flags alone. *)
Lemma pre_save_status r :
  Response.status (Response.pre_save r) = Response.status r.
Proof. unfold Response.pre_save. by destruct (Response.completionPercentage_unset _). Qed.

Lemma pre_save_syncStatus r :
  Response.syncStatus (Response.pre_save r) = Response.syncStatus r.
Proof. unfold Response.pre_save. by destruct (Response.completionPercentage_unset _). Qed.

Lemma pre_save_airtableRecordId r :
  Response.airtableRecordId (Response.pre_save r) = Response.airtableRecordId r.
Proof. unfold Response.pre_save. by destruct (Response.completionPercentage_unset _). Qed.

Lemma pre_save_id r : Response._id (Response.pre_save r) = Response._id r.
Proof. unfold Response.pre_save. by destruct (Response.completionPercentage_unset _). Qed.

Lemma save_stores r coll :
  (Response.save r coll).2 !! Response._id r = Some (Response.save r coll).1.
Proof. unfold Response.save; simpl. rewrite pre_save_id. apply lookup_insert_eq. Qed.

(** What a successful sync leaves behind. *)
Lemma markAsSynced_result (recordId : string) (now : Date) r coll :
  let r' := (Response.markAsSynced recordId now r coll).1 in
  Response.status r' = Response.synced
  /\ Response.isSynced (Response.syncStatus r') = true
  /\ Response.airtableRecordId r' = Some recordId.
Proof.
  unfold Response.markAsSynced, Response.save; simpl.
  by rewrite pre_save_status, pre_save_syncStatus, pre_save_airtableRecordId.
Qed.

Lemma run_id (op : Response.Op) r coll :
  Response._id (Response.run op r coll).1 = Response._id r.
Proof.
  destruct op; simpl;
    unfold Response.addError, Response.updateSyncAttempt,
           Response.markAsSynced, Response.save; simpl;
    rewrite pre_save_id; try done.
  by destruct (Response.SyncError_truthy error).
Qed.

Lemma run_stores (op : Response.Op) r coll :
  (Response.run op r coll).2 !! Response._id r
  = Some (Response.run op r coll).1.
Proof.
  rewrite <- (run_id op r coll).
  destruct op; simpl;
    unfold Response.addError, Response.updateSyncAttempt,
           Response.markAsSynced, Response.save; simpl;
    apply lookup_insert_eq.
Qed.

(** C7, as the code has it.  On a Response that a sync has marked
    ([status = synced], [isSynced = true]) the status stays [synced]
    under [markAsSynced] and under [updateSyncAttempt] without an error,
    and becomes [failed] under [addError] and under [updateSyncAttempt]
    with an error.  Whatever the operation, [isSynced] stays true, a
    stored external record id stays stored, and the saved document is
    not a candidate of [findPendingSync]. *)
Theorem synced_after_op (op : Response.Op) r coll :
  Response.status r = Response.synced ->
  Response.isSynced (Response.syncStatus r) = true ->
  let r' := (Response.run op r coll).1 in
  let coll' := (Response.run op r coll).2 in
  Response.status r'
    = (if Response.sets_failed op then Response.failed else Response.synced)
  /\ Response.isSynced (Response.syncStatus r') = true
  /\ (is_Some (Response.airtableRecordId r) ->
      is_Some (Response.airtableRecordId r'))
  /\ coll' !! Response._id r = Some r'
  /\ Response.findPendingSync coll' !! Response._id r = None.
Proof.
  intros Hst Hsy r' coll'.
  assert (Hstatus : Response.status r'
    = (if Response.sets_failed op then Response.failed else Response.synced)).
  { subst r'. destruct op; simpl;
      unfold Response.addError, Response.updateSyncAttempt,
             Response.markAsSynced, Response.save; simpl;
      rewrite pre_save_status; try done.
    by destruct (Response.SyncError_truthy error). }
  assert (Hflag : Response.isSynced (Response.syncStatus r') = true).
  { subst r'. destruct op; simpl;
      unfold Response.addError, Response.updateSyncAttempt,
             Response.markAsSynced, Response.save; simpl;
      rewrite pre_save_syncStatus; try done.
    by destruct (Response.SyncError_truthy error). }
  assert (Hstored : coll' !! Response._id r = Some r') by apply run_stores.
  repeat split; try done.
  - subst r'. destruct op; simpl;
      unfold Response.addError, Response.updateSyncAttempt,
             Response.markAsSynced, Response.save; simpl;
      rewrite pre_save_airtableRecordId; try done.
    by destruct (Response.SyncError_truthy error).
  - unfold Response.findPendingSync, Response.find.
    apply map_lookup_filter_None. right. intros x Hx.
    rewrite Hstored in Hx. injection Hx as <-. simpl.
    unfold Response.pendingSyncQuery. rewrite Hflag. simpl. congruence.
Qed.

Lemma synced_after_op_witness :
  let op := Response.OpAddError "Airtable returned 422" JS.VNull 2000 in
  let r := Sample.synced_response in
  Response.status r = Response.synced
  /\ Response.status (Response.run op r ∅).1 = Response.failed
  /\ Response.isSynced (Response.syncStatus (Response.run op r ∅).1) = true.
Proof.
  intros op r.
  destruct (synced_after_op op r ∅) as (H1 & H2 & _); [reflexivity .. |].
  split; [reflexivity | split; [exact H1 | exact H2]].
Defined.

(** C7 as stated fails: [addError] on a synced Response moves its status
    to [failed]. *)
Lemma synced_is_not_terminal :
  exists (op : Response.Op) (r : Response.t),
    Response.status r = Response.synced
    /\ Response.status (Response.run op r ∅).1 <> Response.synced.
Proof.
  exists (Response.OpAddError "Airtable returned 422" JS.VNull 2000),
         Sample.synced_response.
  split; [reflexivity | discriminate].
Qed.

(** A document built without a completion percentage already carries the
    schema default when the hook runs, so the hook leaves it alone. *)
Lemma completionPercentage_default_kept (id : ObjectId)
    (i : Response.Input) coll :
  Response.in_completionPercentage i = None ->
  Response.completionPercentage
    (Response.metadata (Response.save (Response.new id i) coll).1)
  = Some 100.
Proof.
  intros Hnone. unfold Response.save, Response.pre_save,
    Response.completionPercentage_unset, Response.new; simpl.
  by rewrite Hnone.
Qed.

(** When the stored percentage is falsy (0 or missing) the hook does
    compute it from the answers. *)
Lemma pre_save_computes_when_falsy r :
  Response.completionPercentage_unset (Response.metadata r) = true ->
  Response.completionPercentage (Response.metadata (Response.pre_save r))
  = Some (let total := Z.of_nat (length (Response.responses r)) in
          let completed :=
            Z.of_nat (length (List.filter Response.answered
                                          (Response.responses r))) in
          if 0 <? total then JS.round_ratio_times_100 completed total
          else 0).
Proof. intros H. unfold Response.pre_save. by rewrite H. Qed.

(** C6 at a submission with one answered and one empty answer and no
    percentage supplied: the saved percentage is the default 100, where
    the fraction of non-empty answers is 50. *)
Theorem completionPercentage_not_computed :
  let r := (Response.save (Response.new "resp1" Sample.half_answered) ∅).1 in
  Response.completionPercentage (Response.metadata r) = Some 100
  /\ length (Response.responses r) = 2%nat
  /\ length (List.filter Response.answered (Response.responses r)) = 1%nat
  /\ JS.spec_round_percent 1 2 = 50
  /\ JS.round_ratio_times_100 1 2 = 50.
Proof. vm_compute. repeat split. Qed.

End ResponseFacts.

(* ===================================================================== *)
(** * Properties of the Form model *)
(* ===================================================================== *)

(** The sample Form is what the constructor builds from the sample input. *)
Example contact_form_built :
  Form.new "form1" Sample.contact_form_input = Some Sample.contact_form_new.
Proof. reflexivity. Qed.

Section FormFacts.

Variable clientUrl : string.

Implicit Types (f : Form.t) (coll : gmap ObjectId Form.t).

Lemma pre_save_totalViews f :
  Form.totalViews (Form.stats (Form.pre_save clientUrl f))
  = Form.totalViews (Form.stats f).
Proof.
  unfold Form.pre_save.
  destruct (Form.isNew f || Form.shareUrl_unset (Form.shareSettings f)); simpl;
    by destruct (0 <? Form.totalViews (Form.stats f)).
Qed.

Lemma pre_save_totalSubmissions f :
  Form.totalSubmissions (Form.stats (Form.pre_save clientUrl f))
  = Form.totalSubmissions (Form.stats f).
Proof.
  unfold Form.pre_save.
  destruct (Form.isNew f || Form.shareUrl_unset (Form.shareSettings f)); simpl;
    by destruct (0 <? Form.totalViews (Form.stats f)).
Qed.

Lemma pre_save_conversionRate f :
  Form.conversionRate (Form.stats (Form.pre_save clientUrl f))
  = if 0 <? Form.totalViews (Form.stats f)
    then JS.round_ratio_times_100 (Form.totalSubmissions (Form.stats f))
                                  (Form.totalViews (Form.stats f))
    else Form.conversionRate (Form.stats f).
Proof.
  unfold Form.pre_save.
  destruct (Form.isNew f || Form.shareUrl_unset (Form.shareSettings f)); simpl;
    by destruct (0 <? Form.totalViews (Form.stats f)).
Qed.

Lemma pre_save_frame f :
  let f' := Form.pre_save clientUrl f in
  Form._id f' = Form._id f
  /\ Form.userId f' = Form.userId f
  /\ Form.title f' = Form.title f
  /\ Form.fields f' = Form.fields f
  /\ Form.settings f' = Form.settings f
  /\ Form.isActive f' = Form.isActive f
  /\ Form.isPublished f' = Form.isPublished f.
Proof.
  unfold Form.pre_save.
  destruct (Form.isNew f || Form.shareUrl_unset (Form.shareSettings f)); simpl;
    by destruct (0 <? Form.totalViews _).
Qed.

(** What a save does to the stats: it keeps both counters; when
    [totalViews > 0] it stores the hook's
    [Math.round((totalSubmissions / totalViews) * 100)] as the conversion
    rate, and otherwise it leaves the conversion rate as it was. *)
Lemma save_conversionRate f coll :
  let f' := (Form.save clientUrl f coll).1 in
  Form.totalViews (Form.stats f') = Form.totalViews (Form.stats f)
  /\ Form.totalSubmissions (Form.stats f')
     = Form.totalSubmissions (Form.stats f)
  /\ (0 < Form.totalViews (Form.stats f) ->
      Form.conversionRate (Form.stats f')
      = JS.round_ratio_times_100 (Form.totalSubmissions (Form.stats f))
                                 (Form.totalViews (Form.stats f)))
  /\ (Form.totalViews (Form.stats f) <= 0 ->
      Form.conversionRate (Form.stats f')
      = Form.conversionRate (Form.stats f))
  /\ (Form.save clientUrl f coll).2 !! Form._id f = Some f'.
Proof.
  unfold Form.save; simpl.
  rewrite pre_save_totalViews, pre_save_totalSubmissions,
    pre_save_conversionRate.
  destruct (pre_save_frame f) as (Hid & _).
  repeat split.
  - intros Hpos. apply Z.ltb_lt in Hpos. by rewrite Hpos.
  - intros Hle. apply Z.ltb_ge in Hle. by rewrite Hle.
  - rewrite Hid. apply lookup_insert_eq.
Qed.

(** Every Form that the application reaches from a newly built one has a
    non-negative view count, and a conversion rate of 0 while it has no
    views. *)
Lemma step_zero_while_unseen (op : Form.Op) f :
  Form.zero_while_unseen f -> Form.zero_while_unseen (Form.step clientUrl op f).
Proof.
  intros [Hnn Hz]. unfold Form.zero_while_unseen.
  destruct op; simpl;
    rewrite pre_save_totalViews, pre_save_conversionRate; simpl.
  - split; [done |]. intros H0. rewrite H0. simpl. auto.
  - split; [lia |]. intros H0. lia.
  - split; [done |]. intros H0. rewrite H0. simpl. auto.
Qed.

Lemma steps_zero_while_unseen (ops : list Form.Op) f :
  Form.zero_while_unseen f -> Form.zero_while_unseen (Form.steps clientUrl ops f).
Proof.
  revert f. induction ops as [| op ops IH]; intros f Hf; [done |].
  simpl. apply IH, step_zero_while_unseen, Hf.
Qed.

Lemma new_zero_while_unseen (id : ObjectId) (i : Form.Input) f :
  Form.new id i = Some f -> Form.zero_while_unseen f.
Proof.
  unfold Form.new. intros H. simplify_option_eq.
  split; simpl; [lia | done].
Qed.

Lemma reachable_zero_while_unseen (id : ObjectId) (i : Form.Input)
    (ops : list Form.Op) f :
  Form.new id i = Some f ->
  Form.totalViews (Form.stats (Form.steps clientUrl ops f)) = 0 ->
  Form.conversionRate (Form.stats (Form.steps clientUrl ops f)) = 0.
Proof.
  intros Hnew. apply steps_zero_while_unseen.
  eapply new_zero_while_unseen, Hnew.
Qed.

End FormFacts.

Lemma close_to_spec_up_to_sound (n : nat) :
  JS.close_to_spec_up_to n = true ->
  forall a b, 0 <= a <= b -> 0 < b <= Z.of_nat n ->
              JS.close_to_spec a b = true.
Proof.
  unfold JS.close_to_spec_up_to. rewrite forallb_forall.
  intros Hall a b Ha Hb.
  assert (Hin : In (Z.to_nat b) (seq 1 n)) by (apply in_seq; lia).
  specialize (Hall _ Hin). rewrite forallb_forall in Hall.
  assert (Hin' : In (Z.to_nat a) (seq 0 (S (Z.to_nat b))))
    by (apply in_seq; lia).
  specialize (Hall _ Hin'). by rewrite !Z2Nat.id in Hall by lia.
Qed.

Lemma close_to_spec_checked : JS.close_to_spec_up_to 100 = true.
Proof. vm_compute. reflexivity. Qed.

(** On up to 100 views the hook's value is the exact rounding of
    [100 * submissions / views], except that at a tie it may be one
    below it. *)
Lemma round_ratio_close_to_spec (a b : Z) :
  0 <= a <= b -> 0 < b <= 100 ->
  (JS.is_tie a b = false ->
   JS.round_ratio_times_100 a b = JS.spec_round_percent a b)
  /\ JS.spec_round_percent a b - 1 <= JS.round_ratio_times_100 a b
     <= JS.spec_round_percent a b.
Proof.
  intros Ha Hb.
  pose proof (close_to_spec_up_to_sound 100 close_to_spec_checked a b Ha)
    as Hclose.
  change (Z.of_nat 100) with 100 in Hclose. specialize (Hclose Hb).
  unfold JS.close_to_spec in Hclose.
  apply orb_true_iff in Hclose as [Heq | Htie].
  - apply Z.eqb_eq in Heq. split; [done | lia].
  - apply andb_true_iff in Htie as [Htie Heq]. apply Z.eqb_eq in Heq.
    split; [congruence | lia].
Qed.

(** C4. The hook divides first and multiplies afterwards, in doubles.
    The Form that the constructor builds, saved and then read 40 times
    and submitted 23 times, is saved with a conversion rate of 57: 23/40
    is rounded to a double below 0.575 before it is multiplied by 100,
    where [round(100 * 23 / 40)], the rounding of 57.5, is 58. *)
Theorem save_conversionRate_tie :
  let f := Form.steps Sample.clientUrl Sample.traffic Sample.contact_form in
  let f' := (Form.save Sample.clientUrl f ∅).1 in
  Form.new "form1" Sample.contact_form_input = Some Sample.contact_form_new
  /\ Form.totalViews (Form.stats f') = 40
  /\ Form.totalSubmissions (Form.stats f') = 23
  /\ Form.conversionRate (Form.stats f') = 57
  /\ JS.spec_round_percent (Form.totalSubmissions (Form.stats f'))
                           (Form.totalViews (Form.stats f')) = 58.
Proof. vm_compute. repeat split. Qed.

(* ===================================================================== *)
(** * Properties of the forms router *)
(* ===================================================================== *)

Ltac run_handler :=
  unfold Http.try_catch, Http.bind, Http.ret, Http.return_, Http.throw,
         Http.read, Http.Form_findById, Http.Form_new, Http.Form_save,
         Http.Form_incrementViews, Http.Form_findByIdAndDelete,
         Http.Response_deleteMany_formId; simpl.

Section FormsRouterFacts.

Variable clientUrl : string.

Implicit Types (db : Http.Db) (form : Form.t).

Lemma incrementViews_result form (coll : gmap ObjectId Form.t) :
  let f' := (Form.incrementViews clientUrl form coll).1 in
  Form._id f' = Form._id form
  /\ Form.totalViews (Form.stats f')
     = Form.totalViews (Form.stats form) + 1
  /\ (Form.incrementViews clientUrl form coll).2
     = <[Form._id form := f']> coll.
Proof.
  unfold Form.incrementViews, Form.save; simpl.
  rewrite pre_save_totalViews.
  destruct (pre_save_frame clientUrl (Form.add_view form)) as (-> & _).
  done.
Qed.

Lemma is_owner_true (user : option ObjectId) form :
  FormsRouter.is_owner user form = true <-> user = Some (Form.userId form).
Proof.
  unfold FormsRouter.is_owner. destruct user as [userId |]; [| done].
  rewrite String.eqb_eq. split; [by intros -> | by intros [= ->]].
Qed.

Lemma is_owner_false (user : option ObjectId) form :
  FormsRouter.is_owner user form = false <-> user <> Some (Form.userId form).
Proof.
  rewrite <- is_owner_true. by destruct (FormsRouter.is_owner user form).
Qed.

(** C5. The owner of a stored Form is the requester whose user id is the
    Form's [userId]; an anonymous requester is nobody's owner.  A read
    by anyone else is refused with 403 and changes nothing when the Form
    is inactive or unpublished; it succeeds and stores [totalViews + 1]
    when the Form is active and published.  The owner's read succeeds
    whatever the flags are (and counts no view). *)
Theorem get_access_control (user : option ObjectId) (id : ObjectId)
    db form :
  Http.forms db !! id = Some form ->
  Form._id form = id ->
  let res := (FormsRouter.get clientUrl user id db).1 in
  let db' := (FormsRouter.get clientUrl user id db).2 in
  (user <> Some (Form.userId form) ->
   Form.isActive form = false \/ Form.isPublished form = false ->
   FormsRouter.status res = 403
   /\ FormsRouter.body res = FormsRouter.Message "Access denied"
   /\ db' = db)
  /\ (user <> Some (Form.userId form) ->
      Form.isActive form = true -> Form.isPublished form = true ->
      exists form',
        FormsRouter.status res = 200
        /\ FormsRouter.body res = FormsRouter.FormOnly form'
        /\ Http.forms db' !! id = Some form'
        /\ Form.totalViews (Form.stats form')
           = Form.totalViews (Form.stats form) + 1
        /\ Http.responses db' = Http.responses db)
  /\ (user = Some (Form.userId form) ->
      FormsRouter.status res = 200
      /\ FormsRouter.body res = FormsRouter.FormOnly form
      /\ db' = db).
Proof.
  intros Hfound Hid res db'. subst res db'.
  unfold FormsRouter.get, FormsRouter.get_body. run_handler.
  rewrite Hfound.
  split; [| split].
  - intros Hown Hflags. apply is_owner_false in Hown. rewrite Hown. simpl.
    destruct Hflags as [-> | ->]; simpl;
      rewrite ?andb_false_r; simpl; done.
  - intros Hown Hact Hpub. apply is_owner_false in Hown.
    rewrite Hown, Hact, Hpub. simpl.
    destruct (incrementViews_result form (Http.forms db))
      as (Hid' & Hviews & _).
    unfold Form.incrementViews, Form.save in Hid', Hviews. simpl in *.
    eexists. repeat split; try done.
    rewrite Hid', Hid. apply lookup_insert_eq.
  - intros Hown. apply is_owner_true in Hown. rewrite Hown. simpl.
    rewrite andb_false_r. done.
Qed.

(** C8. Deleting a Form first deletes every Response whose [formId] is
    the Form's id and then the Form: afterwards no Response refers to
    it, it is gone, and every other Response and Form is still there. *)
Theorem delete_cascades form db :
  let res := (FormsRouter.delete form db).1 in
  let db' := (FormsRouter.delete form db).2 in
  FormsRouter.status res = 200
  /\ (forall rid r, Http.responses db' !! rid = Some r ->
                    Response.formId r <> Form._id form)
  /\ Http.forms db' !! Form._id form = None
  /\ Http.writes db'
     = Http.writes db ++ [Http.DeleteResponsesOfForm (Form._id form);
                          Http.DeleteForm (Form._id form)]
  /\ (forall rid r, Http.responses db !! rid = Some r ->
                    Response.formId r <> Form._id form ->
                    Http.responses db' !! rid = Some r)
  /\ (forall id, id <> Form._id form ->
                 Http.forms db' !! id = Http.forms db !! id).
Proof.
  unfold FormsRouter.delete, FormsRouter.delete_body. run_handler.
  repeat split.
  - intros rid r Hr. unfold Response.deleteMany_formId in Hr.
    by apply map_lookup_filter_Some in Hr as [_ Hne].
  - apply lookup_delete_eq.
  - by rewrite <- app_assoc.
  - intros rid r Hr Hne. unfold Response.deleteMany_formId.
    by apply map_lookup_filter_Some.
  - intros id Hne. by apply lookup_delete_ne.
Qed.

(** The state between the two writes: the Responses are gone while the
    Form is still stored. *)
Lemma delete_responses_first form db :
  let db1 :=
    (@Http.Response_deleteMany_formId FormsRouter.Res (Form._id form) db).2 in
  Http.forms db1 = Http.forms db
  /\ (forall rid r, Http.responses db1 !! rid = Some r ->
                    Response.formId r <> Form._id form)
  /\ (FormsRouter.delete form db).2
     = (@Http.Form_findByIdAndDelete FormsRouter.Res (Form._id form) db1).2.
Proof.
  unfold FormsRouter.delete, FormsRouter.delete_body. run_handler.
  repeat split.
  intros rid r Hr. unfold Response.deleteMany_formId in Hr.
  by apply map_lookup_filter_Some in Hr as [_ Hne].
Qed.

(** ** Duplication *)

Lemma FieldType_of_name_name (ty : Response.FieldType) :
  Form.FieldType_of_name (Form.FieldType_name ty) = Some ty.
Proof. by destruct ty. Qed.

Lemma required_string_truthy (s : string) :
  JS.truthy_string s = true -> Form.required_string (Some s) = Some s.
Proof. intros H. unfold Form.required_string. by rewrite H. Qed.

Lemma cast_field_toObject (fld : Form.Field) :
  Form.valid_field fld = true ->
  Form.cast_field (Form.Field_toObject fld) = Some fld.
Proof.
  unfold Form.valid_field. rewrite !andb_true_iff. intros [[Hi Hn] Hl].
  destruct fld as [fid fname fty flabel ? ? ? ? ? ? ?]; simpl in *.
  unfold Form.cast_field, Form.Field_toObject; simpl.
  rewrite Hi, Hn; simpl.
  replace (JS.truthy_string (Form.FieldType_name fty)) with true
    by (by destruct fty).
  simpl. rewrite FieldType_of_name_name; simpl.
  by rewrite Hl.
Qed.

Lemma cast_fields_toObject (l : list Form.Field) :
  forallb Form.valid_field l = true ->
  Form.cast_fields (map Form.Field_toObject l) = Some l.
Proof.
  intros Hall. unfold Form.cast_fields.
  apply (mapM_fmap_Forall_Some Form.cast_field Form.Field_toObject).
  apply Forall_forall. intros fld Hin. apply cast_field_toObject.
  rewrite forallb_forall in Hall. apply Hall. by apply list_elem_of_In.
Qed.

Lemma cast_settings_toObject (st : Form.Settings) :
  Form.cast_settings (Form.Settings_toObject st) = st.
Proof. by destruct st. Qed.

Lemma copy_title_truthy (s : string) :
  JS.truthy_string (s +:+ " (Copy)") = true.
Proof. by destruct s. Qed.

(** C9. Duplicating a stored Form under a fresh id stores a new Form with
    that id, different from the source's, unpublished, with the source's
    fields and settings; its title is the source's followed by
    [" (Copy)"] when the request supplies none, and the supplied title
    otherwise.  The source stays as it was. *)
Theorem duplicate_result (newId userId : ObjectId) (original : Form.t)
    (title : option string) db :
  Form.valid original = true ->
  Http.forms db !! Form._id original = Some original ->
  Http.forms db !! newId = None ->
  let res := (FormsRouter.duplicate clientUrl newId userId original title db).1 in
  let db' := (FormsRouter.duplicate clientUrl newId userId original title db).2 in
  exists dup,
    FormsRouter.status res = 201
    /\ FormsRouter.body res
       = FormsRouter.MessageForm "Form duplicated successfully" dup
    /\ Http.forms db' !! newId = Some dup
    /\ Form._id dup = newId
    /\ Form._id dup <> Form._id original
    /\ Form.isPublished dup = false
    /\ Form.fields dup = Form.fields original
    /\ Form.settings dup = Form.settings original
    /\ (FormsRouter.present title = false ->
        Form.title dup = Form.title original +:+ " (Copy)")
    /\ (FormsRouter.present title = true -> Some (Form.title dup) = title)
    /\ Http.forms db' !! Form._id original = Some original.
Proof.
  intros Hvalid Hsrc Hfresh res db'. subst res db'.
  assert (Hne : newId <> Form._id original) by congruence.
  unfold Form.valid in Hvalid. rewrite !andb_true_iff in Hvalid.
  destruct Hvalid as [[[[[Ht Hb] Hbn] Htb] Htn] Hfs].
  unfold FormsRouter.duplicate, FormsRouter.duplicate_body.
  unfold Http.try_catch, Http.bind, Http.Form_new, Form.new; simpl.
  assert (Htitle : JS.truthy_string
            (if FormsRouter.present title then default EmptyString title
             else Form.title original +:+ " (Copy)") = true).
  { destruct title as [t |]; simpl; [| apply copy_title_truthy].
    destruct (JS.truthy_string t) eqn:Ht'; [done | apply copy_title_truthy]. }
  rewrite Htitle; simpl.
  rewrite Hb, Hbn, Htb, Htn; simpl.
  rewrite (cast_fields_toObject _ Hfs); simpl.
  rewrite cast_settings_toObject.
  run_handler.
  eexists. repeat split; simpl; try done.
  - apply lookup_insert_eq.
  - intros Hp. by rewrite Hp.
  - intros Hp. rewrite Hp. destruct title; [done | discriminate].
  - by rewrite lookup_insert_ne.
Qed.

(** ** Field orders *)

Lemma order_or_index_cases (index : nat) :
  (forall n, n <> 0 ->
             FormsRouter.order_or_index (Some n) index = n)
  /\ FormsRouter.order_or_index None index = Z.of_nat index
  /\ FormsRouter.order_or_index (Some 0) index = Z.of_nat index.
Proof.
  unfold FormsRouter.order_or_index, JS.truthy_number.
  repeat split. intros n Hn.
  by destruct (Z.eqb_spec n 0).
Qed.

Lemma first_invalid_None (fields : list Form.FieldObject) (i : nat) :
  Forall (fun fo => FormsRouter.accepted_field fo = true) fields ->
  FormsRouter.first_invalid i fields = None.
Proof.
  intros Hall. revert i.
  induction Hall as [| fo rest Hfo _ IH]; intros i; simpl; [done |].
  unfold FormsRouter.accepted_field in Hfo.
  apply andb_true_iff in Hfo as [Hreq _].
  apply negb_true_iff in Hreq. rewrite Hreq. apply IH.
Qed.

Lemma cast_with_order (v : Z) (fo : Form.FieldObject) :
  FormsRouter.accepted_field fo = true ->
  exists fld,
    Form.cast_field (Form.with_order v fo) = Some fld
    /\ Form.order fld = v.
Proof.
  unfold FormsRouter.accepted_field, FormsRouter.missing_required,
    FormsRouter.present.
  destruct fo as [oid onm oty olb ? ? ? ? ? ? ?]; simpl.
  destruct oid as [i |], onm as [n |], oty as [t |], olb as [l |]; simpl;
    rewrite ?orb_true_r, ?andb_false_r; try discriminate.
  destruct (JS.truthy_string i) eqn:Hi, (JS.truthy_string n) eqn:Hn,
           (JS.truthy_string t) eqn:Ht, (JS.truthy_string l) eqn:Hl;
    simpl; try discriminate.
  destruct (Form.FieldType_of_name t) as [ty |] eqn:Hty; simpl;
    [| discriminate].
  intros _. unfold Form.cast_field; simpl.
  rewrite Hi, Hn, Ht; simpl. rewrite Hty; simpl. rewrite Hl; simpl.
  eexists. split; reflexivity.
Qed.

Lemma cast_fields_orders (fields : list Form.FieldObject) (k : nat) :
  Forall (fun fo => FormsRouter.accepted_field fo = true) fields ->
  exists fs,
    mapM Form.cast_field
      (imap (fun index field =>
               Form.with_order
                 (FormsRouter.order_or_index (Form.o_order field)
                                             (k + index)) field)
            fields) = Some fs
    /\ length fs = length fields
    /\ forall i fo, fields !! i = Some fo ->
         exists fld, fs !! i = Some fld
                     /\ Form.order fld
                        = FormsRouter.order_or_index (Form.o_order fo)
                                                     (k + i).
Proof.
  intros Hall. revert k.
  induction Hall as [| fo rest Hfo _ IH]; intros k.
  - exists []. repeat split. intros i fo Hi. by rewrite lookup_nil in Hi.
  - destruct (cast_with_order
                (FormsRouter.order_or_index (Form.o_order fo) (k + 0)) fo Hfo)
      as (fld & Hcast & Hord).
    destruct (IH (S k)) as (fs & Hrest & Hlen & Hlook).
    exists (fld :: fs). simpl. rewrite Hcast. simpl.
    erewrite imap_ext; [rewrite Hrest |]; simpl.
    + repeat split; [by rewrite Hlen |].
      intros [| i] fo' Hi; simpl in Hi.
      * injection Hi as <-. eauto.
      * destruct (Hlook i fo' Hi) as (fld' & Hf' & Ho').
        exists fld'. split; [done |].
        rewrite Ho'. f_equal. lia.
    + intros i x _. simpl. do 2 f_equal. lia.
Qed.

(** The update route stores, for the field at index [i], the supplied
    order when it is a non-zero number and [i] when the order is 0 or
    omitted. *)
Lemma update_stored_order form (b : FormsRouter.UpdateBody)
    (fields : list Form.FieldObject) db :
  FormsRouter.u_fields b = Some fields ->
  Forall (fun fo => FormsRouter.accepted_field fo = true) fields ->
  let res := (FormsRouter.update clientUrl form b db).1 in
  let db' := (FormsRouter.update clientUrl form b db).2 in
  exists form',
    FormsRouter.status res = 200
    /\ FormsRouter.body res
       = FormsRouter.MessageForm "Form updated successfully" form'
    /\ Http.forms db' !! Form._id form = Some form'
    /\ length (Form.fields form') = length fields
    /\ forall i fo, fields !! i = Some fo ->
         exists fld, Form.fields form' !! i = Some fld
                     /\ Form.order fld
                        = FormsRouter.order_or_index (Form.o_order fo) i.
Proof.
  intros Hfields Hall res db'. subst res db'.
  destruct (cast_fields_orders fields 0 Hall) as (fs & Hcast & Hlen & Hord).
  unfold FormsRouter.update, FormsRouter.update_body.
  rewrite Hfields, (first_invalid_None fields 0 Hall).
  unfold Form.cast_fields, FormsRouter.with_orders.
  simpl in Hcast. rewrite Hcast.
  run_handler.
  match goal with
  | |- context [Form.pre_save clientUrl ?f0] =>
      destruct (pre_save_frame clientUrl f0) as (Hid & _ & _ & Hflds & _);
      assert (Hid0 : Form._id f0 = Form._id form)
        by (destruct (FormsRouter.present (FormsRouter.u_title b)),
              (FormsRouter.u_description b), (FormsRouter.u_settings b),
              (FormsRouter.u_isActive b), (FormsRouter.u_isPublished b);
            reflexivity);
      assert (Hflds0 : Form.fields f0 = fs)
        by (destruct (FormsRouter.present (FormsRouter.u_title b)),
              (FormsRouter.u_description b), (FormsRouter.u_settings b),
              (FormsRouter.u_isActive b), (FormsRouter.u_isPublished b);
            reflexivity)
  end.
  eexists. repeat split; simpl.
  - rewrite Hid, Hid0. apply lookup_insert_eq.
  - by rewrite Hflds, Hflds0.
  - intros i fo Hi. rewrite Hflds, Hflds0. apply (Hord i fo Hi).
Qed.

(** The create route never stores a Form: it answers 400, or it reaches
    the constructor call, whose argument reads [form] before the
    binding is initialised, and answers 500. *)
Lemma create_never_stores (newId userId : ObjectId)
    (b : FormsRouter.CreateBody) db :
  let res := (FormsRouter.create clientUrl newId userId b db).1 in
  let db' := (FormsRouter.create clientUrl newId userId b db).2 in
  db' = db
  /\ (FormsRouter.status res = 400 \/ FormsRouter.status res = 500).
Proof.
  unfold FormsRouter.create, FormsRouter.create_body. run_handler.
  destruct (FormsRouter.c_fields b) as [fields |]; simpl; [| auto].
  destruct (negb (FormsRouter.present (FormsRouter.c_title b))
            || negb (FormsRouter.present (FormsRouter.c_airtableBaseId b))
            || negb (FormsRouter.present (FormsRouter.c_airtableTableId b)));
    simpl; [auto |].
  destruct (length fields =? 0)%nat; simpl; [auto |].
  destruct (FormsRouter.first_invalid 0 fields); simpl; auto.
Qed.

End FormsRouterFacts.

Lemma get_access_control_witness :
  (let res := (FormsRouter.get Sample.clientUrl None "form1" Sample.db).1 in
   let db' := (FormsRouter.get Sample.clientUrl None "form1" Sample.db).2 in
   exists form',
     FormsRouter.status res = 200
     /\ Http.forms db' !! "form1" = Some form'
     /\ Form.totalViews (Form.stats form') = 1)
  /\ (let res := (FormsRouter.get Sample.clientUrl (Some "user2") "form1"
                    Sample.draft_db).1 in
      let db' := (FormsRouter.get Sample.clientUrl (Some "user2") "form1"
                    Sample.draft_db).2 in
      FormsRouter.status res = 403 /\ db' = Sample.draft_db)
  /\ (let res := (FormsRouter.get Sample.clientUrl (Some "user1") "form1"
                    Sample.draft_db).1 in
      let db' := (FormsRouter.get Sample.clientUrl (Some "user1") "form1"
                    Sample.draft_db).2 in
      FormsRouter.status res = 200
      /\ FormsRouter.body res = FormsRouter.FormOnly Sample.contact_form
      /\ db' = Sample.draft_db).
Proof.
  split; [| split].
  - intros res db'.
    destruct (get_access_control Sample.clientUrl None "form1" Sample.db
                Sample.published_form)
      as (_ & Hpublic & _); [reflexivity | reflexivity |].
    fold Sample.clientUrl in Hpublic.
    destruct Hpublic as (form' & Hst & _ & Hstored & Hviews & _);
      [discriminate | reflexivity | reflexivity |].
    exists form'. split; [exact Hst | split; [exact Hstored | exact Hviews]].
  - intros res db'.
    destruct (get_access_control Sample.clientUrl (Some "user2") "form1"
                Sample.draft_db Sample.contact_form)
      as (Hdenied & _); [reflexivity | reflexivity |].
    destruct Hdenied as (Hst & _ & Hdb);
      [discriminate | right; reflexivity |].
    split; [exact Hst | exact Hdb].
  - intros res db'.
    destruct (get_access_control Sample.clientUrl (Some "user1") "form1"
                Sample.draft_db Sample.contact_form)
      as (_ & _ & Howner); [reflexivity | reflexivity |].
    exact (Howner eq_refl).
Defined.

Lemma duplicate_result_witness :
  let res := (FormsRouter.duplicate Sample.clientUrl "form2" "user1"
                Sample.published_form None Sample.db).1 in
  let db' := (FormsRouter.duplicate Sample.clientUrl "form2" "user1"
                Sample.published_form None Sample.db).2 in
  exists dup,
    FormsRouter.status res = 201
    /\ Http.forms db' !! "form2" = Some dup
    /\ Form.isPublished dup = false
    /\ Form.title dup = "Contact (Copy)".
Proof.
  intros res db'.
  destruct (duplicate_result Sample.clientUrl "form2" "user1" Sample.published_form None
              Sample.db)
    as (dup & Hst & _ & Hstored & _ & _ & Hpub & _ & _ & Hcopy & _);
    [reflexivity | reflexivity | reflexivity |].
  fold Sample.clientUrl in Hst, Hstored.
  exists dup. split; [exact Hst |]. split; [exact Hstored |].
  split; [exact Hpub | exact (Hcopy eq_refl)].
Defined.


Lemma update_stored_order_witness :
  let db' := (FormsRouter.update Sample.clientUrl Sample.published_form
                Sample.update_request Sample.db).2 in
  exists form',
    Http.forms db' !! "form1" = Some form'
    /\ Form.order <$> Form.fields form' = [5; 1; 2].
Proof.
  intros db'.
  destruct (update_stored_order Sample.clientUrl Sample.published_form
              Sample.update_request
              [Sample.ordered (Some 5); Sample.ordered (Some 0);
               Sample.ordered None] Sample.db)
    as (form' & _ & _ & Hstored & Hlen & Hord);
    [reflexivity | repeat constructor |].
  exists form'. split; [exact Hstored |].
  destruct (Form.fields form') as [| f0 [| f1 [| f2 [| ? ?]]]];
    try discriminate Hlen.
  destruct (Hord 0%nat _ eq_refl) as (? & [= <-] & H0).
  destruct (Hord 1%nat _ eq_refl) as (? & [= <-] & H1).
  destruct (Hord 2%nat _ eq_refl) as (? & [= <-] & H2).
  simpl. by rewrite H0, H1, H2.
Defined.

(** C10 at the create request of the specification's scenario (one field,
    no order): the handler answers 500 with the ReferenceError of reading
    [form] inside its own initialiser, and no Form is stored, so there is
    no stored order to speak of. *)
Theorem create_stores_nothing :
  let res := (FormsRouter.create Sample.clientUrl "form2" "user1"
                Sample.create_request Sample.db).1 in
  let db' := (FormsRouter.create Sample.clientUrl "form2" "user1"
                Sample.create_request Sample.db).2 in
  FormsRouter.status res = 500
  /\ FormsRouter.body res
     = FormsRouter.MessageError "Failed to create form"
         "Cannot access 'form' before initialization"
  /\ db' = Sample.db
  /\ Http.forms db' !! "form2" = None.
Proof. repeat split. Qed.

(* ===================================================================== *)
(** * Properties of the auth routes and of the User model *)
(* ===================================================================== *)

Section AuthFacts.

Variable exchange_code : string -> JS.Value + JS.Value.
Variable exchange_refresh : string -> option AuthRouter.RefreshData.

Implicit Types (u : User.t) (st : AuthRouter.State).

(** [toJSON] leaves neither token path in the object, at any depth. *)
Lemma toJSON_hides_tokens u :
  JS.has_key "airtableAccessToken" (User.toJSON u) = false
  /\ JS.has_key "airtableRefreshToken" (User.toJSON u) = false
  /\ JS.get_prop "airtableAccessToken" (User.toJSON u) = JS.VUndefined.
Proof.
  unfold User.toJSON, User.toObject, User.Profile_toObject.
  destruct (User.airtableRefreshToken u), (User.airtableTokenExpiresAt u),
    (User.name (User.profile u)), (User.avatarUrl (User.profile u)),
    (User.airtableUsername (User.profile u)); repeat split.
Qed.

(** The bodies of [/me], [/verify] and [/refresh] carry no token path. *)
Lemma me_hides_token (userId : ObjectId) (now : Date) st :
  JS.has_key "airtableAccessToken"
    (AuthRouter.body (AuthRouter.me userId now st).1) = false.
Proof.
  unfold AuthRouter.me.
  destruct (AuthRouter.users st !! userId) as [u |]; [| reflexivity].
  destruct (User.isTokenExpired now u); [reflexivity |].
  exact (proj1 (toJSON_hides_tokens u)).
Qed.

Lemma verify_hides_token (userId : ObjectId) (now : Date) st :
  JS.has_key "airtableAccessToken"
    (AuthRouter.body (AuthRouter.verify userId now st).1) = false.
Proof.
  unfold AuthRouter.verify.
  destruct (AuthRouter.users st !! userId) as [u |]; [| reflexivity].
  destruct (User.isActive u); [| reflexivity].
  destruct (User.isTokenExpired now u); [reflexivity |]. simpl.
  unfold User.Profile_toObject.
  by destruct (User.name (User.profile u)), (User.avatarUrl (User.profile u)),
    (User.airtableUsername (User.profile u)).
Qed.

Lemma refresh_hides_token (userId : ObjectId) (now : Date) st :
  exists msg,
    AuthRouter.body (AuthRouter.refresh exchange_refresh userId now st).1
    = JS.VObject [("message", JS.VString msg)].
Proof.
  unfold AuthRouter.refresh.
  destruct (AuthRouter.users st !! userId) as [u |]; [| by eexists].
  destruct (User.airtableRefreshToken u) as [rt |]; [| by eexists].
  destruct (JS.truthy_string rt); simpl; [| by eexists].
  destruct (exchange_refresh rt); by eexists.
Qed.

(** The simple callback answers from [code] and [error] alone: neither
    the [state] of the query nor the session enters the answer, and the
    User collection and the session are left as they were. *)
Lemma simple_callback_ignores_state (q q' : AuthRouter.CallbackQuery)
    st st' :
  AuthRouter.q_code q = AuthRouter.q_code q' ->
  AuthRouter.q_error q = AuthRouter.q_error q' ->
  (AuthRouter.simple_callback exchange_code q st).1
  = (AuthRouter.simple_callback exchange_code q' st').1.
Proof.
  intros Hc He. unfold AuthRouter.simple_callback. rewrite Hc, He.
  destruct (AuthRouter.present (AuthRouter.q_error q')); [done |].
  destruct (negb (AuthRouter.present (AuthRouter.q_code q'))); [done |].
  by destruct (exchange_code _).
Qed.

Lemma simple_callback_frame (q : AuthRouter.CallbackQuery) st :
  (AuthRouter.simple_callback exchange_code q st).2 = st.
Proof.
  unfold AuthRouter.simple_callback.
  destruct (AuthRouter.present (AuthRouter.q_error q)); [done |].
  destruct (negb (AuthRouter.present (AuthRouter.q_code q))); [done |].
  by destruct (exchange_code _).
Qed.

(** Whatever the provider issues for an accepted code is the [token]
    property of the answer. *)
Lemma simple_callback_returns_token (q : AuthRouter.CallbackQuery)
    (code : string) (data : JS.Value) st :
  AuthRouter.present (AuthRouter.q_error q) = false ->
  AuthRouter.q_code q = Some code ->
  JS.truthy_string code = true ->
  exchange_code code = inl data ->
  (AuthRouter.simple_callback exchange_code q st).1
  = AuthRouter.json 200
      (JS.VObject [("success", JS.VBool true); ("token", data)]).
Proof.
  intros He Hc Ht Hx. unfold AuthRouter.simple_callback.
  rewrite He, Hc. simpl. rewrite Ht. simpl. by rewrite Hx.
Qed.

End AuthFacts.

(** C2 at an accepted authorization code: the JSON body of the simple
    callback carries the access token that the provider issued, under
    [token.access_token]. *)
Theorem simple_callback_exposes_access_token :
  let res := (AuthRouter.simple_callback Sample.provider
                Sample.forged_callback Sample.awaiting_callback).1 in
  AuthRouter.status res = 200
  /\ JS.get_prop "access_token" (JS.get_prop "token" (AuthRouter.body res))
     = JS.VString Sample.issued_token
  /\ JS.contains_string Sample.issued_token (AuthRouter.body res) = true
  /\ JS.has_key "access_token" (AuthRouter.body res) = true.
Proof. repeat split. Qed.

(** C3 at a callback whose [state] differs from the one the session
    holds: the exchange goes ahead and the answer is a success, not a
    state-mismatch error; the User collection is untouched. *)
Theorem simple_callback_accepts_forged_state :
  let st := Sample.awaiting_callback in
  let q := Sample.forged_callback in
  let res := (AuthRouter.simple_callback Sample.provider q st).1 in
  let st' := (AuthRouter.simple_callback Sample.provider q st).2 in
  AuthRouter.oauthState (AuthRouter.session st) = Some "expected-state"
  /\ AuthRouter.q_state q = Some "forged-state"
  /\ AuthRouter.q_state q <> AuthRouter.oauthState (AuthRouter.session st)
  /\ AuthRouter.status res = 200
  /\ AuthRouter.body res
     = JS.VObject [("success", JS.VBool true); ("token", Sample.token_data)]
  /\ AuthRouter.users st' = AuthRouter.users st.
Proof. repeat split. discriminate. Qed.

(* ===================================================================== *)
(** * Further properties of the Form model *)
(* ===================================================================== *)

Section FormLifecycle.

Variable clientUrl : string.

Implicit Types (f : Form.t) (ops : list Form.Op).

Lemma pre_save_share_settled f :
  Form.share_settled clientUrl (Form.set_isNew false (Form.pre_save clientUrl f)).
Proof.
  split; [reflexivity |].
  unfold Form.pre_save.
  destruct (Form.isNew f || Form.shareUrl_unset (Form.shareSettings f)) eqn:Hb;
    simpl; destruct (0 <? Form.totalViews _); simpl; try done.
  all: apply orb_false_iff in Hb as [_ Hset]; congruence.
Qed.

Lemma pre_save_shareSettings_settled f :
  Form.share_settled clientUrl f ->
  Form.shareSettings (Form.pre_save clientUrl f) = Form.shareSettings f.
Proof.
  intros [Hnew Hunset]. unfold Form.pre_save. rewrite Hnew. simpl.
  destruct (Form.shareUrl_unset (Form.shareSettings f)) eqn:Hu; simpl.
  - destruct (0 <? Form.totalViews _); simpl; symmetry; exact (Hunset eq_refl).
  - by destruct (0 <? Form.totalViews _).
Qed.

Lemma step_share_settled (op : Form.Op) f :
  Form.share_settled clientUrl (Form.step clientUrl op f).
Proof. destruct op; apply pre_save_share_settled. Qed.

Lemma step_shareSettings (op : Form.Op) f :
  Form.share_settled clientUrl f ->
  Form.shareSettings (Form.step clientUrl op f) = Form.shareSettings f.
Proof.
  intros Hs. destruct op; simpl.
  - by apply pre_save_shareSettings_settled.
  - rewrite pre_save_shareSettings_settled; [done |].
    destruct Hs as [Hn Hu]. split; [done |]. exact Hu.
  - rewrite pre_save_shareSettings_settled; [done |].
    destruct Hs as [Hn Hu]. split; [done |]. exact Hu.
Qed.

Lemma pre_save_fixpoint f :
  Form.share_settled clientUrl f ->
  (0 < Form.totalViews (Form.stats f) ->
   Form.conversionRate (Form.stats f)
   = JS.round_ratio_times_100 (Form.totalSubmissions (Form.stats f))
                              (Form.totalViews (Form.stats f))) ->
  Form.set_isNew false (Form.pre_save clientUrl f) = f.
Proof.
  intros [Hnew Hunset] Hrate.
  unfold Form.pre_save. rewrite Hnew. simpl.
  destruct (Form.shareUrl_unset (Form.shareSettings f)) eqn:Hu; simpl.
  - destruct (0 <? Form.totalViews (Form.stats f)) eqn:Hv; simpl.
    + apply Z.ltb_lt in Hv. rewrite <- (Hrate Hv), <- (Hunset eq_refl).
      destruct f as [? ? ? ? ? ? ? ? ? ? ? ? ? [? ? ?] ?]; simpl in *.
      by rewrite Hnew.
    + rewrite <- (Hunset eq_refl).
      destruct f; simpl in *. by rewrite Hnew.
  - destruct (0 <? Form.totalViews (Form.stats f)) eqn:Hv; simpl.
    + apply Z.ltb_lt in Hv. rewrite <- (Hrate Hv).
      destruct f as [? ? ? ? ? ? ? ? ? ? ? ? ? [? ? ?] ?]; simpl in *.
      by rewrite Hnew.
    + destruct f; simpl in *. by rewrite Hnew.
Qed.

(** Saving a document that was just saved changes nothing: the pre-save
    hook is idempotent. *)
Theorem save_twice f (coll coll' : gmap ObjectId Form.t) :
  (Form.save clientUrl (Form.save clientUrl f coll).1 coll').1
  = (Form.save clientUrl f coll).1.
Proof.
  unfold Form.save; simpl.
  apply pre_save_fixpoint; [apply pre_save_share_settled |].
  simpl. rewrite pre_save_totalViews, pre_save_totalSubmissions,
    pre_save_conversionRate.
  intros Hpos. apply Z.ltb_lt in Hpos. by rewrite Hpos.
Qed.

(** Once a document has been saved, its share URL and embed snippet stay
    what they are through every later save and counter increment. *)
Theorem shareSettings_stable (first : Form.Op) ops f :
  Form.shareSettings (Form.steps clientUrl ops (Form.step clientUrl first f))
  = Form.shareSettings (Form.step clientUrl first f).
Proof.
  pose proof (step_share_settled first f) as Hs.
  revert Hs. generalize (Form.step clientUrl first f). clear f first.
  induction ops as [| op ops IH]; intros g Hg; [done |].
  simpl. rewrite IH by apply step_share_settled.
  by apply step_shareSettings.
Qed.

Lemma step_counters (op : Form.Op) f :
  Form.totalViews (Form.stats (Form.step clientUrl op f))
  = Form.totalViews (Form.stats f) + Form.count_op Form.OpIncrementViews [op]
  /\ Form.totalSubmissions (Form.stats (Form.step clientUrl op f))
     = Form.totalSubmissions (Form.stats f)
       + Form.count_op Form.OpIncrementSubmissions [op].
Proof.
  destruct op; simpl;
    rewrite pre_save_totalViews, pre_save_totalSubmissions; simpl;
    unfold Form.count_op; simpl; lia.
Qed.

Lemma count_op_cons (op o : Form.Op) ops :
  Form.count_op op (o :: ops) = Form.count_op op [o] + Form.count_op op ops.
Proof.
  unfold Form.count_op. simpl.
  destruct o, op; simpl; lia.
Qed.

(** The counters only count: after any sequence of saves and increments
    the views are the old views plus the number of [incrementViews], and
    the submissions the old ones plus the number of
    [incrementSubmissions], in whatever order they came. *)
Theorem steps_counters ops f :
  Form.totalViews (Form.stats (Form.steps clientUrl ops f))
  = Form.totalViews (Form.stats f) + Form.count_op Form.OpIncrementViews ops
  /\ Form.totalSubmissions (Form.stats (Form.steps clientUrl ops f))
     = Form.totalSubmissions (Form.stats f)
       + Form.count_op Form.OpIncrementSubmissions ops.
Proof.
  revert f. induction ops as [| op ops IH]; intros f.
  - unfold Form.count_op. simpl. lia.
  - simpl. destruct (IH (Form.step clientUrl op f)) as [Hv Hs].
    destruct (step_counters op f) as [Hv1 Hs1].
    rewrite Hv, Hs, Hv1, Hs1,
      (count_op_cons Form.OpIncrementViews op ops),
      (count_op_cons Form.OpIncrementSubmissions op ops).
    lia.
Qed.

(** An anonymous visitor can read a Form exactly when [findPublished]
    returns it. *)
Theorem anonymous_read_iff_findPublished (id : ObjectId) (db : Http.Db) :
  FormsRouter.status (FormsRouter.get clientUrl None id db).1 = 200
  <-> is_Some (Form.findPublished (Http.forms db) !! id).
Proof.
  unfold FormsRouter.get, FormsRouter.get_body. run_handler.
  unfold Form.findPublished.
  destruct (Http.forms db !! id) as [form |] eqn:Hform; simpl.
  - destruct (Form.isPublished form) eqn:Hp, (Form.isActive form) eqn:Ha;
      simpl; split; try discriminate; try done.
    + intros _. exists form. apply map_lookup_filter_Some. by simpl.
    + intros [x Hx]. apply map_lookup_filter_Some in Hx as [Hx [Ha' _]].
      simpl in Ha'. congruence.
    + intros [x Hx]. apply map_lookup_filter_Some in Hx as [Hx [_ Hp']].
      simpl in Hp'. congruence.
    + intros [x Hx]. apply map_lookup_filter_Some in Hx as [Hx [_ Hp']].
      simpl in Hp'. congruence.
  - split; [discriminate |].
    intros [x Hx]. apply map_lookup_filter_Some in Hx as [Hx _]. congruence.
Qed.

End FormLifecycle.

(* ===================================================================== *)
(** * Further properties of the Response model *)
(* ===================================================================== *)

Section ResponseLifecycle.

Implicit Types (r : Response.t) (ops : list Response.Op).

(** [responseData] maps a field id to the value of the last answer that
    carries it, and has no entry for an id that no answer carries (nor
    for [__proto__]). *)
Theorem responseData_lookup r (k : string) :
  Response.responseData r !! k
  = if String.eqb k "__proto__" then None
    else Response.value
           <$> last (List.filter
                       (fun a => String.eqb (Response.fieldId a) k)
                       (Response.responses r)).
Proof.
  unfold Response.responseData.
  induction (Response.responses r) as [| a l IH] using rev_ind.
  - simpl. rewrite lookup_empty. by destruct (String.eqb k "__proto__").
  - rewrite fold_left_app, List.filter_app, last_app. simpl.
    destruct (String.eqb_spec (Response.fieldId a) "__proto__") as [Hp | Hp].
    + rewrite IH.
      destruct (String.eqb_spec k "__proto__") as [-> | Hk]; [done |].
      destruct (String.eqb_spec (Response.fieldId a) k) as [Hak | Hak];
        [congruence | done].
    + destruct (String.eqb_spec (Response.fieldId a) k) as [Hak | Hak]; simpl.
      * subst k. rewrite lookup_insert_eq.
        by destruct (String.eqb_spec (Response.fieldId a) "__proto__").
      * rewrite lookup_insert_ne by done. exact IH.
Qed.

Lemma attempt_effect r (e : Response.SyncError * Date) :
  let r' := Response.attempt r e in
  Response.isSynced (Response.syncStatus r')
  = Response.isSynced (Response.syncStatus r)
  /\ Response.syncAttempts (Response.syncStatus r')
     = Response.syncAttempts (Response.syncStatus r) + 1
  /\ (Response.status r <> Response.synced ->
      Response.status r' <> Response.synced).
Proof.
  unfold Response.attempt, Response.updateSyncAttempt, Response.save; simpl.
  rewrite pre_save_syncStatus, pre_save_status.
  destruct (Response.SyncError_truthy e.1); simpl; repeat split; done.
Qed.

Lemma attempts_effect (outcomes : list (Response.SyncError * Date)) r :
  let r' := Response.attempts outcomes r in
  Response.isSynced (Response.syncStatus r')
  = Response.isSynced (Response.syncStatus r)
  /\ Response.syncAttempts (Response.syncStatus r')
     = Response.syncAttempts (Response.syncStatus r)
       + Z.of_nat (length outcomes)
  /\ (Response.status r <> Response.synced ->
      Response.status r' <> Response.synced).
Proof.
  revert r. induction outcomes as [| e l IH]; intros r; simpl.
  - repeat split; [lia | done].
  - destruct (IH (Response.attempt r e)) as (Hs & Ha & Hst).
    destruct (attempt_effect r e) as (Hs1 & Ha1 & Hst1).
    unfold Response.attempts in *. simpl in *.
    rewrite Hs, Ha, Hs1, Ha1. repeat split; [lia | auto].
Qed.

(** A new Response is a candidate of [findPendingSync] until it has gone
    through three sync attempts, whatever their outcomes were. *)
Theorem retry_cap (outcomes : list (Response.SyncError * Date))
    (id : ObjectId) (i : Response.Input) :
  Response.pendingSyncQuery
    (Response.attempts outcomes (Response.new id i))
  = (length outcomes <? 3)%nat.
Proof.
  destruct (attempts_effect outcomes (Response.new id i)) as (Hs & Ha & Hst).
  simpl in Hs, Ha. unfold Response.pendingSyncQuery.
  rewrite Hs, Ha. simpl.
  assert (Hne : Response.status
                  (Response.attempts outcomes (Response.new id i))
                <> Response.synced) by (apply Hst; discriminate).
  destruct (Response.Status_eqb _ Response.synced) eqn:He;
    [by apply Status_eqb_eq in He |].
  rewrite andb_true_r.
  destruct (Nat.ltb_spec (length outcomes) 3);
    [apply Z.ltb_lt | apply Z.ltb_ge]; lia.
Qed.

Lemma run_errors (op : Response.Op) r :
  exists added,
    Response.errors (Response.run op r ∅).1 = Response.errors r ++ added
    /\ length added = (if Response.is_addError op then 1 else 0)%nat.
Proof.
  destruct op; simpl;
    unfold Response.addError, Response.updateSyncAttempt,
           Response.markAsSynced, Response.save, Response.pre_save; simpl.
  - eexists [_].
    by destruct (Response.completionPercentage_unset _).
  - exists []. rewrite app_nil_r.
    by destruct (Response.SyncError_truthy error),
                (Response.completionPercentage_unset _).
  - exists []. rewrite app_nil_r.
    by destruct (Response.completionPercentage_unset _).
Qed.

(** The error log is append-only: whatever operations run, the entries
    that were there stay in front, in order, and one entry is added for
    each [addError]. *)
Theorem errors_append_only ops r :
  Response.errors r `prefix_of` Response.errors (Response.runs ops r)
  /\ length (Response.errors (Response.runs ops r))
     = (length (Response.errors r)
        + length (List.filter Response.is_addError ops))%nat.
Proof.
  revert r. induction ops as [| op ops IH]; intros r.
  - simpl. split; [done | lia].
  - destruct (run_errors op r) as (added & Hadd & Hlen).
    destruct (IH (Response.run op r ∅).1) as [Hpre Hcount].
    unfold Response.runs in *. simpl.
    split.
    + etrans; [| exact Hpre]. rewrite Hadd. by apply prefix_app_r.
    + rewrite Hcount, Hadd, length_app, Hlen.
      destruct (Response.is_addError op); simpl; lia.
Qed.

Lemma run_syncAttempts (op : Response.Op) r :
  Response.syncAttempts (Response.syncStatus (Response.run op r ∅).1)
  = Response.syncAttempts (Response.syncStatus r)
    + (if Response.is_updateSyncAttempt op then 1 else 0).
Proof.
  destruct op; simpl;
    unfold Response.addError, Response.updateSyncAttempt,
           Response.markAsSynced, Response.save; simpl;
    rewrite pre_save_syncStatus; simpl; try lia.
  destruct (Response.SyncError_truthy error); simpl; lia.
Qed.

(** Only [updateSyncAttempt] counts as a sync attempt: [markAsSynced]
    and [addError] leave the attempt counter alone. *)
Theorem syncAttempts_counts_updates ops r :
  Response.syncAttempts (Response.syncStatus (Response.runs ops r))
  = Response.syncAttempts (Response.syncStatus r)
    + Z.of_nat (length (List.filter Response.is_updateSyncAttempt ops)).
Proof.
  revert r. induction ops as [| op ops IH]; intros r.
  - simpl. lia.
  - unfold Response.runs in *. simpl.
    rewrite IH, run_syncAttempts.
    destruct (Response.is_updateSyncAttempt op); simpl; lia.
Qed.

Variable createdAt : Response.t -> Date.
Variable dateToString : Date -> string.

(** The aggregation returns no group when no Response matches and one
    group otherwise; in that group the total is the number of matching
    Responses, the per-day list has one entry for each of them, and the
    synced count lies between 0 and the total. *)
Theorem getFormAnalytics_counts (fid : ObjectId)
    (startDate endDate : option Date) (coll : gmap ObjectId Response.t) :
  let matched :=
    filter (fun kr => Response.analytics_match createdAt fid startDate
                        endDate kr.2 = true) coll in
  let result :=
    Response.getFormAnalytics createdAt dateToString fid startDate endDate
      coll in
  (size matched = 0%nat -> result = [])
  /\ (size matched <> 0%nat ->
      exists a,
        result = [a]
        /\ Response.totalResponses a = Z.of_nat (size matched)
        /\ length (Response.responsesByDay a) = size matched
        /\ 0 <= Response.successfulSubmissions a
             <= Response.totalResponses a).
Proof.
  intros matched result. subst result.
  unfold Response.getFormAnalytics. fold matched.
  rewrite <- (length_map_to_list matched).
  destruct (map_to_list matched) as [| kr rest] eqn:Hl.
  - split; [done |]. simpl. done.
  - split; [simpl; discriminate |]. intros _.
    unfold Response.analytics_group.
    set (docs := map snd (kr :: rest)).
    assert (Hlen : length docs = length (kr :: rest))
      by (subst docs; apply length_map).
    change (map snd (kr :: rest)) with docs.
    destruct docs as [| d ds] eqn:Hd; [discriminate |].
    eexists. split; [reflexivity |]. simpl.
    rewrite length_map. simpl in Hlen.
    repeat split; try lia.
    pose proof (List.filter_length_le
                  (fun r => Response.Status_eqb (Response.status r)
                                                Response.synced) (d :: ds)).
    simpl in *. lia.
Qed.

End ResponseLifecycle.

(* ===================================================================== *)
(** * Further properties of the forms router *)
(* ===================================================================== *)

Section FormsRouterMore.

Variable clientUrl : string.
Variable createdAt : Response.t -> Date.
Variable dateToString : Date -> string.

Implicit Types (db : Http.Db) (form : Form.t).

Lemma getFormAnalytics_no_reference (fid : ObjectId)
    (startDate endDate : option Date) (coll : gmap ObjectId Response.t) :
  (forall id r, coll !! id = Some r -> Response.formId r <> fid) ->
  Response.getFormAnalytics createdAt dateToString fid startDate endDate coll
  = [].
Proof.
  intros Hnone. unfold Response.getFormAnalytics.
  replace (filter _ coll) with (∅ : gmap ObjectId Response.t); [done |].
  symmetry. apply map_empty_filter_2. intros id r Hr. simpl.
  unfold Response.analytics_match.
  destruct (String.eqb_spec (Response.formId r) fid) as [Heq | Hne]; simpl.
  - by destruct (Hnone id r Hr).
  - discriminate.
Qed.

(** For a Form that no Response refers to, the analytics route answers
    with the explicit zero-valued object (with an average of 0, not
    [null]) next to the Form's own stats, and changes nothing. *)
Theorem analytics_without_responses form (startDate endDate : option Date)
    db :
  (forall id r, Http.responses db !! id = Some r ->
                Response.formId r <> Form._id form) ->
  FormsRouterOwner.analytics createdAt dateToString form startDate endDate db
  = (FormsRouterOwner.json 200
       (FormsRouterOwner.AnalyticsBody
          {| FormsRouterOwner.fs_totalViews :=
               Form.totalViews (Form.stats form);
             FormsRouterOwner.fs_totalSubmissions :=
               Form.totalSubmissions (Form.stats form);
             FormsRouterOwner.fs_conversionRate :=
               Form.conversionRate (Form.stats form) |}
          FormsRouterOwner.no_analytics), db).
Proof.
  intros Hnone.
  unfold FormsRouterOwner.analytics, FormsRouterOwner.analytics_body,
    Http.try_catch.
  by rewrite (getFormAnalytics_no_reference _ _ _ _ Hnone).
Qed.

Lemma pre_save_shareUrl form :
  exists u,
    Form.shareUrl (Form.shareSettings (Form.pre_save clientUrl form))
    = Some u.
Proof.
  unfold Form.pre_save.
  destruct (Form.isNew form) eqn:Hn; simpl.
  - destruct (0 <? Form.totalViews _); simpl; eauto.
  - unfold Form.shareUrl_unset.
    destruct (Form.shareUrl (Form.shareSettings form)) as [u |] eqn:Hu; simpl.
    + destruct (JS.truthy_string u); simpl;
        destruct (0 <? Form.totalViews _); simpl; eauto.
    + destruct (0 <? Form.totalViews _); simpl; eauto.
Qed.

(** The publish route refuses anything but a boolean with 400 and stores
    nothing; for a boolean it stores the flag, leaves the fields and the
    two counters alone, and always answers with a share URL. *)
Theorem publish_result form (isPublished : JS.Value) db :
  let res := (FormsRouterOwner.publish clientUrl form isPublished db).1 in
  let db' := (FormsRouterOwner.publish clientUrl form isPublished db).2 in
  match isPublished with
  | JS.VBool b =>
      exists form' message shareUrl,
        res = FormsRouterOwner.json 200
                (FormsRouterOwner.Published message (Form._id form) b
                                            (Some shareUrl))
        /\ Http.forms db' !! Form._id form = Some form'
        /\ Form.isPublished form' = b
        /\ Form.isActive form' = Form.isActive form
        /\ Form.fields form' = Form.fields form
        /\ Form.totalViews (Form.stats form')
           = Form.totalViews (Form.stats form)
        /\ Form.totalSubmissions (Form.stats form')
           = Form.totalSubmissions (Form.stats form)
        /\ Http.responses db' = Http.responses db
  | _ =>
      res = FormsRouterOwner.json 400
              (FormsRouterOwner.Message "isPublished must be a boolean")
      /\ db' = db
  end.
Proof.
  unfold FormsRouterOwner.publish, FormsRouterOwner.publish_body.
  destruct isPublished; try (run_handler; done).
  run_handler.
  destruct (pre_save_shareUrl (Form.set_isPublished b form)) as [u Hu].
  destruct (pre_save_frame clientUrl (Form.set_isPublished b form))
    as (Hid & _ & _ & Hflds & _ & Hact & Hpub).
  simpl in Hid, Hflds, Hact, Hpub.
  do 2 eexists. exists u. rewrite Hu, Hid, Hpub.
  split; [reflexivity |]. split; [apply lookup_insert_eq |].
  simpl. repeat split; try done.
  - by rewrite pre_save_totalViews.
  - by rewrite pre_save_totalSubmissions.
Qed.

(** Publishing an active Form opens it to anonymous visitors and
    unpublishing closes it again: the next anonymous read answers 200
    after [isPublished: true] and 403 after [isPublished: false]. *)
Theorem publish_controls_anonymous_read form (b : bool) db :
  Form.isActive form = true ->
  FormsRouter.status
    (FormsRouter.get clientUrl None (Form._id form)
       (FormsRouterOwner.publish clientUrl form (JS.VBool b) db).2).1
  = if b then 200 else 403.
Proof.
  intros Hact.
  unfold FormsRouterOwner.publish, FormsRouterOwner.publish_body,
    FormsRouter.get, FormsRouter.get_body.
  run_handler.
  destruct (pre_save_frame clientUrl (Form.set_isPublished b form))
    as (Hid & _ & _ & _ & _ & Hact' & Hpub).
  simpl in Hid, Hact', Hpub.
  rewrite Hid, lookup_insert_eq. simpl.
  rewrite Hact', Hpub, Hact. by destruct b.
Qed.

(** After a Form has been deleted every read of it answers 404, for its
    owner as for anyone else. *)
Theorem get_after_delete (user : option ObjectId) form db :
  FormsRouter.status
    (FormsRouter.get clientUrl user (Form._id form)
       (FormsRouter.delete form db).2).1
  = 404.
Proof.
  unfold FormsRouter.delete, FormsRouter.delete_body, FormsRouter.get,
    FormsRouter.get_body.
  run_handler. by rewrite lookup_delete_eq.
Qed.

(** An update either succeeds as a whole or stores nothing: it answers
    200 and has stored the edited Form, whose owner, id, Airtable
    binding and counters are those of the Form before; or it answers 400
    or 500 and the database is as it was. *)
Theorem update_all_or_nothing form (b : FormsRouter.UpdateBody) db :
  let res := (FormsRouter.update clientUrl form b db).1 in
  let db' := (FormsRouter.update clientUrl form b db).2 in
  (exists form',
     FormsRouter.status res = 200
     /\ Http.forms db' !! Form._id form = Some form'
     /\ Form._id form' = Form._id form
     /\ Form.userId form' = Form.userId form
     /\ Form.airtableBaseId form' = Form.airtableBaseId form
     /\ Form.airtableTableId form' = Form.airtableTableId form
     /\ Form.totalViews (Form.stats form')
        = Form.totalViews (Form.stats form)
     /\ Form.totalSubmissions (Form.stats form')
        = Form.totalSubmissions (Form.stats form)
     /\ Http.responses db' = Http.responses db)
  \/ ((FormsRouter.status res = 400 \/ FormsRouter.status res = 500)
      /\ db' = db).
Proof.
  unfold FormsRouter.update, FormsRouter.update_body. run_handler.
  destruct (FormsRouter.u_fields b) as [fields |]; simpl.
  - destruct (FormsRouter.first_invalid 0 fields); simpl; [right; auto |].
    destruct (Form.cast_fields (FormsRouter.with_orders fields)) as [fs |];
      simpl; [| right; auto].
    left.
    match goal with
    | |- context [Form.pre_save clientUrl ?f0] =>
        destruct (pre_save_frame clientUrl f0) as (Hid & Hu & _);
        pose proof (pre_save_totalViews clientUrl f0) as Hv;
        pose proof (pre_save_totalSubmissions clientUrl f0) as Hs;
        assert (Hfix : Form._id f0 = Form._id form
                       /\ Form.userId f0 = Form.userId form
                       /\ Form.stats f0 = Form.stats form
                       /\ Form.airtableBaseId f0 = Form.airtableBaseId form
                       /\ Form.airtableTableId f0 = Form.airtableTableId form)
          by (destruct (FormsRouter.present (FormsRouter.u_title b)),
                (FormsRouter.u_description b), (FormsRouter.u_settings b),
                (FormsRouter.u_isActive b), (FormsRouter.u_isPublished b);
              repeat split)
    end.
    destruct Hfix as (Hid0 & Hu0 & Hst0 & Hb0 & Ht0).
    eexists. split; [reflexivity |].
    split; [simpl; rewrite Hid, Hid0; apply lookup_insert_eq |].
    simpl. rewrite Hid, Hu, Hv, Hs, Hid0, Hu0, Hst0, <- Hb0, <- Ht0.
    repeat split.
    + unfold Form.pre_save.
      destruct (Form.isNew _ || Form.shareUrl_unset _); simpl;
        destruct (0 <? Form.totalViews _); simpl; done.
    + unfold Form.pre_save.
      destruct (Form.isNew _ || Form.shareUrl_unset _); simpl;
        destruct (0 <? Form.totalViews _); simpl; done.
  - left.
    match goal with
    | |- context [Form.pre_save clientUrl ?f0] =>
        destruct (pre_save_frame clientUrl f0) as (Hid & Hu & _);
        pose proof (pre_save_totalViews clientUrl f0) as Hv;
        pose proof (pre_save_totalSubmissions clientUrl f0) as Hs;
        assert (Hfix : Form._id f0 = Form._id form
                       /\ Form.userId f0 = Form.userId form
                       /\ Form.stats f0 = Form.stats form
                       /\ Form.airtableBaseId f0 = Form.airtableBaseId form
                       /\ Form.airtableTableId f0 = Form.airtableTableId form)
          by (destruct (FormsRouter.present (FormsRouter.u_title b)),
                (FormsRouter.u_description b), (FormsRouter.u_settings b),
                (FormsRouter.u_isActive b), (FormsRouter.u_isPublished b);
              repeat split)
    end.
    destruct Hfix as (Hid0 & Hu0 & Hst0 & Hb0 & Ht0).
    eexists. split; [reflexivity |].
    split; [simpl; rewrite Hid, Hid0; apply lookup_insert_eq |].
    simpl. rewrite Hid, Hu, Hv, Hs, Hid0, Hu0, Hst0, <- Hb0, <- Ht0.
    repeat split.
    + unfold Form.pre_save.
      destruct (Form.isNew _ || Form.shareUrl_unset _); simpl;
        destruct (0 <? Form.totalViews _); simpl; done.
    + unfold Form.pre_save.
      destruct (Form.isNew _ || Form.shareUrl_unset _); simpl;
        destruct (0 <? Form.totalViews _); simpl; done.
Qed.

Lemma first_invalid_from (fields : list Form.FieldObject) (k i : nat) :
  FormsRouter.first_invalid k fields = Some i <->
  exists n,
    i = (k + n)%nat
    /\ (exists fo, fields !! n = Some fo
                   /\ FormsRouter.missing_required fo = true)
    /\ (forall j fo, (j < n)%nat -> fields !! j = Some fo ->
                     FormsRouter.missing_required fo = false).
Proof.
  revert k. induction fields as [| fo rest IH]; intros k; simpl.
  - split; [discriminate |]. intros (n & _ & (x & Hx & _) & _).
    by rewrite lookup_nil in Hx.
  - destruct (FormsRouter.missing_required fo) eqn:Hm.
    + split.
      * intros [= <-]. exists 0%nat.
        repeat split; [lia | by exists fo | intros; lia].
      * intros (n & -> & _ & Hbefore).
        destruct n as [| n]; [f_equal; lia |].
        specialize (Hbefore 0%nat fo ltac:(lia) eq_refl). congruence.
    + rewrite IH. split.
      * intros (n & -> & Hat & Hbefore). exists (S n).
        repeat split; [lia | exact Hat |].
        intros [| j] fo' Hj Hfo'; simpl in Hfo'; [congruence |].
        apply (Hbefore j fo'); [lia | done].
      * intros (n & -> & (x & Hx & Hxm) & Hbefore).
        destruct n as [| n]; simpl in Hx; [congruence |].
        exists n. repeat split; [lia | by exists x |].
        intros j fo' Hj Hfo'. apply (Hbefore (S j) fo'); [lia | done].
Qed.

(** The validation loop of create and update reports the first field
    that lacks one of the four required properties: the index it finds
    is that of an offending field, and no field before it offends. *)
Theorem first_invalid_least (fields : list Form.FieldObject) (i : nat) :
  FormsRouter.first_invalid 0 fields = Some i <->
  (exists fo, fields !! i = Some fo
              /\ FormsRouter.missing_required fo = true)
  /\ (forall j fo, (j < i)%nat -> fields !! j = Some fo ->
                   FormsRouter.missing_required fo = false).
Proof.
  rewrite first_invalid_from. split.
  - intros (n & -> & H). exact H.
  - intros H. exists i. split; [done | exact H].
Qed.

(** A duplicate starts from scratch: whatever the source has counted and
    whether or not it is active, the copy is stored active, with zero
    views, submissions and conversion rate, owned by the requester, and
    with a share URL and embed snippet of its own id. *)
Theorem duplicate_starts_fresh (newId userId : ObjectId)
    (original : Form.t) (title : option string) db :
  Form.valid original = true ->
  let db' :=
    (FormsRouter.duplicate clientUrl newId userId original title db).2 in
  exists dup,
    Http.forms db' !! newId = Some dup
    /\ Form.stats dup = Form.default_stats
    /\ Form.isActive dup = true
    /\ Form.isNew dup = false
    /\ Form.userId dup = userId
    /\ Form.description dup = Form.description original
    /\ Form.airtableBaseId dup = Form.airtableBaseId original
    /\ Form.airtableTableId dup = Form.airtableTableId original
    /\ Form.shareSettings dup
       = {| Form.isPublic := true;
            Form.shareUrl := Some newId;
            Form.embedCode := Some (Form.embed_snippet clientUrl newId) |}
    /\ Http.responses db' = Http.responses db.
Proof.
  intros Hvalid db'. subst db'.
  unfold Form.valid in Hvalid. rewrite !andb_true_iff in Hvalid.
  destruct Hvalid as [[[[[Ht Hb] Hbn] Htb] Htn] Hfs].
  unfold FormsRouter.duplicate, FormsRouter.duplicate_body.
  unfold Http.try_catch, Http.bind, Http.Form_new, Form.new; simpl.
  assert (Htitle : JS.truthy_string
            (if FormsRouter.present title then default EmptyString title
             else Form.title original +:+ " (Copy)") = true).
  { destruct title as [t |]; simpl; [| apply copy_title_truthy].
    destruct (JS.truthy_string t) eqn:Ht'; [done | apply copy_title_truthy]. }
  rewrite Htitle; simpl.
  rewrite Hb, Hbn, Htb, Htn; simpl.
  rewrite (cast_fields_toObject _ Hfs); simpl.
  run_handler.
  eexists. split; [apply lookup_insert_eq |].
  simpl. repeat split.
Qed.

End FormsRouterMore.

Lemma analytics_without_responses_witness :
  FormsRouterOwner.status
    (FormsRouterOwner.analytics Sample.createdAt Sample.dateToString
       Sample.published_form None None Sample.quiet_db).1 = 200.
Proof.
  rewrite (analytics_without_responses Sample.createdAt Sample.dateToString
             Sample.published_form None None Sample.quiet_db);
    [reflexivity |].
  intros id r Hr. unfold Sample.quiet_db in Hr. cbn [Http.responses] in Hr.
  apply lookup_singleton_Some in Hr as [_ <-]. discriminate.
Defined.

Lemma publish_controls_anonymous_read_witness :
  FormsRouter.status
    (FormsRouter.get Sample.clientUrl None "form1"
       (FormsRouterOwner.publish Sample.clientUrl Sample.contact_form
          (JS.VBool true) Sample.db).2).1 = 200.
Proof.
  exact (publish_controls_anonymous_read Sample.clientUrl Sample.contact_form
           true Sample.db eq_refl).
Defined.

Lemma duplicate_starts_fresh_witness :
  exists dup,
    Http.forms
      (FormsRouter.duplicate Sample.clientUrl "form2" "user1"
         Sample.published_form None Sample.db).2 !! "form2" = Some dup
    /\ Form.stats dup = Form.default_stats.
Proof.
  destruct (duplicate_starts_fresh Sample.clientUrl "form2" "user1"
              Sample.published_form None Sample.db eq_refl)
    as (dup & Hstored & Hstats & _).
  exists dup. split; [exact Hstored | exact Hstats].
Defined.

(* ===================================================================== *)
(** * Further properties of the User model and the auth routes *)
(* ===================================================================== *)

Section AuthMore.

Variable exchange_refresh : string -> option AuthRouter.RefreshData.

Implicit Types (u : User.t) (st : AuthRouter.State).

Lemma get_prop_delete_prop (k k' : string) (o : list (string * JS.Value)) :
  k <> k' ->
  JS.get_prop k (JS.VObject (User.delete_prop k' o))
  = JS.get_prop k (JS.VObject o).
Proof.
  intros Hne. unfold JS.get_prop, User.delete_prop.
  induction o as [| [k0 v0] o IH]; simpl; [done |].
  destruct (String.eqb_spec k0 k') as [-> | Hk0]; simpl.
  - destruct (String.eqb_spec k' k) as [<- | _]; [done | exact IH].
  - destruct (String.eqb_spec k0 k); [done | exact IH].
Qed.

(** [toJSON] takes away the two token paths and nothing else: neither
    token key occurs in the result, and every other path reads as it does
    on the plain object. *)
Theorem toJSON_removes_only_tokens u :
  JS.has_key "airtableAccessToken" (User.toJSON u) = false
  /\ JS.has_key "airtableRefreshToken" (User.toJSON u) = false
  /\ (forall k : string,
        k <> "airtableAccessToken" -> k <> "airtableRefreshToken" ->
        JS.get_prop k (User.toJSON u)
        = JS.get_prop k (JS.VObject (User.toObject u))).
Proof.
  destruct (toJSON_hides_tokens u) as (Ha & Hr & _).
  repeat split; [exact Ha | exact Hr |].
  intros k Hka Hkr. unfold User.toJSON.
  by rewrite !get_prop_delete_prop.
Qed.

Lemma refresh_stores (userId : ObjectId) (now : Date) st u
    (rt : string) (data : AuthRouter.RefreshData) :
  AuthRouter.users st !! userId = Some u ->
  User._id u = userId ->
  User.airtableRefreshToken u = Some rt ->
  JS.truthy_string rt = true ->
  exchange_refresh rt = Some data ->
  AuthRouter.refresh exchange_refresh userId now st
  = (AuthRouter.json 200
       (JS.VObject
          [("message", JS.VString "Token refreshed successfully")]),
     {| AuthRouter.users :=
          <[userId :=
              User.pre_save now
                (User.set_tokens (AuthRouter.access_token data)
                   (if AuthRouter.present (AuthRouter.refresh_token data)
                    then AuthRouter.refresh_token data else Some rt)
                   (Some (now + AuthRouter.expires_in data * 1000)) u)]>
            (AuthRouter.users st);
        AuthRouter.session := AuthRouter.session st |}).
Proof.
  intros Hu Hid Hrt Htruthy Hx.
  unfold AuthRouter.refresh. rewrite Hu, Hrt, Htruthy. simpl.
  rewrite Hx. simpl. by rewrite Hid.
Qed.




(** [/me] and [/verify] only read: they leave the users and the session
    untouched, and neither token path occurs in what they answer. *)
Theorem profile_reads_are_safe (userId : ObjectId) (now : Date) st :
  (AuthRouter.me userId now st).2 = st
  /\ (AuthRouter.verify userId now st).2 = st
  /\ JS.has_key "airtableAccessToken"
       (AuthRouter.body (AuthRouter.me userId now st).1) = false
  /\ JS.has_key "airtableRefreshToken"
       (AuthRouter.body (AuthRouter.me userId now st).1) = false
  /\ JS.has_key "airtableAccessToken"
       (AuthRouter.body (AuthRouter.verify userId now st).1) = false
  /\ JS.has_key "airtableRefreshToken"
       (AuthRouter.body (AuthRouter.verify userId now st).1) = false.
Proof.
  unfold AuthRouter.me, AuthRouter.verify.
  destruct (AuthRouter.users st !! userId) as [u |]; [| repeat split].
  destruct (toJSON_hides_tokens u) as (Ha & Hr & _).
  destruct (User.isActive u), (User.isTokenExpired now u); simpl;
    repeat split; try done;
    unfold User.Profile_toObject;
    by destruct (User.name (User.profile u)),
      (User.avatarUrl (User.profile u)),
      (User.airtableUsername (User.profile u)).
Qed.

End AuthMore.

Section AccountDeletion.

Implicit Types (st : AuthAccount.State).

Lemma elem_of_formIds_of (userId fid : ObjectId)
    (coll : gmap ObjectId Form.t) :
  (forall id f, coll !! id = Some f -> Form._id f = id) ->
  fid ∈ AuthAccount.formIds_of userId coll
  <-> exists f, coll !! fid = Some f /\ Form.userId f = userId.
Proof.
  intros Hkeys. unfold AuthAccount.formIds_of.
  rewrite list_elem_of_fmap. split.
  - intros ([id f] & -> & Hin). simpl.
    apply elem_of_map_to_list, map_lookup_filter_Some in Hin as [Hf Hu].
    simpl in Hu. rewrite (Hkeys id f Hf). eauto.
  - intros (f & Hf & Hu). exists (fid, f). simpl.
    split; [symmetry; by apply Hkeys |].
    apply elem_of_map_to_list, map_lookup_filter_Some. by split.
Qed.

(** Deleting an account removes the user, every Form the user owns and
    every Response to one of those Forms, and destroys the session; the
    Forms of other users, the Responses to them and the other users are
    still there.  For an unknown user the route answers 404 and deletes
    nothing. *)
Theorem delete_account_cascades (userId : ObjectId) st :
  (forall id f, AuthAccount.forms st !! id = Some f -> Form._id f = id) ->
  let res := (AuthAccount.delete_account userId st).1 in
  let st' := (AuthAccount.delete_account userId st).2 in
  (AuthAccount.users st !! userId = None ->
   AuthRouter.status res = 404 /\ st' = st)
  /\ (is_Some (AuthAccount.users st !! userId) ->
      AuthRouter.status res = 200
      /\ AuthAccount.users st' !! userId = None
      /\ AuthAccount.session st' = None
      /\ (forall id f, AuthAccount.forms st' !! id = Some f ->
                       Form.userId f <> userId)
      /\ (forall rid r f,
            AuthAccount.responses st' !! rid = Some r ->
            AuthAccount.forms st !! Response.formId r = Some f ->
            Form.userId f <> userId)
      /\ (forall id f, AuthAccount.forms st !! id = Some f ->
                       Form.userId f <> userId ->
                       AuthAccount.forms st' !! id = Some f)
      /\ (forall rid r,
            AuthAccount.responses st !! rid = Some r ->
            (forall f, AuthAccount.forms st !! Response.formId r = Some f ->
                       Form.userId f <> userId) ->
            AuthAccount.responses st' !! rid = Some r)
      /\ (forall other, other <> userId ->
            AuthAccount.users st' !! other = AuthAccount.users st !! other)).
Proof.
  intros Hkeys res st'. subst res st'.
  unfold AuthAccount.delete_account.
  destruct (AuthAccount.users st !! userId) as [u |] eqn:Hu; simpl.
  - split; [discriminate |]. intros _.
    repeat split.
    + apply lookup_delete_eq.
    + intros id f Hf. by apply map_lookup_filter_Some in Hf as [_ Hne].
    + intros rid r f Hr Hf Howner.
      apply map_lookup_filter_Some in Hr as [_ Hnot]. simpl in Hnot.
      apply Hnot, elem_of_formIds_of; eauto.
    + intros id f Hf Hne. by apply map_lookup_filter_Some.
    + intros rid r Hr Hkept. apply map_lookup_filter_Some.
      split; [done |]. simpl. intros Hin.
      apply elem_of_formIds_of in Hin as (f & Hf & Howner); [| done].
      by apply (Hkept f Hf).
    + intros other Hne. by apply lookup_delete_ne.
  - split; [done |]. by intros [? ?].
Qed.

End AccountDeletion.




Lemma delete_account_cascades_witness :
  let st' := (AuthAccount.delete_account "user1" Sample.account).2 in
  AuthAccount.users st' !! "user1" = None
  /\ AuthAccount.forms st' !! "form1" = None
  /\ AuthAccount.responses st' !! "resp1" = None
  /\ is_Some (AuthAccount.responses st' !! "resp2").
Proof.
  assert (Hkeys : forall id f,
            AuthAccount.forms Sample.account !! id = Some f ->
            Form._id f = id).
  { intros id f Hf. unfold Sample.account in Hf.
    cbn [AuthAccount.forms] in Hf.
    apply lookup_singleton_Some in Hf as [<- <-]. reflexivity. }
  destruct (delete_account_cascades "user1" Sample.account Hkeys)
    as (_ & Hdeleted).
  destruct Hdeleted as (_ & Huser & _); [by eexists |].
  split; [exact Huser |].
  split; [by vm_compute |]. split; [by vm_compute |].
  eexists. by vm_compute.
Defined.

(* ===================================================================== *)
(** * Properties of the Airtable router *)
(* ===================================================================== *)

Section AirtableMore.

Import AirtableRouter.

Variable meta_bases : Try JS.Value.
Variable meta_tables : string -> Try JS.Value.
Variable create_record : string -> string -> JS.Value -> Try JS.Value.

Lemma local_and_then {A B} (m : Try A) (k : A -> Try B) :
  local m -> (forall a, local (k a)) -> local (and_then m k).
Proof.
  intros Hm Hk e. destruct m as [e' | a]; simpl.
  - intros [= <-]. by apply Hm.
  - apply Hk.
Qed.

Lemma local_inr {A} (a : A) : local (inr a : Try A).
Proof. intros e. discriminate. Qed.

Lemma local_member k v : local (member k v).
Proof. intros e. destruct v; simpl; intros [= <-]; reflexivity. Qed.

Lemma local_array_member what k method owner :
  local (array_member what k method owner).
Proof.
  apply local_and_then; [apply local_member |].
  intros v e. destruct v; simpl; intros [= <-]; reflexivity.
Qed.

Lemma local_map_try {A B} (f : A -> Try B) (l : list A) :
  (forall x, local (f x)) -> local (map_try f l).
Proof.
  intros Hf. induction l as [| x l IH]; simpl; [apply local_inr |].
  apply local_and_then; [apply Hf |]. intros y.
  apply local_and_then; [exact IH |]. intros ys. apply local_inr.
Qed.

Lemma local_field_view field : local (field_view field).
Proof.
  apply local_and_then; [apply local_member |]. intros. apply local_inr.
Qed.

Lemma local_table_view table : local (table_view table).
Proof.
  apply local_and_then; [apply local_member |]. intros id.
  apply local_and_then; [apply local_array_member |]. intros fs.
  apply local_and_then; [apply local_map_try, local_field_view |].
  intros. apply local_inr.
Qed.

Lemma local_find_by_id id items : local (find_by_id id items).
Proof.
  induction items as [| t items IH]; simpl; [apply local_inr |].
  apply local_and_then; [apply local_member |]. intros tid.
  destruct (is_string id tid); [apply local_inr | exact IH].
Qed.

Lemma local_filter_supported fs : local (filter_supported fs).
Proof.
  induction fs as [| f fs IH]; simpl; [apply local_inr |].
  apply local_and_then; [apply local_member |]. intros ty.
  apply local_and_then; [exact IH |]. intros. apply local_inr.
Qed.

Lemma has_status_local code e :
  response_status e = None -> has_status code e = false.
Proof. unfold has_status. by intros ->. Qed.

Lemma has_status_true code e :
  has_status code e = true <-> response_status e = Some code.
Proof.
  unfold has_status. destruct (response_status e) as [c |]; [| done].
  rewrite Z.eqb_eq. split; [by intros -> | by intros [= ->]].
Qed.

Lemma filter_supported_types fs kept :
  filter_supported fs = inr kept ->
  Forall (fun field =>
            exists s, JS.get_prop "type" field = JS.VString s
                      /\ In s supportedTypes) kept.
Proof.
  revert kept. induction fs as [| f fs IH]; cbn [filter_supported];
    intros kept.
  - intros [= <-]. constructor.
  - destruct (member "type" f) as [e | ty] eqn:Hty; cbn [and_then]; [done |].
    destruct (filter_supported fs) as [e | kept0]; cbn [and_then]; [done |].
    specialize (IH kept0 eq_refl).
    destruct (existsb (fun s => is_string s ty) supportedTypes) eqn:Hin;
      intros [= <-]; [| exact IH].
    constructor; [| exact IH].
    apply existsb_exists in Hin as (s & Hs & Heq).
    destruct ty; try discriminate Heq. simpl in Heq.
    apply String.eqb_eq in Heq as ->.
    exists s. split; [| exact Hs].
    destruct f; simpl in Hty; try discriminate Hty; by injection Hty.
Qed.

Lemma field_view_type field view :
  field_view field = inr view ->
  JS.get_prop "type" view = JS.get_prop "type" field.
Proof.
  unfold field_view. destruct (member "id" field); simpl; [done |].
  by intros [= <-].
Qed.

Lemma map_try_Forall {A B} (f : A -> Try B) (P : A -> Prop) (Q : B -> Prop)
    (l : list A) (l' : list B) :
  (forall x y, f x = inr y -> P x -> Q y) ->
  map_try f l = inr l' -> Forall P l -> Forall Q l'.
Proof.
  intros Hf. revert l'. induction l as [| x l IH]; simpl; intros l'.
  - intros [= <-] _. constructor.
  - destruct (f x) as [e | y] eqn:Hy; simpl; [done |].
    destruct (map_try f l) as [e | ys]; simpl; [done |].
    intros [= <-] Hall. inversion Hall; subst.
    constructor; [by eapply Hf | by apply IH].
Qed.

(** When the fields route answers 200, every field it lists has one of
    the five supported types, and each of these is a field type of the
    Form schema. *)
Theorem fields_only_supported (baseId tableId : string) :
  let res := fields meta_tables baseId tableId in
  status res = 200 ->
  exists views,
    JS.get_prop "fields" (body res) = JS.VArray views
    /\ Forall (fun view =>
                 exists s, JS.get_prop "type" view = JS.VString s
                           /\ In s supportedTypes
                           /\ is_Some (Form.FieldType_of_name s)) views.
Proof.
  intros res. subst res. unfold fields, fields_try.
  destruct (meta_tables baseId) as [e | data]; simpl.
  { destruct (has_status 401 e); discriminate. }
  destruct (array_member "data" "tables" "find" data) as [e | ts]; simpl.
  { destruct (has_status 401 e); discriminate. }
  destruct (find_by_id tableId ts) as [e | [table |]]; simpl.
  { destruct (has_status 401 e); discriminate. }
  2: discriminate.
  destruct (array_member "table" "fields" "filter" table) as [e | fs]; simpl.
  { destruct (has_status 401 e); discriminate. }
  destruct (filter_supported fs) as [e | kept] eqn:Hkept; simpl.
  { destruct (has_status 401 e); discriminate. }
  destruct (map_try field_view kept) as [e | views] eqn:Hviews; simpl.
  { destruct (has_status 401 e); discriminate. }
  intros _. exists views. split; [reflexivity |].
  eapply map_try_Forall; [| exact Hviews | exact (filter_supported_types _ _ Hkept)].
  intros field view Hview (s & Hs & Hin).
  exists s. rewrite (field_view_type _ _ Hview).
  split; [exact Hs |]. split; [exact Hin |].
  simpl in Hin.
  destruct Hin as [<- | [<- | [<- | [<- | [<- | []]]]]]; by eexists.
Qed.

(** A 401 of the provider is passed on by all four routes as 401 with
    [needsRefresh: true]. *)
Theorem provider_401_needs_refresh (e : Error)
    (baseId tableId : string) (record : JS.Value) :
  response_status e = Some 401 ->
  (meta_bases = inl e -> bases meta_bases = authorization_expired)
  /\ (meta_tables baseId = inl e ->
      tables meta_tables baseId = authorization_expired
      /\ fields meta_tables baseId tableId = authorization_expired)
  /\ (not_an_object record = false ->
      create_record baseId tableId
        (JS.VObject [("fields", record); ("typecast", JS.VBool true)])
      = inl e ->
      records create_record baseId tableId record = authorization_expired).
Proof.
  intros He. apply has_status_true in He.
  repeat split.
  - unfold bases, bases_try. intros ->. simpl. by rewrite He.
  - unfold tables, tables_try. rewrite H. simpl. by rewrite He.
  - unfold fields, fields_try. rewrite H. simpl. by rewrite He.
  - intros Hobj Hc. unfold records, records_try. rewrite Hobj, Hc. simpl.
    by rewrite He.
Qed.

(** A 404 of the tables route always comes from a 404 of the provider,
    and a 404 of the fields route never does: there the schema was
    fetched and no table in it has the id asked for.  With the schema
    fetched the tables route answers 200 or 500 only. *)
Theorem not_found_origin (baseId tableId : string) :
  (status (tables meta_tables baseId) = 404 ->
   exists e, meta_tables baseId = inl e /\ response_status e = Some 404)
  /\ (status (fields meta_tables baseId tableId) = 404 ->
      exists data tables,
        meta_tables baseId = inr data
        /\ array_member "data" "tables" "find" data = inr tables
        /\ find_by_id tableId tables = inr None)
  /\ (forall data, meta_tables baseId = inr data ->
      status (tables meta_tables baseId) = 200
      \/ status (tables meta_tables baseId) = 500).
Proof.
  assert (Hfetched : forall data, meta_tables baseId = inr data ->
            status (tables meta_tables baseId) = 200
            \/ status (tables meta_tables baseId) = 500).
  { intros data Hdata. unfold tables, tables_try. rewrite Hdata. simpl.
    pose proof (local_array_member "data" "tables" "map" data) as Harr.
    destruct (array_member "data" "tables" "map" data) as [e | ts]; simpl.
    { rewrite !has_status_local by (by apply Harr). by right. }
    pose proof (local_map_try table_view ts local_table_view) as Hmap.
    destruct (map_try table_view ts) as [e | views]; simpl.
    { rewrite !has_status_local by (by apply Hmap). by right. }
    by left. }
  split; [| split; [| exact Hfetched]].
  - destruct (meta_tables baseId) as [e | data] eqn:Hmeta.
    + unfold tables, tables_try. rewrite Hmeta. simpl.
      destruct (has_status 401 e); [discriminate |].
      destruct (has_status 404 e) eqn:H404; [| discriminate].
      intros _. exists e. split; [done |]. by apply has_status_true.
    + intros H404. destruct (Hfetched data eq_refl) as [H | H];
        rewrite H in H404; discriminate.
  - unfold fields, fields_try.
    destruct (meta_tables baseId) as [e | data]; simpl.
    { destruct (has_status 401 e); discriminate. }
    destruct (array_member "data" "tables" "find" data) as [e | ts] eqn:Harr;
      simpl.
    { destruct (has_status 401 e); discriminate. }
    destruct (find_by_id tableId ts) as [e | [table |]] eqn:Hfind; simpl.
    { destruct (has_status 401 e); discriminate. }
    2: { intros _. by exists data, ts. }
    destruct (array_member "table" "fields" "filter" table) as [e | fs];
      simpl.
    { destruct (has_status 401 e); discriminate. }
    destruct (filter_supported fs) as [e | kept]; simpl.
    { destruct (has_status 401 e); discriminate. }
    destruct (map_try field_view kept) as [e | views]; simpl.
    { destruct (has_status 401 e); discriminate. }
    discriminate.
Qed.

(** The records route answers 200 exactly when [fields] is an object or
    an array and the provider returns a record that is neither
    [undefined] nor [null]; the answer then carries that record. *)
Theorem records_success_iff (baseId tableId : string) (record : JS.Value) :
  let res := records create_record baseId tableId record in
  status res = 200
  <-> exists data,
        not_an_object record = false
        /\ create_record baseId tableId
             (JS.VObject [("fields", record); ("typecast", JS.VBool true)])
           = inr data
        /\ data <> JS.VUndefined /\ data <> JS.VNull
        /\ JS.get_prop "record" (body res) = data
        /\ JS.get_prop "recordId" (body res) = JS.get_prop "id" data.
Proof.
  intros res. subst res. unfold records, records_try.
  destruct (not_an_object record); simpl.
  { split; [discriminate | by intros (? & ? & _)]. }
  destruct (create_record baseId tableId _) as [e | data]; simpl.
  { split; [| by intros (? & _ & ? & _)].
    destruct (has_status 401 e); [discriminate |].
    destruct (has_status 422 e); discriminate. }
  destruct data; simpl;
    try (split; [discriminate | intros (? & _ & [= <-] & ? & ? & _); done]);
    (split; [intros _; eexists; repeat split; done
            | reflexivity]).
Qed.

End AirtableMore.

Lemma fields_only_supported_witness :
  exists views,
    JS.get_prop "fields"
      (AirtableRouter.body
         (AirtableRouter.fields Sample.meta_tables "app1" "tbl1"))
    = JS.VArray views
    /\ length views = 2%nat.
Proof.
  destruct (fields_only_supported Sample.meta_tables "app1" "tbl1" eq_refl)
    as (views & Hviews & _).
  exists views. split; [exact Hviews |].
  vm_compute in Hviews. by injection Hviews as <-.
Defined.

Lemma provider_401_needs_refresh_witness :
  AirtableRouter.records Sample.create_record_expired "app1" "tbl1"
    (JS.VObject [("Name", JS.VString "Ada")])
  = AirtableRouter.authorization_expired.
Proof.
  refine (proj2 (proj2 (provider_401_needs_refresh
                          (inl Sample.expired) (fun _ => inl Sample.expired)
                          Sample.create_record_expired Sample.expired
                          "app1" "tbl1"
                          (JS.VObject [("Name", JS.VString "Ada")])
                          eq_refl)) eq_refl eq_refl).
Defined.

(* ===================================================================== *)
(** * Properties of the frontend reducers *)
(* ===================================================================== *)

Section FormReducer.

Import FormContext.

Variable F : Type.
Variable _id : F -> option string.

Implicit Types (st : State F) (f : F).

Lemma same_id_true (a b : option string) :
  same_id a b = true <-> a = b.
Proof. unfold same_id. apply bool_decide_eq_true. Qed.

Lemma same_id_false (a b : option string) :
  same_id a b = false <-> a <> b.
Proof. unfold same_id. apply bool_decide_eq_false. Qed.

Lemma delete_filter_sublist (id : string) (l : list F) :
  List.filter (fun form => negb (same_id (_id form) (Some id))) l
  `sublist_of` l.
Proof.
  induction l as [| g l IH]; simpl; [constructor |].
  destruct (same_id (_id g) (Some id)); simpl; by constructor.
Qed.

Lemma delete_filter_length (id : string) (l : list F) :
  (length (List.filter
             (fun form => negb (same_id (_id form) (Some id))) l)
   + length (filter (fun g => _id g = Some id) l))%nat
  = length l.
Proof.
  induction l as [| g l IH]; simpl; [done |].
  destruct (same_id (_id g) (Some id)) eqn:Hg; simpl.
  - apply same_id_true in Hg.
    rewrite filter_cons_True by done. simpl. lia.
  - apply same_id_false in Hg.
    rewrite filter_cons_False by done. simpl. lia.
Qed.

(** [DELETE_FORM] drops every form whose [_id] is the payload and keeps
    the others in their order; the current form is dropped exactly when
    its [_id] is the payload.  [UPDATE_FORM] puts the payload in the
    place of every form that has the payload's [_id] and leaves each
    other form where it is; the current form is replaced exactly when
    [currentForm?._id] is the payload's [_id], which for a payload
    without [_id] includes the [null] current form. *)
Theorem delete_and_update_form st (id : string) f :
  let deleted := formReducer F _id st (DELETE_FORM id) in
  let updated := formReducer F _id st (UPDATE_FORM f) in
  forms deleted `sublist_of` forms st
  /\ Forall (fun g => _id g <> Some id) (forms deleted)
  /\ (length (forms deleted)
      + length (filter (fun g => _id g = Some id) (forms st)))%nat
     = length (forms st)
  /\ (forall g, currentForm deleted = Some g
                <-> currentForm st = Some g /\ _id g <> Some id)
  /\ Forall2 (fun g g' => if decide (_id g = _id f) then g' = f else g' = g)
             (forms st) (forms updated)
  /\ map _id (forms updated) = map _id (forms st)
  /\ (current_id F _id st = _id f -> currentForm updated = Some f)
  /\ (current_id F _id st <> _id f -> currentForm updated = currentForm st)
  /\ (currentForm st = None -> _id f = None -> currentForm updated = Some f)
  /\ (Forall (fun g => _id g <> _id f) (forms st) ->
      current_id F _id st <> _id f ->
      updated = st).
Proof.
  intros deleted updated. subst deleted updated. simpl.
  assert (Hcur : current_id F _id st = _id f ->
            (if current_is F _id (_id f) st then Some f else currentForm st)
            = Some f).
  { intros H. apply same_id_true in H. unfold current_is. by rewrite H. }
  assert (Hother : current_id F _id st <> _id f ->
            (if current_is F _id (_id f) st then Some f else currentForm st)
            = currentForm st).
  { intros H. apply same_id_false in H. unfold current_is. by rewrite H. }
  split; [apply delete_filter_sublist |].
  split.
  { apply Forall_forall. intros g Hg.
    apply list_elem_of_In, filter_In in Hg as [_ Hg].
    apply negb_true_iff in Hg. by apply same_id_false. }
  split; [apply delete_filter_length |].
  split.
  { intros g. unfold current_is, current_id.
    destruct (currentForm st) as [c |]; simpl.
    - destruct (same_id (_id c) (Some id)) eqn:Hc.
      + apply same_id_true in Hc. split; [done |].
        intros [[= ->] Hne]. done.
      + apply same_id_false in Hc. split.
        * by intros [= ->].
        * by intros [? _].
    - split; [done | by intros [? _]]. }
  split.
  { induction (forms st) as [| g l IH]; simpl; constructor; [| exact IH].
    destruct (decide (_id g = _id f)) as [Hg | Hg].
    - apply same_id_true in Hg. by rewrite Hg.
    - apply same_id_false in Hg. by rewrite Hg. }
  split.
  { rewrite map_map. apply map_ext. intros g.
    destruct (same_id (_id g) (_id f)) eqn:Hg; [| done].
    apply same_id_true in Hg. done. }
  split; [exact Hcur |]. split; [exact Hother |].
  split.
  { intros Hnull Hf. apply Hcur. unfold current_id. by rewrite Hnull. }
  intros Habsent Hne. rewrite (Hother Hne).
  destruct st as [fs c bs ts fl rs an ld er]. simpl in *.
  f_equal. clear Hcur Hother Hne.
  induction Habsent as [| g fs Hg _ IH]; simpl; [done |].
  rewrite IH. apply same_id_false in Hg. by rewrite Hg.
Qed.

(** Adding a form whose id is new to the state and deleting it again
    gives the state back. *)
Theorem add_then_delete_form st f (id : string) :
  _id f = Some id ->
  Forall (fun g => _id g <> Some id) (forms st) ->
  current_is F _id (Some id) st = false ->
  formReducer F _id (formReducer F _id st (ADD_FORM f))
    (DELETE_FORM id) = st.
Proof.
  intros Hid Hnew Hcur. destruct st as [fs c bs ts fl rs an ld er].
  unfold formReducer. simpl.
  assert (Hsame : same_id (_id f) (Some id) = true)
    by by apply same_id_true.
  rewrite Hsame. simpl.
  unfold current_is, current_id in *. simpl in *. rewrite Hcur.
  f_equal.
  induction Hnew as [| g fs Hg _ IH]; simpl; [done |].
  rewrite IH. apply same_id_false in Hg. by rewrite Hg.
Qed.

End FormReducer.

Lemma add_then_delete_form_witness :
  let st :=
    FormContext.formReducer string Some FormContext.initialState
      (FormContext.SET_FORMS ["form1"; "form2"]) in
  FormContext.formReducer string Some
    (FormContext.formReducer string Some st (FormContext.ADD_FORM "form3"))
    (FormContext.DELETE_FORM "form3") = st.
Proof.
  apply (add_then_delete_form string Some); [reflexivity | | reflexivity].
  repeat constructor; discriminate.
Defined.

Section AuthReducer.

Import AuthContext.

Lemma dispatch_all_snoc (actions : list Action) (a : Action) (st : State) :
  dispatch_all (actions ++ [a]) st = authReducer (dispatch_all actions st) a.
Proof. unfold dispatch_all. by rewrite fold_left_app. Qed.

Lemma login_snoc (actions before after : list Action) (a : Action)
    (u : list (string * JS.Value)) (t : option string) :
  actions ++ [a] = before ++ LOGIN_SUCCESS u t :: after ->
  (after = [] /\ a = LOGIN_SUCCESS u t /\ actions = before)
  \/ exists after', after = after' ++ [a]
       /\ actions = before ++ LOGIN_SUCCESS u t :: after'.
Proof.
  intros Heq. destruct after as [| x after _] using rev_ind.
  - left. apply app_inj_tail in Heq as [-> ->]. by repeat split.
  - right. exists after.
    rewrite app_comm_cons, app_assoc in Heq.
    apply app_inj_tail in Heq as [-> ->]. by split.
Qed.

Lemma login_stands_snoc (actions : list Action) (a : Action) :
  ends_login a = false ->
  (forall u t, a <> LOGIN_SUCCESS u t) ->
  (exists before u t after,
     actions ++ [a] = before ++ LOGIN_SUCCESS u t :: after
     /\ forallb (fun a => negb (ends_login a)) after = true)
  <-> (exists before u t after,
         actions = before ++ LOGIN_SUCCESS u t :: after
         /\ forallb (fun a => negb (ends_login a)) after = true).
Proof.
  intros Hends Hlogin. split.
  - intros (before & u & t & after & Heq & Hafter).
    apply login_snoc in Heq as [(_ & -> & _) | (after' & -> & ->)].
    { by destruct (Hlogin u t). }
    rewrite forallb_app in Hafter.
    apply andb_true_iff in Hafter as [Hafter _].
    exists before, u, t, after'. by split.
  - intros (before & u & t & after & -> & Hafter).
    exists before, u, t, (after ++ [a]).
    split; [by rewrite <- app_assoc |].
    rewrite forallb_app, Hafter. simpl. by rewrite Hends.
Qed.

(** From the initial state the user is authenticated exactly when some
    [LOGIN_SUCCESS] was dispatched and neither [LOGOUT] nor
    [LOGIN_FAILURE] came after it. *)
Theorem authenticated_iff_login_stands (localToken : option string)
    (actions : list Action) :
  isAuthenticated (dispatch_all actions (initialState localToken)) = true
  <-> exists before u t after,
        actions = before ++ LOGIN_SUCCESS u t :: after
        /\ forallb (fun a => negb (ends_login a)) after = true.
Proof.
  induction actions as [| a actions IH] using rev_ind.
  - simpl. split; [discriminate |].
    intros (before & u & t & after & Heq & _). by destruct before.
  - rewrite dispatch_all_snoc.
    destruct a as [| u0 t0 | msg | | flag | | payload].
    + rewrite login_stands_snoc by done. exact IH.
    + split; [| done]. intros _. exists actions, u0, t0, []. by split.
    + split; [done |].
      intros (before & u & t & after & Heq & Hafter).
      apply login_snoc in Heq as [(_ & [=] & _) | (after' & -> & _)].
      rewrite forallb_app in Hafter. simpl in Hafter.
      by rewrite andb_false_r in Hafter.
    + split; [done |].
      intros (before & u & t & after & Heq & Hafter).
      apply login_snoc in Heq as [(_ & [=] & _) | (after' & -> & _)].
      rewrite forallb_app in Hafter. simpl in Hafter.
      by rewrite andb_false_r in Hafter.
    + rewrite login_stands_snoc by done. exact IH.
    + rewrite login_stands_snoc by done. exact IH.
    + rewrite login_stands_snoc by done. exact IH.
Qed.

End AuthReducer.
